(** * Cap-rate dashboard: deal engine and data service

    A shallow embedding of the dashboard's JavaScript core
    (DealModel.js, DataService.js, MarketValidationService, the form
    handling, trend and volatility helpers of DashboardController.js and
    the label helpers of ChartManager.js) together with the properties the
    specification states about it and further properties that the code
    itself shows.

    Numbers.  A JavaScript number is modelled by a rational [Q]: the
    arithmetic is exact, so the theorems are about the formulas the code
    evaluates, not about binary64 rounding.  [NaN] appears only where the
    code tests for it ([parseInt], [parseFloat], [Number]) and is modelled
    there by [None]; [null] and [undefined] are [None] as well.  A
    quotient by zero, which JavaScript answers with an infinity or NaN, is
    0 in [Q]; the code guards its means against empty lists, and the
    theorems that depend on another quotient state what keeps its divisor
    away from zero, or read the metrics from the deal's cache, where they
    are numbers.

    Where a property of the exact formula is lost to rounding, the module
    [Binary64] gives [DealModel.calculate] and [DealModel.validateInputs]
    once more, over binary64 numbers (the primitive floats), and the
    statement says which of the two it is about. *)

From Stdlib Require Import QArith Qround Qabs Qpower Lqa Lia ZArith.
From Stdlib Require Import List String Ascii Bool Sorting.Sorted Permutation.
From Stdlib Require Import Floats.
Import ListNotations.

Local Open Scope Q_scope.

(** ** The JavaScript runtime used by the code *)

Module JS.

(** Comparison operators on numbers. *)
Definition leb (x y : Q) : bool := Qle_bool x y.
Definition ltb (x y : Q) : bool := negb (Qle_bool y x).
Definition geb (x y : Q) : bool := Qle_bool y x.
Definition gtb (x y : Q) : bool := negb (Qle_bool x y).
Definition eqb (x y : Q) : bool := Qeq_bool x y.

(** Truthiness of a number: every number but zero. *)
Definition truthy (x : Q) : bool := negb (Qeq_bool x 0).

(** [Math.pow x y].  A power with a fractional exponent is irrational in
    general; the model is exact on integral exponents (month counts) and
    uses the integer part of the exponent otherwise. *)
Definition Math_pow (x y : Q) : Q := Qpower x (Qfloor y).

(** [Math.sqrt x], to fifteen decimals, rounded down; exact whenever the
    root has at most fifteen decimals. *)
Definition Math_sqrt (x : Q) : Q :=
  Qred (Z.sqrt (Qfloor (x * inject_Z (10 ^ 30))) # 10 ^ 15).

(** [parseFloat (x.toFixed k)]: [x] rounded to [k] decimals, ties away
    from zero (toFixed rounds the absolute value, the larger candidate
    winning a tie); from 10^21 on, toFixed prints the number as it is. *)
Definition toFixed (k : nat) (x : Q) : Q :=
  if Qle_bool (inject_Z (10 ^ 21)) (Qabs x) then x
  else
    let scale := (10 ^ Z.of_nat k)%Z in
    let n := Qfloor (Qabs x * inject_Z scale + (1 # 2)) in
    let r := Qred (n # Z.to_pos scale) in
    if Qle_bool 0 x then r else Qred (- r).

(** *** Strings.  A string is a sequence of one-byte characters; the
    reports are ASCII, so lengths and orders agree with JavaScript's. *)

Definition code (c : ascii) : N := N_of_ascii c.

Definition is_digit (c : ascii) : bool := (48 <=? code c)%N && (code c <=? 57)%N.
Definition is_upper (c : ascii) : bool := (65 <=? code c)%N && (code c <=? 90)%N.
Definition is_lower (c : ascii) : bool := (97 <=? code c)%N && (code c <=? 122)%N.
Definition is_letter (c : ascii) : bool := is_upper c || is_lower c.

(** White space: tab, line feed, vertical tab, form feed, carriage
    return and space. *)
Definition is_space (c : ascii) : bool :=
  ((9 <=? code c)%N && (code c <=? 13)%N) || (code c =? 32)%N.

Definition lower (c : ascii) : ascii :=
  if is_upper c then ascii_of_N (code c + 32) else c.

Fixpoint dropWhile {A} (p : A -> bool) (l : list A) : list A :=
  match l with
  | [] => []
  | x :: r => if p x then dropWhile p r else l
  end.

Fixpoint takeWhile {A} (p : A -> bool) (l : list A) : list A :=
  match l with
  | [] => []
  | x :: r => if p x then x :: takeWhile p r else []
  end.

Definition chars (s : string) : list ascii := list_ascii_of_string s.
Definition str (l : list ascii) : string := string_of_list_ascii l.

Definition trimStart_chars (l : list ascii) : list ascii := dropWhile is_space l.
Definition trim_chars (l : list ascii) : list ascii :=
  rev (dropWhile is_space (rev (dropWhile is_space l))).

(** [s.trim()] *)
Definition trim (s : string) : string := str (trim_chars (chars s)).

(** A string is truthy unless it is empty. *)
Definition truthy_string (s : string) : bool := negb (String.eqb s "").

(** [undefined], [null] and the empty string are falsy. *)
Definition truthy_opt (o : option string) : bool :=
  match o with Some s => truthy_string s | None => false end.

(** [String(v)] for a value that may be [undefined]. *)
Definition toString (o : option string) : string :=
  match o with Some s => s | None => "undefined" end.

(** [/^pat/i.test(s)] for a literal [pat]: a prefix test that ignores
    the case of ASCII letters. *)
Fixpoint prefix_ci (pat s : list ascii) : bool :=
  match pat, s with
  | [], _ => true
  | _ :: _, [] => false
  | p :: pat', c :: s' => Ascii.eqb (lower p) (lower c) && prefix_ci pat' s'
  end.

(** [/^pat$/i.test(s)] for a literal [pat]. *)
Definition equal_ci (pat s : list ascii) : bool :=
  Nat.eqb (List.length pat) (List.length s) && prefix_ci pat s.

(** [s.split(sep)] for a one-character separator. *)
Fixpoint split_chars (sep : ascii) (acc : list ascii) (l : list ascii)
  : list (list ascii) :=
  match l with
  | [] => [rev acc]
  | c :: r => if Ascii.eqb c sep then rev acc :: split_chars sep [] r
              else split_chars sep (c :: acc) r
  end.

Definition split (sep : ascii) (s : string) : list string :=
  map str (split_chars sep [] (chars s)).

(** *** Reading numbers *)

(** The value of a digit in a radix up to sixteen. *)
Definition digit_val (radix : Z) (c : ascii) : option Z :=
  let v := if is_digit c then Some (Z.of_N (code c) - 48)%Z
           else if is_lower c then Some (Z.of_N (code c) - 87)%Z
           else if is_upper c then Some (Z.of_N (code c) - 55)%Z
           else None in
  match v with
  | Some d => if (d <? radix)%Z then Some d else None
  | None => None
  end.

Definition is_radix_digit (radix : Z) (c : ascii) : bool :=
  match digit_val radix c with Some _ => true | None => false end.

(** The number a run of digits denotes. *)
Definition digits_val (radix : Z) (ds : list ascii) : Z :=
  fold_left (fun acc c =>
               match digit_val radix c with
               | Some d => (acc * radix + d)%Z
               | None => acc
               end) ds 0%Z.

(** An optional sign: the factor and the rest. *)
Definition read_sign (l : list ascii) : Z * list ascii :=
  match l with
  | "-"%char :: r => ((-1)%Z, r)
  | "+"%char :: r => (1%Z, r)
  | _ => (1%Z, l)
  end.

Definition is_x (c : ascii) : bool := Ascii.eqb c "x" || Ascii.eqb c "X".
Definition is_e (c : ascii) : bool := Ascii.eqb c "e" || Ascii.eqb c "E".

(** [parseInt(s)] without a radix: leading white space, a sign, a [0x]
    prefix for hexadecimal, then the longest run of digits; [None] is
    NaN. *)
Definition parseInt (v : option string) : option Z :=
  let s := trimStart_chars (chars (toString v)) in
  let '(sign, s) := read_sign s in
  let '(radix, s) :=
    match s with
    | "0"%char :: x :: r => if is_x x then (16%Z, r) else (10%Z, s)
    | _ => (10%Z, s)
    end in
  match takeWhile (is_radix_digit radix) s with
  | [] => None
  | ds => Some (sign * digits_val radix ds)%Z
  end.

(** The longest prefix that is a signed decimal literal (digits, a
    fraction, an exponent): its value and what follows it. *)
Definition read_decimal (l : list ascii) : option (Q * list ascii) :=
  let '(sign, s) := read_sign l in
  let di := takeWhile is_digit s in
  let s1 := dropWhile is_digit s in
  let '(df, s2) :=
    match s1 with
    | "."%char :: r => (takeWhile is_digit r, dropWhile is_digit r)
    | _ => ([], s1)
    end in
  match di, df with
  | [], [] => None
  | _, _ =>
      let '(ex, s3) :=
        match s2 with
        | e :: r =>
            if is_e e then
              let '(esign, r') := read_sign r in
              match takeWhile is_digit r' with
              | [] => (0%Z, s2)
              | de => ((esign * digits_val 10 de)%Z, dropWhile is_digit r')
              end
            else (0%Z, s2)
        | [] => (0%Z, s2)
        end in
      let mant := (digits_val 10 di * 10 ^ Z.of_nat (List.length df)
                   + digits_val 10 df)%Z in
      let q := inject_Z (sign * mant)
               / inject_Z (10 ^ Z.of_nat (List.length df))
               * Qpower 10 ex in
      Some (Qred q, s3)
  end.

(** [parseFloat(s)]: leading white space, then the longest decimal
    literal; [None] is NaN.  (The literal [Infinity], which no report
    contains, is read as NaN.) *)
Definition parseFloat (v : option string) : option Q :=
  match read_decimal (trimStart_chars (chars (toString v))) with
  | Some (q, _) => Some q
  | None => None
  end.

(** [Number(s)] on a string: white space trimmed at both ends, the
    empty string is 0, and the whole of the rest must be a decimal
    literal or a [0x], [0o] or [0b] integer; [None] is NaN.  (As for
    [parseFloat], [Infinity] is read as NaN.) *)
Definition Number (s : string) : option Q :=
  let l := trim_chars (chars s) in
  let prefixed (radix : Z) (r : list ascii) : option Q :=
    match r with
    | [] => None
    | _ => if forallb (is_radix_digit radix) r
           then Some (inject_Z (digits_val radix r)) else None
    end in
  match l with
  | [] => Some 0
  | "0"%char :: x :: r =>
      if is_x x then prefixed 16%Z r
      else if Ascii.eqb x "o" || Ascii.eqb x "O" then prefixed 8%Z r
      else if Ascii.eqb x "b" || Ascii.eqb x "B" then prefixed 2%Z r
      else match read_decimal l with
           | Some (q, []) => Some q
           | _ => None
           end
  | _ => match read_decimal l with
         | Some (q, []) => Some q
         | _ => None
         end
  end.

(** *** Arrays *)

(** [[...new Set(l)]]: the first occurrence of every element, in
    order. *)
Fixpoint uniq_from {A} (eqb : A -> A -> bool) (seen : list A) (l : list A)
  : list A :=
  match l with
  | [] => []
  | x :: r => if existsb (eqb x) seen then uniq_from eqb seen r
              else x :: uniq_from eqb (x :: seen) r
  end.

Definition uniq {A} (eqb : A -> A -> bool) (l : list A) : list A :=
  uniq_from eqb [] l.

(** [l.sort(cmp)].  The sort is stable; it is modelled by insertion:
    [x] goes before the first [y] of the sorted rest for which [cmp x y]
    is not positive (a NaN counts as zero). *)
Definition not_after {A} (cmp : A -> A -> option Q) (x y : A) : bool :=
  match cmp x y with
  | Some v => Qle_bool v 0
  | None => true
  end.

Fixpoint insert_sorted {A} (le : A -> A -> bool) (x : A) (l : list A) : list A :=
  match l with
  | [] => [x]
  | y :: r => if le x y then x :: l else y :: insert_sorted le x r
  end.

Definition sort_by {A} (le : A -> A -> bool) (l : list A) : list A :=
  fold_right (insert_sorted le) [] l.

Definition sort_with {A} (cmp : A -> A -> option Q) (l : list A) : list A :=
  sort_by (not_after cmp) l.

(** [l.sort()] on strings: the order of the character codes. *)
Definition sort (l : list string) : list string := sort_by String.leb l.

(** [l.reduce((sum, x) => sum + x, 0)] *)
Definition sum (l : list Q) : Q := fold_left Qplus l 0.

(** [l.length] as a number. *)
Definition len {A} (l : list A) : Q := inject_Z (Z.of_nat (List.length l)).

(** [Math.min(...l)] and [Math.max(...l)] on a non-empty list. *)
Definition Math_min (x : Q) (l : list Q) : Q :=
  fold_left (fun m y => if Qle_bool y m then y else m) l x.
Definition Math_max (x : Q) (l : list Q) : Q :=
  fold_left (fun m y => if Qle_bool m y then y else m) l x.

(** *** Objects used as maps from strings *)

Definition Obj (V : Type) : Type := string -> option V.

Definition obj_empty {V} : Obj V := fun _ => None.



(** [o[k] = v] where the value may be [undefined]. *)
Definition obj_assign {V} (k : string) (v : option V) (o : Obj V) : Obj V :=
  fun k' => if String.eqb k' k then v else o k'.

(** [Math.round x]: the nearest integer, a half going up. *)
Definition Math_round (x : Q) : Q := inject_Z (Qfloor (x + (1 # 2))).

(** [Math.floor x] *)
Definition Math_floor (x : Q) : Z := Qfloor x.

(** [l.join(sep)] on strings. *)
Definition join (sep : string) (l : list string) : string := String.concat sep l.

(** [l.slice(-n)]: the last [n] elements. *)
Definition lastn {A} (n : nat) (l : list A) : list A :=
  skipn (List.length l - n) l.

(** [l.filter(Boolean)] on a list whose elements are objects or
    [null]. *)
Fixpoint compact {A} (l : list (option A)) : list A :=
  match l with
  | [] => []
  | Some x :: r => x :: compact r
  | None :: r => compact r
  end.

(** [l.includes(x)] on strings. *)
Definition includes (l : list string) (x : string) : bool :=
  existsb (String.eqb x) l.

(** [v === s] for a value that may be [undefined] and a string [s], as
    a [switch] on strings tests its cases. *)
Definition strict_eq (v : option string) (s : string) : bool :=
  match v with Some x => String.eqb x s | None => false end.

End JS.

(** ** DealModel.js *)

Module DealModel.

Record DealMetrics := {
  actualCapRate : Q;
  actualLTV : Q;
  dscr : Q;
  annualDebtService : Q;
  debtConstant : Q;
  spread : Q;
  breakEvenNOI : Q;
  monthlyPayment : Q
}.

(** The object: six inputs and the cache of [calculate]. *)
Record t := {
  propertyValue : Q;
  annualNOI : Q;
  loanAmount : Q;
  interestRate : Q;
  amortizationYears : Q;
  sofrRate : Q;
  _calculations : option DealMetrics
}.

Definition constructor (pv noi loan rate years sofr : Q) : t :=
  {| propertyValue := pv; annualNOI := noi; loanAmount := loan;
     interestRate := rate; amortizationYears := years; sofrRate := sofr;
     _calculations := None |}.

Definition set_calculations (m : t) (c : DealMetrics) : t :=
  {| propertyValue := propertyValue m; annualNOI := annualNOI m;
     loanAmount := loanAmount m; interestRate := interestRate m;
     amortizationYears := amortizationYears m; sofrRate := sofrRate m;
     _calculations := Some c |}.

(** [calculate()]: the cached metrics if there are any, otherwise the
    metrics computed from the inputs, which are then cached.  The result
    is the returned metrics and the object after the call. *)
Definition calculate (m : t) : DealMetrics * t :=
  match _calculations m with
  | Some c => (c, m)
  | None =>
      let actualCapRate := (annualNOI m / propertyValue m) * 100 in
      let actualLTV := (loanAmount m / propertyValue m) * 100 in
      let monthlyRate := (interestRate m / 100) / 12 in
      let totalPayments := amortizationYears m * 12 in
      let monthlyPayment :=
        if JS.eqb monthlyRate 0 then
          loanAmount m / totalPayments
        else
          loanAmount m *
            (monthlyRate * JS.Math_pow (1 + monthlyRate) totalPayments) /
            (JS.Math_pow (1 + monthlyRate) totalPayments - 1) in
      let annualDebtService := monthlyPayment * 12 in
      let dscr := annualNOI m / annualDebtService in
      let debtConstant := (annualDebtService / loanAmount m) * 100 in
      let spread := (interestRate m - sofrRate m) * 100 in
      let breakEvenNOI := annualDebtService in
      let c := {| actualCapRate := actualCapRate;
                  actualLTV := actualLTV;
                  dscr := dscr;
                  annualDebtService := annualDebtService;
                  debtConstant := debtConstant;
                  spread := spread;
                  breakEvenNOI := breakEvenNOI;
                  monthlyPayment := monthlyPayment |} in
      (c, set_calculations m c)
  end.

Record CreditDecision := {
  decision : string;
  color : string;
  risk : string
}.

(** [getCreditDecision()]: the tier chain over the metrics of
    [calculate()]. *)
Definition getCreditDecision (m : t) : CreditDecision * t :=
  let '(c, m') := calculate m in
  let dscr := dscr c in
  let actualLTV := actualLTV c in
  let actualCapRate := actualCapRate c in
  (if JS.geb dscr 1.40 && JS.leb actualLTV 70 && JS.geb actualCapRate 6.0 then
     {| decision := "✅ STRONG APPROVE"; color := "#1ECD7D"; risk := "LOW" |}
   else if JS.geb dscr 1.30 && JS.leb actualLTV 75 && JS.geb actualCapRate 5.5 then
     {| decision := "✅ APPROVE"; color := "#1ECD7D"; risk := "LOW" |}
   else if JS.geb dscr 1.25 && JS.leb actualLTV 80 && JS.geb actualCapRate 4.5 then
     {| decision := "⚠️ CONDITIONAL"; color := "#C17B42"; risk := "MEDIUM" |}
   else if JS.geb dscr 1.20 && JS.leb actualLTV 85 && JS.geb actualCapRate 4.0 then
     {| decision := "🔍 REVIEW REQUIRED"; color := "#371CA1"; risk := "HIGH" |}
   else if JS.geb dscr 1.15 && JS.leb actualLTV 90 then
     {| decision := "⚡ HIGH RISK"; color := "#DC3545"; risk := "VERY_HIGH" |}
   else
     {| decision := "❌ DECLINE"; color := "#DC3545"; risk := "UNACCEPTABLE" |},
   m').

(** [errors.push(msg)] under a condition. *)
Definition push_if (b : bool) (msg : string) (errors : list string) : list string :=
  if b then errors ++ [msg] else errors.

(** [validateInputs()]: the list of messages, in the order of the
    checks.  It reads the inputs only. *)
Definition validateInputs (m : t) : list string :=
  let errors := [] in
  let errors := push_if (JS.leb (propertyValue m) 0)
                  "Property value must be positive" errors in
  let errors := push_if (JS.leb (annualNOI m) 0)
                  "Annual NOI must be positive" errors in
  let errors := push_if (JS.leb (loanAmount m) 0)
                  "Loan amount must be positive" errors in
  let errors := push_if (JS.leb (interestRate m) 0 || JS.gtb (interestRate m) 20)
                  "Interest rate must be between 0% and 20%" errors in
  let errors := push_if (JS.ltb (amortizationYears m) 1 || JS.gtb (amortizationYears m) 50)
                  "Amortization must be between 1 and 50 years" errors in
  let errors := push_if (JS.ltb (sofrRate m) 0 || JS.gtb (sofrRate m) 10)
                  "SOFR rate must be between 0% and 10%" errors in
  let errors := push_if (JS.gtb (loanAmount m) (propertyValue m))
                  "Loan amount cannot exceed property value" errors in
  let errors := push_if (JS.gtb (annualNOI m) (propertyValue m * 0.2))
                  "NOI seems unusually high relative to property value" errors in
  let errors := push_if (JS.ltb (interestRate m) (sofrRate m))
                  "Interest rate should be higher than SOFR rate" errors in
  errors.

Record RiskScore := {
  score_color : string;
  level : string
}.

Definition getDSCRRisk (dscr : Q) : RiskScore :=
  if JS.geb dscr 1.35 then {| score_color := "#1ECD7D"; level := "STRONG" |}
  else if JS.geb dscr 1.25 then {| score_color := "#371CA1"; level := "ACCEPTABLE" |}
  else if JS.geb dscr 1.15 then {| score_color := "#C17B42"; level := "MARGINAL" |}
  else {| score_color := "#DC3545"; level := "WEAK" |}.

Definition getLTVRisk (ltv : Q) : RiskScore :=
  if JS.leb ltv 70 then {| score_color := "#1ECD7D"; level := "CONSERVATIVE" |}
  else if JS.leb ltv 75 then {| score_color := "#371CA1"; level := "STANDARD" |}
  else if JS.leb ltv 80 then {| score_color := "#C17B42"; level := "AGGRESSIVE" |}
  else {| score_color := "#DC3545"; level := "HIGH_RISK" |}.

Record DealAnalysis := {
  calculations : DealMetrics;
  creditDecision : CreditDecision;
  risks : list string;
  strengths : list string;
  recommendations : list string
}.

(** [getDealAnalysis()] *)
Definition getDealAnalysis (m : t) : DealAnalysis * t :=
  let '(calculations, m) := calculate m in
  let '(creditDecision, m) := getCreditDecision m in
  let risks := [] in
  let risks := push_if (JS.ltb (dscr calculations) 1.25)
                 "Low DSCR indicates tight cash flow coverage" risks in
  let risks := push_if (JS.gtb (actualLTV calculations) 80)
                 "High LTV increases credit risk" risks in
  let risks := push_if (JS.ltb (actualCapRate calculations) 5.0)
                 "Low cap rate may indicate overvaluation" risks in
  let strengths := [] in
  let strengths := push_if (JS.geb (dscr calculations) 1.35)
                     "Strong debt service coverage" strengths in
  let strengths := push_if (JS.leb (actualLTV calculations) 70)
                     "Conservative loan-to-value ratio" strengths in
  let strengths := push_if (JS.geb (actualCapRate calculations) 6.0)
                     "Attractive cap rate provides good returns" strengths in
  let recommendations := [] in
  let recommendations := push_if (JS.gtb (actualLTV calculations) 75)
                           "Consider requiring additional equity injection"
                           recommendations in
  let recommendations := push_if (JS.ltb (dscr calculations) 1.30)
                           "Review operating expense assumptions"
                           recommendations in
  ({| calculations := calculations;
      creditDecision := creditDecision;
      risks := risks;
      strengths := strengths;
      recommendations := recommendations |}, m).

Record DerivedCalculation := {
  derived_metrics : DealMetrics;
  isDerived : bool;
  derivedPropertyValue : Q;
  originalPropertyValue : Q
}.

(** [calculateWithDerivedValue(derivedPropertyValue)]: the metrics of a
    temporary model that has the derived value; the object itself is not
    touched. *)
Definition calculateWithDerivedValue (m : t) (derivedPropertyValue : Q)
  : DerivedCalculation :=
  let tempModel := constructor derivedPropertyValue (annualNOI m) (loanAmount m)
                     (interestRate m) (amortizationYears m) (sofrRate m) in
  let '(calculations, _) := calculate tempModel in
  {| derived_metrics := calculations;
     isDerived := true;
     derivedPropertyValue := derivedPropertyValue;
     originalPropertyValue := propertyValue m |}.





(** The argument of [scenarioAnalysis]. *)
Record CapRateRange := {
  minRate : Q;
  maxRate : Q;
  avgRate : Q
}.

Record Scenario := {
  label : string;
  capRate : Q;
  sc_propertyValue : Q;
  impliedLTV : Q;
  variance : Q;
  variancePercent : Q
}.

(** [scenarioAnalysis(capRateRange)]: one scenario for each of the
    minimum, average and maximum rate that is positive. *)
Definition scenarioAnalysis (m : t) (capRateRange : CapRateRange) : list Scenario :=
  let rates := [minRate capRateRange; avgRate capRateRange; maxRate capRateRange] in
  let labels := ["Conservative"; "Average"; "Aggressive"]%string in
  fold_left
    (fun scenarios '(rate, label) =>
       if JS.gtb rate 0 then
         let scenarioValue := annualNOI m / (rate / 100) in
         let scenarioLTV := (loanAmount m / scenarioValue) * 100 in
         scenarios ++
           [{| label := label;
               capRate := rate;
               sc_propertyValue := JS.Math_round scenarioValue;
               impliedLTV := JS.toFixed 1 scenarioLTV;
               variance := JS.Math_round (scenarioValue - propertyValue m);
               variancePercent :=
                 JS.toFixed 1 ((scenarioValue - propertyValue m)
                               / propertyValue m * 100) |}]
       else scenarios)
    (combine rates labels) [].

Record MarketComparison := {
  mc_dealCapRate : Q;
  marketAvgRate : Q;
  mc_variance : Q;
  position : string
}.

Record RiskAssessment := {
  ra_level : string;
  factors : list string;
  ra_recommendations : list string
}.

Record MarketValidationSummary := {
  dealMetrics : DealMetrics;
  marketComparison : MarketComparison;
  riskAssessment : RiskAssessment
}.

(** [getMarketValidationSummary(marketData, validationResults)].  Of
    [marketData] the method reads the three rates, passed here as a
    [CapRateRange].  Of [validationResults] it reads
    [validationResults.validation.validation]: the argument is [None] when
    [validationResults] or its [validation] is missing, [Some None] when
    the inner [validation] has no such field, [Some (Some v)] otherwise.
    The display string [marketRange], which prints the two bounds, is left
    out. *)
Definition getMarketValidationSummary (m : t) (marketData : CapRateRange)
    (validation : option (option string)) : MarketValidationSummary * t :=
  let '(dealMetrics, m) := calculate m in
  let dealCapRate := (annualNOI m / propertyValue m) * 100 in
  let variance := dealCapRate - avgRate marketData in
  let position :=
    (if JS.ltb dealCapRate (minRate marketData) then "BELOW_MARKET"
     else if JS.gtb dealCapRate (maxRate marketData) then "ABOVE_MARKET"
     else "WITHIN_MARKET")%string in
  let assessed (level factor : string) :=
    {| ra_level := level; factors := [factor]; ra_recommendations := [] |} in
  let riskAssessment :=
    match validation with
    | None => {| ra_level := "UNKNOWN"; factors := []; ra_recommendations := [] |}
    | Some v =>
        if JS.strict_eq v "OVERVALUED" then
          assessed "HIGH"%string "Property appears overvalued vs market"%string
        else if JS.strict_eq v "UNDERVALUED" then
          assessed "LOW"%string "Property appears undervalued vs market"%string
        else if JS.strict_eq v "WITHIN_RANGE" then
          assessed "MODERATE"%string "Property value aligns with market"%string
        else
          assessed "REVIEW"%string "Market variance requires review"%string
    end in
  ({| dealMetrics := dealMetrics;
      marketComparison :=
        {| mc_dealCapRate := dealCapRate;
           marketAvgRate := avgRate marketData;
           mc_variance := JS.toFixed 2 variance;
           position := position |};
      riskAssessment := riskAssessment |}, m).

End DealModel.

(** ** DealModel.js over binary64 numbers

    [calculate] and [validateInputs] of a fresh deal, operation by
    operation as in [DealModel], with every number a binary64 float and
    every operation rounded as IEEE 754 prescribes.  The decimal literals
    are read as JavaScript reads them, to the nearest binary64 number. *)

Module Binary64.

#[local] Set Warnings "-inexact-float".
Local Open Scope float_scope.

Record DealMetrics := {
  actualCapRate : float;
  actualLTV : float;
  dscr : float;
  annualDebtService : float;
  debtConstant : float;
  spread : float;
  breakEvenNOI : float;
  monthlyPayment : float
}.

Record t := {
  propertyValue : float;
  annualNOI : float;
  loanAmount : float;
  interestRate : float;
  amortizationYears : float;
  sofrRate : float
}.

Definition constructor (propertyValue annualNOI loanAmount interestRate
    amortizationYears sofrRate : float) : t :=
  {| propertyValue := propertyValue; annualNOI := annualNOI;
     loanAmount := loanAmount; interestRate := interestRate;
     amortizationYears := amortizationYears; sofrRate := sofrRate |}.

(** [x > y], false when an operand is NaN. *)
Definition gtb (x y : float) : bool := y <? x.

(** [Math.pow base exponent], where the result does not depend on how
    the engine approximates a power: the exponent 0 gives 1, the exponent
    1 gives the base, and the base 1 gives 1 at every finite exponent.
    Elsewhere the result is left open ([None]). *)
Definition Math_pow (base exponent : float) : option float :=
  if exponent =? 0 then Some 1
  else if exponent =? 1 then Some base
  else if (base =? 1) && PrimFloat.is_finite exponent then Some 1
  else None.

(** [calculate] on a deal whose cache is empty; [None] where the power
    is left open. *)
Definition calculate (m : t) : option DealMetrics :=
  let actualCapRate := (annualNOI m / propertyValue m) * 100 in
  let actualLTV := (loanAmount m / propertyValue m) * 100 in
  let monthlyRate := (interestRate m / 100) / 12 in
  let totalPayments := amortizationYears m * 12 in
  let monthlyPayment :=
    if monthlyRate =? 0 then Some (loanAmount m / totalPayments)
    else
      match Math_pow (1 + monthlyRate) totalPayments with
      | Some power =>
          Some (loanAmount m * (monthlyRate * power) / (power - 1))
      | None => None
      end in
  match monthlyPayment with
  | Some monthlyPayment =>
      let annualDebtService := monthlyPayment * 12 in
      let dscr := annualNOI m / annualDebtService in
      let debtConstant := (annualDebtService / loanAmount m) * 100 in
      let spread := (interestRate m - sofrRate m) * 100 in
      let breakEvenNOI := annualDebtService in
      Some {| actualCapRate := actualCapRate; actualLTV := actualLTV;
              dscr := dscr; annualDebtService := annualDebtService;
              debtConstant := debtConstant; spread := spread;
              breakEvenNOI := breakEvenNOI; monthlyPayment := monthlyPayment |}
  | None => None
  end.

Definition validateInputs (m : t) : list string :=
  let errors := [] in
  let errors := DealModel.push_if (propertyValue m <=? 0)
                  "Property value must be positive" errors in
  let errors := DealModel.push_if (annualNOI m <=? 0)
                  "Annual NOI must be positive" errors in
  let errors := DealModel.push_if (loanAmount m <=? 0)
                  "Loan amount must be positive" errors in
  let errors := DealModel.push_if
                  ((interestRate m <=? 0) || gtb (interestRate m) 20)
                  "Interest rate must be between 0% and 20%" errors in
  let errors := DealModel.push_if
                  ((amortizationYears m <? 1) || gtb (amortizationYears m) 50)
                  "Amortization must be between 1 and 50 years" errors in
  let errors := DealModel.push_if
                  ((sofrRate m <? 0) || gtb (sofrRate m) 10)
                  "SOFR rate must be between 0% and 10%" errors in
  let errors := DealModel.push_if (gtb (loanAmount m) (propertyValue m))
                  "Loan amount cannot exceed property value" errors in
  let errors := DealModel.push_if
                  (gtb (annualNOI m) (propertyValue m * 0.2))
                  "NOI seems unusually high relative to property value" errors in
  let errors := DealModel.push_if (interestRate m <? sofrRate m)
                  "Interest rate should be higher than SOFR rate" errors in
  errors.

End Binary64.

(** ** DataService.js *)

Module DataService.

(** A raw row: the columns of the report table, each a string or
    [undefined]. *)
Record RawRow := {
  Sector : option string;
  Subsector : option string;
  Region : option string;
  Market : option string;
  H1_Low : option string;
  H1_High : option string;
  H2_Low : option string;
  H2_High : option string;
  Report_Year : option string;
  Report_Half : option string
}.

(** A processed row: the raw columns and the four computed fields. *)
Record Row := {
  raw : RawRow;
  h1_avg : option Q;
  h2_avg : option Q;
  period_key : string;
  is_valid_market : bool
}.

(** The service object. *)
Record t := {
  data : option (list RawRow);
  processedData : option (list Row)
}.

Definition constructor : t := {| data := None; processedData := None |}.

(** [isValidCapRate(value)] *)
Definition isValidCapRate (value : option string) : bool :=
  match JS.parseFloat value with
  | None => false
  | Some num => JS.geb num 1 && JS.leb num 15
  end.

(** The deny-list of [isValidMarket], pattern by pattern. *)
Definition invalidPatterns : list (list ascii -> bool) :=
  [ JS.equal_ci (JS.chars "Market");
    JS.prefix_ci (JS.chars "Looking Forward");
    JS.prefix_ci (JS.chars "Figure");
    JS.prefix_ci (JS.chars "After");
    JS.prefix_ci (JS.chars "But fortune");
    JS.equal_ci (JS.chars "the");
    (fun s => Nat.eqb (List.length s) 4 && forallb JS.is_digit s);
    (fun s => match rev s with
              | "%"%char :: ds => negb (Nat.eqb (List.length ds) 0)
                                  && forallb JS.is_digit ds
              | _ => false
              end);
    (fun s => match s with
              | c :: _ => negb (JS.is_letter c)
              | [] => false
              end);
    forallb JS.is_space ].

(** [isValidMarket(market)] *)
Definition isValidMarket (market : option string) : bool :=
  match market with
  | None => false
  | Some market =>
      if negb (JS.truthy_string market) || Nat.ltb (String.length market) 3
      then false
      else
        let trimmed := JS.chars (JS.trim market) in
        if existsb (fun pattern => pattern trimmed) invalidPatterns then false
        else if negb (existsb JS.is_letter trimmed)
                || Nat.ltb 50 (List.length trimmed)
        then false
        else true
  end.

(** [calculateAverage(low, high)] *)
Definition calculateAverage (low high : option string) : option Q :=
  match JS.parseFloat low, JS.parseFloat high with
  | None, None => None
  | None, Some highNum => Some highNum
  | Some lowNum, None => Some lowNum
  | Some lowNum, Some highNum => Some ((lowNum + highNum) / 2)
  end.

(** The filter of [processData]. *)
Definition isValidRow (row : RawRow) : bool :=
  match JS.parseInt (Report_Year row) with
  | None => false
  | Some year =>
      if (year <? 2020)%Z || (year >? 2025)%Z then false
      else
        match JS.parseInt (Report_Half row) with
        | None => false
        | Some half =>
            if negb (half =? 1)%Z && negb (half =? 2)%Z then false
            else if negb (JS.truthy_opt (Sector row))
                    || Nat.ltb (String.length (JS.toString (Sector row))) 3
            then false
            else isValidCapRate (H1_Low row)
                 || isValidCapRate (H1_High row)
                 || isValidCapRate (H2_Low row)
                 || isValidCapRate (H2_High row)
        end
  end.

(** The map of [processData]. *)
Definition addFields (row : RawRow) : Row :=
  {| raw := row;
     h1_avg := calculateAverage (H1_Low row) (H1_High row);
     h2_avg := calculateAverage (H2_Low row) (H2_High row);
     period_key := JS.toString (Report_Year row) ++ "_"
                   ++ JS.toString (Report_Half row);
     is_valid_market := isValidMarket (Market row) |}.

(** [processData(rawData)] *)
Definition processData (rawData : list RawRow) : list Row :=
  let validData := filter isValidRow rawData in
  map addFields validData.

(** The service once [loadCapRateData()] has parsed the rows of the
    table: both fields are set. *)
Definition load (rows : list RawRow) : t :=
  {| data := Some rows; processedData := Some (processData rows) |}.

Definition opt_eqb (a b : option string) : bool :=
  match a, b with
  | Some x, Some y => String.eqb x y
  | None, None => true
  | _, _ => false
  end.

(** [getSectors()] *)
Definition getSectors (this : t) : list string :=
  match processedData this with
  | None => []
  | Some pd =>
      JS.sort
        (map JS.toString
           (filter JS.truthy_opt
              (JS.uniq opt_eqb (map (fun row => Sector (raw row)) pd))))
  end.

(** [getMarkets()] *)
Definition getMarkets (this : t) : list string :=
  match processedData this with
  | None => []
  | Some pd =>
      JS.sort
        (map JS.toString
           (filter JS.truthy_opt
              (JS.uniq opt_eqb
                 (map (fun row => Market (raw row))
                    (filter (fun row => isValidMarket (Market (raw row))) pd)))))
  end.

(** The comparator of [getPeriods]: year then half, both read by
    [Number]; the result is NaN as soon as a part it needs is. *)
Definition comparePeriods (a b : string) : option Q :=
  let pa := map JS.Number (JS.split "_" a) in
  let pb := map JS.Number (JS.split "_" b) in
  let yearA := nth 0 pa None in
  let halfA := nth 1 pa None in
  let yearB := nth 0 pb None in
  let halfB := nth 1 pb None in
  match yearA, yearB with
  | Some ya, Some yb =>
      if negb (JS.eqb ya yb) then Some (ya - yb)
      else match halfA, halfB with
           | Some ha, Some hb => Some (ha - hb)
           | _, _ => None
           end
  | _, _ => None
  end.

(** [getPeriods()] *)
Definition getPeriods (this : t) : list string :=
  match processedData this with
  | None => []
  | Some pd =>
      let periods := JS.uniq String.eqb (map period_key pd) in
      JS.sort_with comparePeriods periods
  end.

(** The criteria object of [filterData]; an absent key is [None] (or
    [false]). *)
Record Criteria := {
  sector : option string;
  market : option string;
  period : option string;
  validMarketOnly : bool
}.

(** [criteria.k && value !== criteria.k] *)
Definition differs (criterion : option string) (value : option string) : bool :=
  JS.truthy_opt criterion && negb (opt_eqb value criterion).

(** [filterData(criteria)] *)
Definition filterData (this : t) (criteria : Criteria) : list Row :=
  match processedData this with
  | None => []
  | Some pd =>
      filter (fun row =>
                if differs (sector criteria) (Sector (raw row)) then false
                else if differs (market criteria) (Market (raw row)) then false
                else if differs (period criteria) (Some (period_key row)) then false
                else if validMarketOnly criteria && negb (is_valid_market row) then false
                else true) pd
  end.

(** [a || b] on two averages: [a] unless it is [null] or zero. *)
Definition or_else (a b : option Q) : option Q :=
  match a with
  | Some x => if JS.truthy x then a else b
  | None => b
  end.

(** [.filter(rate => rate !== null)] *)
Fixpoint notNull (l : list (option Q)) : list Q :=
  match l with
  | [] => []
  | Some x :: r => x :: notNull r
  | None :: r => notNull r
  end.

(** [rows.map(row => row.h1_avg || row.h2_avg).filter(rate => rate !== null)] *)
Definition ratesOf (rows : list Row) : list Q :=
  notNull (map (fun row => or_else (h1_avg row) (h2_avg row)) rows).

(** [rates.reduce((sum, rate) => sum + rate, 0) / rates.length] *)
Definition mean (rates : list Q) : Q := JS.sum rates / JS.len rates.

Record TimePoint := {
  tp_period : string;
  tp_avgRate : Q;
  tp_count : nat
}.

(** [getTimeSeriesData(sector, market)] *)
Definition getTimeSeriesData (this : t) (sector market : option string)
  : list TimePoint :=
  let filtered := filterData this
    {| sector := sector; market := market; period := None;
       validMarketOnly := true |} in
  let periods := getPeriods this in
  fold_left
    (fun timeSeriesData period =>
       let periodData :=
         filter (fun row => String.eqb (period_key row) period) filtered in
       if Nat.ltb 0 (List.length periodData) then
         let avgRates := ratesOf periodData in
         if Nat.ltb 0 (List.length avgRates) then
           let avgRate := mean avgRates in
           timeSeriesData ++
             [{| tp_period := period;
                 tp_avgRate := JS.toFixed 2 avgRate;
                 tp_count := List.length periodData |}]
         else timeSeriesData
       else timeSeriesData)
    periods [].

Record SectorPoint := {
  sp_sector : string;
  sp_avgRate : Q;
  sp_count : nat
}.

(** [getSectorComparison()] *)
Definition getSectorComparison (this : t) : list SectorPoint :=
  let sectors := getSectors this in
  filter (fun item => JS.gtb (sp_avgRate item) 0)
    (map (fun sector =>
            let sectorData := filterData this
              {| DataService.sector := Some sector; market := None;
                 period := None; validMarketOnly := true |} in
            let rates := ratesOf sectorData in
            let avgRate :=
              if Nat.ltb 0 (List.length rates) then mean rates else 0 in
            {| sp_sector := sector;
               sp_avgRate := JS.toFixed 2 avgRate;
               sp_count := List.length sectorData |})
       sectors).

Record MarketPoint := {
  mp_market : string;
  mp_avgRate : Q;
  mp_count : nat
}.

(** [getMarketRanking(limit)] *)
Definition getMarketRanking (this : t) (limit : nat) : list MarketPoint :=
  let markets := getMarkets this in
  let marketData :=
    filter (fun item => JS.gtb (mp_avgRate item) 0)
      (map (fun market =>
              let data := filterData this
                {| sector := None; DataService.market := Some market;
                   period := None; validMarketOnly := true |} in
              let rates := ratesOf data in
              let avgRate :=
                if Nat.ltb 0 (List.length rates) then mean rates else 0 in
              {| mp_market := market;
                 mp_avgRate := JS.toFixed 2 avgRate;
                 mp_count := List.length data |})
         markets) in
  firstn limit
    (JS.sort_with (fun a b => Some (mp_avgRate b - mp_avgRate a)) marketData).


(** The value [getMultiSectorTimeSeriesData] pushes for one period and
    one sector: the rounded mean, or [null]. *)
Definition sectorPeriodCell (filtered : list Row) (period sector : string)
  : option Q :=
  let sectorPeriodData :=
    filter (fun row => String.eqb (period_key row) period
                       && opt_eqb (Sector (raw row)) (Some sector)) filtered in
  if Nat.ltb 0 (List.length sectorPeriodData) then
    let rates := ratesOf sectorPeriodData in
    if Nat.ltb 0 (List.length rates) then
      let avgRate := mean rates in
      Some (JS.toFixed 2 avgRate)
    else None
  else None.


(** [calculateVolatility(rates)] *)
Definition calculateVolatility (rates : list Q) : Q :=
  if Nat.ltb (List.length rates) 2 then 0
  else
    let mean := JS.sum rates / JS.len rates in
    let squaredDiffs := map (fun rate => JS.Math_pow (rate - mean) 2) rates in
    let variance := JS.sum squaredDiffs / JS.len rates in
    JS.toFixed 2 (JS.Math_sqrt variance).

(** The line feed, on which [parseCSV] splits the text. *)
Definition LF : ascii := "010"%char.

(** [parseCSV(csvText)]: one object per line after the first, with the
    trimmed headers as keys and the trimmed values of the line, by
    position, as values; a header without a value is [undefined].  The
    rows are modelled by their own properties; a header named
    [__proto__], which an assignment does not store as one, is outside
    the model. *)
Definition parseCSV (csvText : string) : list (JS.Obj string) :=
  let lines := JS.split LF (JS.trim csvText) in
  let headers := map JS.trim (JS.split "," (nth 0 lines ""%string)) in
  map (fun line =>
         let values := map JS.trim (JS.split "," line) in
         fold_left
           (fun row '(header, index) =>
              JS.obj_assign header (nth_error values index) row)
           (combine headers (seq 0 (List.length headers)))
           JS.obj_empty)
    (skipn 1 lines).

(** The columns [processData] and the aggregates read from a parsed
    row. *)
Definition rowOf (row : JS.Obj string) : RawRow :=
  {| Sector := row "Sector"%string;
     Subsector := row "Subsector"%string;
     Region := row "Region"%string;
     Market := row "Market"%string;
     H1_Low := row "H1_Low"%string;
     H1_High := row "H1_High"%string;
     H2_Low := row "H2_Low"%string;
     H2_High := row "H2_High"%string;
     Report_Year := row "Report_Year"%string;
     Report_Half := row "Report_Half"%string |}.

(** [loadCapRateData()], from the text that was fetched. *)
Definition loadCapRateData (csvText : string) : t :=
  load (map rowOf (parseCSV csvText)).







Record SectorPerformance := {
  perf_sector : string;
  perf_avgRate : Q;
  perf_volatility : Q;
  perf_count : nat;
  riskAdjustedReturn : Q
}.

(** [getSectorPerformanceRanking()] *)
Definition getSectorPerformanceRanking (this : t) : list SectorPerformance :=
  let sectors := getSectors this in
  let performance :=
    JS.compact
      (map (fun sector =>
              let sectorData := filterData this
                {| DataService.sector := Some sector; market := None;
                   period := None; validMarketOnly := true |} in
              let rates := ratesOf sectorData in
              if Nat.eqb (List.length rates) 0 then None
              else
                let avgRate := mean rates in
                let volatility := calculateVolatility rates in
                Some {| perf_sector := sector;
                        perf_avgRate := JS.toFixed 2 avgRate;
                        perf_volatility := volatility;
                        perf_count := List.length rates;
                        riskAdjustedReturn :=
                          JS.toFixed 2
                            (avgRate / (if JS.truthy volatility
                                        then volatility else 1)) |})
         sectors) in
  JS.sort_with (fun a b => Some (perf_avgRate b - perf_avgRate a)) performance.

Record AdvancedStatistics := {
  st_mean : Q;
  st_median : Q;
  st_q1 : Q;
  st_q3 : Q;
  st_min : Q;
  st_max : Q;
  st_stdDev : Q;
  st_count : nat
}.

(** [sorted[Math.floor(x)]]; the index is within the list wherever
    [getAdvancedStatistics] reads one. *)
Definition at_floor (sorted : list Q) (x : Q) : Q :=
  nth (Z.to_nat (JS.Math_floor x)) sorted 0.

(** [getAdvancedStatistics()] *)
Definition getAdvancedStatistics (this : t) : option AdvancedStatistics :=
  let data := filterData this
    {| sector := None; market := None; period := None;
       validMarketOnly := true |} in
  let allRates := ratesOf data in
  if Nat.eqb (List.length allRates) 0 then None
  else
    let sorted := JS.sort_with (fun a b => Some (a - b)) allRates in
    let mean := JS.sum allRates / JS.len allRates in
    Some {| st_mean := JS.toFixed 2 mean;
            st_median := JS.toFixed 2 (at_floor sorted (JS.len sorted / 2));
            st_q1 := JS.toFixed 2 (at_floor sorted (JS.len sorted * 0.25));
            st_q3 := JS.toFixed 2 (at_floor sorted (JS.len sorted * 0.75));
            st_min := JS.toFixed 2 (at_floor sorted 0);
            st_max := JS.toFixed 2 (at_floor sorted (JS.len sorted - 1));
            st_stdDev := calculateVolatility allRates;
            st_count := List.length allRates |}.

End DataService.

(** ** MarketValidationService (ChartManager.js) *)

Module MarketValidationService.

Record t := { dataService : DataService.t }.

Definition constructor (dataService : DataService.t) : t :=
  {| dataService := dataService |}.

Record MarketCapRate := {
  avgRate : Q;
  minRate : Q;
  maxRate : Q;
  dataPoints : nat;
  sector : string;
  market : string;
  period : string
}.

(** The rates [getMarketCapRate] collects: for every row its [h1_avg]
    if truthy, then its [h2_avg] if truthy. *)
Definition collectRates (filteredData : list DataService.Row) : list Q :=
  fold_left
    (fun rates row =>
       let rates :=
         match DataService.h1_avg row with
         | Some x => if JS.truthy x then rates ++ [x] else rates
         | None => rates
         end in
       match DataService.h2_avg row with
       | Some x => if JS.truthy x then rates ++ [x] else rates
       | None => rates
       end)
    filteredData [].

(** [getMarketCapRate(sector, market, period)] *)
Definition getMarketCapRate (this : t) (sector market period : option string)
  : option MarketCapRate :=
  if negb (JS.truthy_opt sector) || negb (JS.truthy_opt market)
     || negb (JS.truthy_opt period)
  then None
  else
    let filteredData := DataService.filterData (dataService this)
      {| DataService.sector := sector; DataService.market := market;
         DataService.period := period; DataService.validMarketOnly := true |} in
    if Nat.eqb (List.length filteredData) 0 then None
    else
      match collectRates filteredData with
      | [] => None
      | r0 :: rest =>
          let rates := r0 :: rest in
          let avgRate := JS.sum rates / JS.len rates in
          let minRate := JS.Math_min r0 rest in
          let maxRate := JS.Math_max r0 rest in
          Some {| avgRate := JS.toFixed 2 avgRate;
                  minRate := JS.toFixed 2 minRate;
                  maxRate := JS.toFixed 2 maxRate;
                  dataPoints := List.length rates;
                  sector := JS.toString sector;
                  market := JS.toString market;
                  period := JS.toString period |}
      end.

Record ImpliedLTV := {
  impliedLTV : Q;
  riskLevel : string;
  message : string;
  loanAmount : Q;
  derivedPropertyValue : Q
}.

(** [calculateImpliedLTV(loanAmount, derivedPropertyValue)]; an
    argument that is [null] or [undefined] is [None]. *)
Definition calculateImpliedLTV (loanAmount derivedPropertyValue : option Q)
  : option ImpliedLTV :=
  match loanAmount, derivedPropertyValue with
  | Some loanAmount, Some derivedPropertyValue =>
      if negb (JS.truthy loanAmount) || negb (JS.truthy derivedPropertyValue)
         || JS.leb derivedPropertyValue 0
      then None
      else
        let impliedLTV := (loanAmount / derivedPropertyValue) * 100 in
        let '(riskLevel, message) :=
          if JS.gtb impliedLTV 85 then
            ("HIGH_RISK"%string, "High LTV ratio - increased credit risk"%string)
          else if JS.gtb impliedLTV 80 then
            ("AGGRESSIVE"%string, "Aggressive LTV ratio"%string)
          else if JS.gtb impliedLTV 75 then
            ("STANDARD"%string, "Standard LTV ratio"%string)
          else
            ("CONSERVATIVE"%string, "Conservative LTV ratio"%string) in
        Some {| impliedLTV := JS.toFixed 1 impliedLTV;
                riskLevel := riskLevel;
                message := message;
                loanAmount := loanAmount;
                derivedPropertyValue := derivedPropertyValue |}
  | _, _ => None
  end.

Record DerivedValue := {
  derivedValue : Q;
  dv_marketCapRate : Q;
  dv_annualNOI : Q
}.

(** [derivePropertyValue(annualNOI, marketCapRate)]; the display string
    [calculation] is left out. *)
Definition derivePropertyValue (annualNOI marketCapRate : option Q)
  : option DerivedValue :=
  match annualNOI, marketCapRate with
  | Some annualNOI, Some marketCapRate =>
      if negb (JS.truthy annualNOI) || negb (JS.truthy marketCapRate)
         || JS.leb marketCapRate 0
      then None
      else
        let derivedValue := annualNOI / (marketCapRate / 100) in
        Some {| derivedValue := JS.Math_round derivedValue;
                dv_marketCapRate := marketCapRate;
                dv_annualNOI := annualNOI |}
  | _, _ => None
  end.

(** The object [validatePropertyValue] returns; a field the object does
    not have is [None]. *)
Record PropertyValidation := {
  isValid : bool;
  reason : option string;
  validation : option string;
  pv_message : option string;
  dealCapRate : option Q;
  pv_marketData : option MarketCapRate;
  variance : option Q;
  variancePercent : option Q
}.

(** [validatePropertyValue(propertyValue, annualNOI, sector, market,
    period)] *)
Definition validatePropertyValue (this : t) (propertyValue annualNOI : Q)
    (sector market period : option string) : PropertyValidation :=
  match getMarketCapRate this sector market period with
  | None =>
      {| isValid := false;
         reason := Some "No market data available for selected criteria"%string;
         validation := None; pv_message := None; dealCapRate := None;
         pv_marketData := None; variance := None; variancePercent := None |}
  | Some marketData =>
      let dealCapRate := (annualNOI / propertyValue) * 100 in
      let range_min := minRate marketData in
      let range_max := maxRate marketData in
      let range_avg := avgRate marketData in
      let isWithinRange :=
        JS.geb dealCapRate (range_min * 0.8) && JS.leb dealCapRate (range_max * 1.2) in
      let variance := Qabs (dealCapRate - range_avg) in
      let variancePercent := (variance / range_avg) * 100 in
      let '(validation, message) :=
        if JS.ltb dealCapRate (range_min * 0.8) then
          ("OVERVALUED"%string,
           "Property may be overvalued relative to market cap rates"%string)
        else if JS.gtb dealCapRate (range_max * 1.2) then
          ("UNDERVALUED"%string,
           "Property may be undervalued relative to market cap rates"%string)
        else if JS.gtb variancePercent 15 then
          ("REVIEW_REQUIRED"%string,
           "Significant variance from market average - review recommended"%string)
        else
          ("WITHIN_RANGE"%string,
           "Property value aligns with market data"%string) in
      {| isValid := isWithinRange;
         reason := None;
         validation := Some validation;
         pv_message := Some message;
         dealCapRate := Some (JS.toFixed 2 dealCapRate);
         pv_marketData := Some marketData;
         variance := Some (JS.toFixed 2 variance);
         variancePercent := Some (JS.toFixed 1 variancePercent) |}
  end.

(** The argument of [performMarketValidation]; [propertyValue] is
    optional. *)
Record Inputs := {
  in_annualNOI : Q;
  in_loanAmount : Q;
  in_sector : option string;
  in_market : option string;
  in_period : option string;
  in_propertyValue : option Q
}.

Record Results := {
  res_marketData : option MarketCapRate;
  res_derivedValue : option DerivedValue;
  res_validation : option PropertyValidation;
  res_impliedLTV : option ImpliedLTV;
  recommendations : list string;
  error : option string
}.

(** [generateRecommendations(results)] *)
Definition generateRecommendations (results : Results) : list string :=
  let recommendations := [] in
  let recommendations :=
    match res_validation results with
    | Some v =>
        if JS.strict_eq (validation v) "OVERVALUED" then
          recommendations ++
            ["Consider reducing loan amount or requiring additional equity";
             "Review appraisal methodology and comparables"]%string
        else if JS.strict_eq (validation v) "UNDERVALUED" then
          recommendations ++
            ["Opportunity for higher loan amount or better pricing";
             "Verify property condition and market positioning"]%string
        else if JS.strict_eq (validation v) "REVIEW_REQUIRED" then
          recommendations ++
            ["Conduct detailed market analysis";
             "Consider third-party valuation review"]%string
        else recommendations
    | None => recommendations
    end in
  match res_impliedLTV results with
  | Some l =>
      if String.eqb (riskLevel l) "HIGH_RISK" then
        recommendations ++
          ["Require additional equity injection to reduce LTV";
           "Consider enhanced loan terms or guarantees"]%string
      else if String.eqb (riskLevel l) "AGGRESSIVE" then
        recommendations ++
          ["Review cash flow stability and tenant quality";
           "Consider debt service reserve requirements"]%string
      else recommendations
  | None => recommendations
  end.

(** [performMarketValidation(inputs)] *)
Definition performMarketValidation (this : t) (inputs : Inputs) : Results :=
  let marketData :=
    getMarketCapRate this (in_sector inputs) (in_market inputs) (in_period inputs) in
  match marketData with
  | None =>
      {| res_marketData := None; res_derivedValue := None;
         res_validation := None; res_impliedLTV := None;
         recommendations := [];
         error := Some "No market data available for selected criteria"%string |}
  | Some md =>
      let truthy_value :=
        match in_propertyValue inputs with
        | Some pv => JS.truthy pv
        | None => false
        end in
      let '(derived, validated, implied) :=
        if truthy_value then
          (None,
           Some (validatePropertyValue this
                   (match in_propertyValue inputs with Some pv => pv | None => 0 end)
                   (in_annualNOI inputs)
                   (in_sector inputs) (in_market inputs) (in_period inputs)),
           calculateImpliedLTV (Some (in_loanAmount inputs)) (in_propertyValue inputs))
        else
          let derived :=
            derivePropertyValue (Some (in_annualNOI inputs)) (Some (avgRate md)) in
          (derived, None,
           match derived with
           | Some d => calculateImpliedLTV (Some (in_loanAmount inputs))
                         (Some (derivedValue d))
           | None => None
           end) in
      let results :=
        {| res_marketData := marketData; res_derivedValue := derived;
           res_validation := validated; res_impliedLTV := implied;
           recommendations := []; error := None |} in
      {| res_marketData := marketData; res_derivedValue := derived;
         res_validation := validated; res_impliedLTV := implied;
         recommendations := generateRecommendations results; error := None |}
  end.

End MarketValidationService.

(** ** DashboardController.js *)

Module DashboardController.

(** [calculateVolatility(rates)] *)
Definition calculateVolatility (rates : list Q) : Q :=
  if Nat.ltb (List.length rates) 2 then 0
  else
    let mean := JS.sum rates / JS.len rates in
    let squaredDiffs := map (fun rate => JS.Math_pow (rate - mean) 2) rates in
    let variance := JS.sum squaredDiffs / JS.len rates in
    JS.Math_sqrt variance.

(** [formatPeriodLabel(period)] *)
Definition formatPeriodLabel (period : string) : string :=
  let parts := map Some (JS.split "_" period) in
  let year := nth 0 parts None in
  let half := nth 1 parts None in
  JS.toString year ++ " H" ++ JS.toString half.

(** The rule of [validateInput] for an input and its number. *)
Definition inputRule (inputId : string) (value : Q) : bool :=
  if String.eqb inputId "propertyValue" || String.eqb inputId "annualNOI"
     || String.eqb inputId "loanAmount"
  then JS.gtb value 0 && JS.leb value 100000000
  else if String.eqb inputId "interestRate"
  then JS.geb value 0 && JS.leb value 20
  else if String.eqb inputId "amortizationMonths"
  then JS.geb value 12 && JS.leb value 600
  else if String.eqb inputId "sofrRate"
  then JS.geb value 0 && JS.leb value 10
  else false.

(** [validateInput(input)], on the id and the text of the input: the
    class it adds, [true] for valid, [false] for invalid, none when the
    text is empty or not a number. *)
Definition validateInput (inputId value : string) : option bool :=
  match JS.parseFloat (Some value) with
  | Some number =>
      if JS.truthy_string value then Some (inputRule inputId number) else None
  | None => None
  end.

(** What [calculateDeal] does with the six texts of the form: an alert,
    or the results it displays. *)
Inductive DealOutcome :=
| Alert (message : string)
| Displayed (calculations : DealModel.DealMetrics)
            (creditDecision : DealModel.CreditDecision).

(** [calculateDeal()], on the texts of the six inputs. *)
Definition calculateDeal
    (propertyValue annualNOI loanAmount interestRate amortizationMonths sofrRate
     : string) : DealOutcome :=
  let inputs :=
    [("propertyValue"%string, JS.parseFloat (Some propertyValue));
     ("annualNOI"%string, JS.parseFloat (Some annualNOI));
     ("loanAmount"%string, JS.parseFloat (Some loanAmount));
     ("interestRate"%string, JS.parseFloat (Some interestRate));
     ("amortizationMonths"%string, JS.parseFloat (Some amortizationMonths));
     ("sofrRate"%string, JS.parseFloat (Some sofrRate))] in
  let missingInputs :=
    map fst
      (filter (fun '(key, value) =>
                 match value with
                 | None => true
                 | Some v => JS.leb v 0
                 end) inputs) in
  if Nat.ltb 0 (List.length missingInputs) then
    Alert ("Please enter valid values for: " ++ JS.join ", " missingInputs)
  else
    match map snd inputs with
    | [Some pv; Some noi; Some loan; Some rate; Some months; Some sofr] =>
        let deal := DealModel.constructor pv noi loan rate (months / 12) sofr in
        let '(calculations, deal) := DealModel.calculate deal in
        let '(creditDecision, deal) := DealModel.getCreditDecision deal in
        Displayed calculations creditDecision
    | _ => Alert ("Please enter valid values for: " ++ JS.join ", " missingInputs)
    end.

(** [calculateMarketTrend(periods, validData)] *)
Definition calculateMarketTrend (periods : list string)
    (validData : list DataService.Row) : string :=
  if Nat.ltb (List.length periods) 2 then "Insufficient Data"
  else
    let sortedPeriods := JS.sort_with DataService.comparePeriods periods in
    let recentPeriods := JS.lastn 2 sortedPeriods in
    let olderPeriods := firstn 2 sortedPeriods in
    let push_avgs (rates : list Q) (row : DataService.Row) :=
      let rates :=
        match DataService.h1_avg row with
        | Some x => if JS.truthy x then rates ++ [x] else rates
        | None => rates
        end in
      match DataService.h2_avg row with
      | Some x => if JS.truthy x then rates ++ [x] else rates
      | None => rates
      end in
    let '(recentRates, olderRates) :=
      fold_left
        (fun '(recentRates, olderRates) row =>
           let recentRates :=
             if JS.includes recentPeriods (DataService.period_key row)
             then push_avgs recentRates row else recentRates in
           let olderRates :=
             if JS.includes olderPeriods (DataService.period_key row)
             then push_avgs olderRates row else olderRates in
           (recentRates, olderRates))
        validData ([], []) in
    if Nat.eqb (List.length recentRates) 0 || Nat.eqb (List.length olderRates) 0
    then "No Trend Data"
    else
      let recentAvg := JS.sum recentRates / JS.len recentRates in
      let olderAvg := JS.sum olderRates / JS.len olderRates in
      let change := recentAvg - olderAvg in
      if JS.ltb (Qabs change) 0.1 then "→ Stable"
      else if JS.gtb change 0 then "↗ Rising" else "↘ Falling".

End DashboardController.

(** ** ChartManager.js *)

Module ChartManager.

(** [formatPeriodLabel(period)] *)
Definition formatPeriodLabel (period : string) : string :=
  let parts := map Some (JS.split "_" period) in
  let year := nth 0 parts None in
  let half := nth 1 parts None in
  JS.toString year ++ " " ++ JS.toString half.

(** [getChartLabel(sector, market)] *)
Definition getChartLabel (sector market : option string) : string :=
  if JS.truthy_opt sector && JS.truthy_opt market
  then JS.toString sector ++ " - " ++ JS.toString market
  else if JS.truthy_opt sector then JS.toString sector ++ " Sector"
  else if JS.truthy_opt market then JS.toString market ++ " Market"
  else "Cap Rate Trends".

(** [truncateLabel(label, maxLength)] *)
Definition truncateLabel (label : string) (maxLength : nat) : string :=
  if Nat.ltb maxLength (String.length label)
  then String.substring 0 maxLength label ++ "..."
  else label.

End ChartManager.

(** ** The specification's vocabulary, and the shapes the theorems are
    stated with *)

Module Spec.

(** The six credit decisions, in the order of the rule table. *)
Inductive Tier :=
| STRONG_APPROVE | APPROVE | CONDITIONAL | REVIEW_REQUIRED | HIGH_RISK | DECLINE.

(** The object the code returns for a tier: label, colour hint, risk. *)
Definition tier_result (t : Tier) : DealModel.CreditDecision :=
  match t with
  | STRONG_APPROVE =>
      {| DealModel.decision := "✅ STRONG APPROVE";
         DealModel.color := "#1ECD7D"; DealModel.risk := "LOW" |}
  | APPROVE =>
      {| DealModel.decision := "✅ APPROVE";
         DealModel.color := "#1ECD7D"; DealModel.risk := "LOW" |}
  | CONDITIONAL =>
      {| DealModel.decision := "⚠️ CONDITIONAL";
         DealModel.color := "#C17B42"; DealModel.risk := "MEDIUM" |}
  | REVIEW_REQUIRED =>
      {| DealModel.decision := "🔍 REVIEW REQUIRED";
         DealModel.color := "#371CA1"; DealModel.risk := "HIGH" |}
  | HIGH_RISK =>
      {| DealModel.decision := "⚡ HIGH RISK";
         DealModel.color := "#DC3545"; DealModel.risk := "VERY_HIGH" |}
  | DECLINE =>
      {| DealModel.decision := "❌ DECLINE";
         DealModel.color := "#DC3545"; DealModel.risk := "UNACCEPTABLE" |}
  end.

(** The rule of a tier, as the rule table words it. *)
Definition tier_rule (t : Tier) (dscr ltv capRate : Q) : Prop :=
  match t with
  | STRONG_APPROVE => 1.40 <= dscr /\ ltv <= 70 /\ 6.0 <= capRate
  | APPROVE => 1.30 <= dscr /\ ltv <= 75 /\ 5.5 <= capRate
  | CONDITIONAL => 1.25 <= dscr /\ ltv <= 80 /\ 4.5 <= capRate
  | REVIEW_REQUIRED => 1.20 <= dscr /\ ltv <= 85 /\ 4.0 <= capRate
  | HIGH_RISK => 1.15 <= dscr /\ ltv <= 90
  | DECLINE => True
  end.

(** The tiers evaluated before a tier. *)
Definition earlier (t : Tier) : list Tier :=
  match t with
  | STRONG_APPROVE => []
  | APPROVE => [STRONG_APPROVE]
  | CONDITIONAL => [STRONG_APPROVE; APPROVE]
  | REVIEW_REQUIRED => [STRONG_APPROVE; APPROVE; CONDITIONAL]
  | HIGH_RISK => [STRONG_APPROVE; APPROVE; CONDITIONAL; REVIEW_REQUIRED]
  | DECLINE => [STRONG_APPROVE; APPROVE; CONDITIONAL; REVIEW_REQUIRED; HIGH_RISK]
  end.

(** First match wins: the rule of the tier holds and no earlier rule
    does. *)
Definition selected (t : Tier) (dscr ltv capRate : Q) : Prop :=
  tier_rule t dscr ltv capRate /\
  forall u, In u (earlier t) -> ~ tier_rule u dscr ltv capRate.

(** The standard amortising-loan payment, as the specification writes
    it: [loan / n] at a zero monthly rate, otherwise
    [loan * r * (1+r)^n / ((1+r)^n - 1)], where [r] is the monthly rate
    [(annualRatePct / 100) / 12]. *)
Definition amortizedPayment (loanAmount annualRatePct n : Q) : Q :=
  let monthlyRate := (annualRatePct / 100) / 12 in
  if Qeq_dec monthlyRate 0 then loanAmount / n
  else loanAmount * monthlyRate * JS.Math_pow (1 + monthlyRate) n
       / (JS.Math_pow (1 + monthlyRate) n - 1).

(** The documented bounds of a deal input, each with the message
    [validateInputs] reports for it. *)
Definition bound_checks (m : DealModel.t) : list (string * Prop) :=
  [ ("Property value must be positive"%string,
      DealModel.propertyValue m <= 0);
    ("Annual NOI must be positive"%string,
      DealModel.annualNOI m <= 0);
    ("Loan amount must be positive"%string,
      DealModel.loanAmount m <= 0);
    ("Interest rate must be between 0% and 20%"%string,
      DealModel.interestRate m <= 0 \/ 20 < DealModel.interestRate m);
    ("Amortization must be between 1 and 50 years"%string,
      DealModel.amortizationYears m < 1 \/ 50 < DealModel.amortizationYears m);
    ("SOFR rate must be between 0% and 10%"%string,
      DealModel.sofrRate m < 0 \/ 10 < DealModel.sofrRate m) ].

(** A raw field is a valid cap rate: it reads as a number between 1 and
    15. *)
Definition validCapRate (v : option string) : Prop :=
  exists x, JS.parseFloat v = Some x /\ 1 <= x /\ x <= 15.

(** The admissibility of a raw row: the year reads as an integer from
    2020 to 2025, the half as 1 or 2, the sector is there with at least
    three characters, and one of the four rate fields is a valid cap
    rate. *)
Definition admissible (row : DataService.RawRow) : Prop :=
  (exists year, JS.parseInt (DataService.Report_Year row) = Some year
                /\ (2020 <= year <= 2025)%Z)
  /\ (exists half, JS.parseInt (DataService.Report_Half row) = Some half
                   /\ (half = 1 \/ half = 2)%Z)
  /\ (exists s, DataService.Sector row = Some s /\ (3 <= String.length s)%nat)
  /\ (validCapRate (DataService.H1_Low row)
      \/ validCapRate (DataService.H1_High row)
      \/ validCapRate (DataService.H2_Low row)
      \/ validCapRate (DataService.H2_High row)).

(** The population variance of a list: the mean of the squared
    deviations from the mean, the divisor being the number of elements
    (not that number less one); and the population standard deviation,
    its square root. *)
Definition populationVariance (rates : list Q) : Q :=
  let n := JS.len rates in
  let mu := JS.sum rates / n in
  JS.sum (map (fun x => (x - mu) * (x - mu)) rates) / n.

Definition populationStdDev (rates : list Q) : Q :=
  JS.Math_sqrt (populationVariance rates).

(** The value an average contributes when it is there. *)
Definition present (o : option Q) : list Q :=
  match o with Some x => [x] | None => [] end.

(** One value per record: the first-half average if there is one, else
    the second-half average. *)
Definition preferred (row : DataService.Row) : list Q :=
  match DataService.h1_avg row with
  | Some x => [x]
  | None => present (DataService.h2_avg row)
  end.

(** Both half-averages of a record, as far as they are there. *)
Definition bothHalves (row : DataService.Row) : list Q :=
  present (DataService.h1_avg row) ++ present (DataService.h2_avg row).

(** An average that is not zero. *)
Definition zero_free (o : option Q) : Prop :=
  forall x, o = Some x -> ~ x == 0.

(** The criteria the sector comparison and the time series pass to
    [filterData]: an optional sector, market and period, with
    [validMarketOnly: true]. *)
Definition validOnly (sector market period : option string) : DataService.Criteria :=
  {| DataService.sector := sector; DataService.market := market;
     DataService.period := period; DataService.validMarketOnly := true |}.

(** The entry of the single time series for a period: none when no
    record of the period has a rate. *)
Definition seriesEntry (filtered : list DataService.Row) (period : string)
  : option DataService.TimePoint :=
  let periodData :=
    filter (fun row => String.eqb (DataService.period_key row) period) filtered in
  match DataService.ratesOf periodData with
  | [] => None
  | rates =>
      Some {| DataService.tp_period := period;
              DataService.tp_avgRate := JS.toFixed 2 (DataService.mean rates);
              DataService.tp_count := List.length periodData |}
  end.

Definition entries (o : option DataService.TimePoint) : list DataService.TimePoint :=
  match o with Some e => [e] | None => [] end.




(** The entry of the sector comparison for a sector, before the entries
    without a positive rate are dropped. *)
Definition sectorEntry (this : DataService.t) (sector : string)
  : DataService.SectorPoint :=
  let sectorData := DataService.filterData this (validOnly (Some sector) None None) in
  {| DataService.sp_sector := sector;
     DataService.sp_avgRate :=
       JS.toFixed 2 (match DataService.ratesOf sectorData with
                     | [] => 0
                     | rates => DataService.mean rates
                     end);
     DataService.sp_count := List.length sectorData |}.

(** A data set, given by its processed records. *)
Definition dataset (records : list DataService.Row) : DataService.t :=
  {| DataService.data := None; DataService.processedData := Some records |}.

End Spec.

(** ** Sample inputs *)

Module Sample.

(** A deal whose metrics are the boundary triple: value 1,000,000, NOI
    60,000, loan 700,000, a zero rate over 196 months, so that the LTV is
    70, the cap rate 6.0 and the dscr 60000 / (700000 / (196 / 12)),
    which is 1.40. *)
Definition boundary_deal : DealModel.t :=
  DealModel.constructor 1000000 60000 700000 0 (196 / 12) 4.

(** The example deal of the specification. *)
Definition example_deal : DealModel.t :=
  DealModel.constructor 1000000 80000 750000 5.5 25 4.2.

(** The same deal at a zero interest rate. *)
Definition zero_rate_deal : DealModel.t :=
  DealModel.constructor 1000000 80000 750000 0 25 4.2.

(** A deal whose interest rate is above the 20% bound. *)
Definition out_of_bound_deal : DealModel.t :=
  DealModel.constructor 1000000 80000 750000 25 25 4.2.

(** The example deal in binary64 numbers at an interest rate of 1e-14
    percent, with an index rate of zero and the given loan.  With the
    monthly rate added, 1 rounds to 1. *)
Definition tiny_rate_deal (loan : float) : Binary64.t :=
  Binary64.constructor 1000000%float 80000%float loan
    (1 / 100000000000000)%float 25%float 0%float.

(** The example deal in binary64 numbers at 5.5 percent, repaid in one
    monthly payment, with the given loan. *)
Definition one_payment_deal (loan : float) : Binary64.t :=
  Binary64.constructor 1000000%float 80000%float loan 5.5%float
    (1 / 12)%float 4%float.

(** A loan of 72 against a value of 100: an implied LTV of 72. *)
Definition ltv72_loan : option Q := Some 72.
Definition ltv72_value : option Q := Some 100.

(** Two rates whose population standard deviation is 0.125. *)
Definition two_rates : list Q := [1; 1.25].

(** An office row in Dallas, first half of 2024, with both halves
    quoted: averages 6.5 and 6.3. *)
Definition office_dallas : DataService.RawRow :=
  {| DataService.Sector := Some "Office"%string;
     DataService.Subsector := Some "Class A"%string;
     DataService.Region := Some "South"%string;
     DataService.Market := Some "Dallas"%string;
     DataService.H1_Low := Some "6.0"%string;
     DataService.H1_High := Some "7.0"%string;
     DataService.H2_Low := Some "5.8"%string;
     DataService.H2_High := Some "6.8"%string;
     DataService.Report_Year := Some "2024"%string;
     DataService.Report_Half := Some "1"%string |}.

(** An office row whose market column holds the extraction artifact
    "Market", second half of 2024: average 4.5, market not valid. *)
Definition office_artifact : DataService.RawRow :=
  {| DataService.Sector := Some "Office"%string;
     DataService.Subsector := Some "Class B"%string;
     DataService.Region := Some "South"%string;
     DataService.Market := Some "Market"%string;
     DataService.H1_Low := Some "4.0"%string;
     DataService.H1_High := Some "5.0"%string;
     DataService.H2_Low := Some ""%string;
     DataService.H2_High := Some ""%string;
     DataService.Report_Year := Some "2024"%string;
     DataService.Report_Half := Some "2"%string |}.


(** A data set in which one record has no valid market. *)
Definition with_artifact : DataService.t :=
  DataService.load [office_dallas; office_artifact].


(** A data set of one record. *)
Definition one_record : DataService.t :=
  DataService.load [office_dallas].

(** The processed records of the sample rows. *)
Definition dallas_record : DataService.Row := DataService.addFields office_dallas.
Definition artifact_record : DataService.Row := DataService.addFields office_artifact.

End Sample.

(** ** The unit tests of the repository that the code passes, on the model *)

Example test_isValidCapRate :
  map DataService.isValidCapRate
    [Some "5.5"; Some "1.0"; Some "15.0"; Some "0.5"; Some "16.0"; Some "abc";
     Some ""]%string
  = [true; true; true; false; false; false; false].
Proof. reflexivity. Qed.

Example test_isValidMarket :
  map DataService.isValidMarket
    [Some "New York"; Some "Los Angeles"; Some "Chicago"; Some "xy"; Some "";
     None]%string
  = [true; true; true; false; false; false].
Proof. reflexivity. Qed.

Example test_isValidMarket_artifacts :
  map DataService.isValidMarket
    [Some "Market"; Some "market"; Some "Looking Forward to 2025";
     Some "Figure 3"; Some "2023"; Some "25%"; Some "  1st Street";
     Some "the"; Some "The Woodlands"]%string
  = [false; false; false; false; false; false; false; false; true].
Proof. reflexivity. Qed.

Example test_calculateAverage :
  map (fun p => option_map Qred
                  (DataService.calculateAverage (Some (fst p)) (Some (snd p))))
    [("4.0", "6.0"); ("3.5", "4.5"); ("", "6.0"); ("4.0", ""); ("", "");
     ("abc", "6.0"); ("4.0", "xyz")]%string
  = [Some 5; Some 4; Some 6; Some 4; None; Some 6; Some 4].
Proof. reflexivity. Qed.

Example test_getDSCRRisk :
  map (fun d => DealModel.level (DealModel.getDSCRRisk d)) [1.5; 1.3; 1.2; 1.0]
  = ["STRONG"; "ACCEPTABLE"; "MARGINAL"; "WEAK"]%string.
Proof. reflexivity. Qed.

Example test_getLTVRisk :
  map (fun l => DealModel.level (DealModel.getLTVRisk l)) [65; 75; 80; 90]
  = ["CONSERVATIVE"; "STANDARD"; "AGGRESSIVE"; "HIGH_RISK"]%string.
Proof. reflexivity. Qed.

(** [calculate()] caches: a second call returns the metrics of the first
    and leaves the object as it is. *)
Example test_calculate_caches (m : DealModel.t) :
  DealModel.calculate (snd (DealModel.calculate m))
  = DealModel.calculate m.
Proof.
  unfold DealModel.calculate.
  destruct (DealModel._calculations m) as [c |] eqn:E.
  - cbn [snd]. rewrite E. reflexivity.
  - cbn [snd DealModel.set_calculations DealModel._calculations].
    reflexivity.
Qed.

(** A half written "H1", as in the fixtures of the data-service tests,
    does not read as 1 or 2: such a row is not admitted. *)
Example half_H1_is_rejected :
  JS.parseInt (Some "H1"%string) = None
  /\ JS.parseInt (Some "1"%string) = Some 1%Z
  /\ JS.parseInt (Some "2024"%string) = Some 2024%Z.
Proof. repeat split. Qed.

(** ** Comparison lemmas *)

Lemma geb_true x y : JS.geb x y = true <-> y <= x.
Proof. unfold JS.geb. apply Qle_bool_iff. Qed.

Lemma leb_true x y : JS.leb x y = true <-> x <= y.
Proof. unfold JS.leb. apply Qle_bool_iff. Qed.

Lemma geb_false x y : JS.geb x y = false <-> x < y.
Proof.
  unfold JS.geb. split; intros H.
  - apply Qnot_le_lt. intros L. apply Qle_bool_iff in L. congruence.
  - destruct (Qle_bool y x) eqn:E; [|reflexivity].
    apply Qle_bool_iff in E. exfalso. apply (Qlt_not_le _ _ H E).
Qed.

Lemma leb_false x y : JS.leb x y = false <-> y < x.
Proof. unfold JS.leb. apply (geb_false y x). Qed.

Lemma gtb_true x y : JS.gtb x y = true <-> y < x.
Proof.
  unfold JS.gtb. rewrite Bool.negb_true_iff. apply (leb_false x y).
Qed.

Lemma gtb_false x y : JS.gtb x y = false <-> x <= y.
Proof.
  unfold JS.gtb. rewrite Bool.negb_false_iff. apply (leb_true x y).
Qed.

Lemma ltb_true x y : JS.ltb x y = true <-> x < y.
Proof. unfold JS.ltb. rewrite Bool.negb_true_iff. apply (geb_false x y). Qed.

Lemma ltb_false x y : JS.ltb x y = false <-> y <= x.
Proof. unfold JS.ltb. rewrite Bool.negb_false_iff. apply (geb_true x y). Qed.

(** Turn the outcome of the code's comparisons into order facts. *)
Ltac order_facts :=
  repeat match goal with
    | H : (_ && _)%bool = true |- _ => apply Bool.andb_true_iff in H; destruct H
    | H : (_ || _)%bool = false |- _ => apply Bool.orb_false_iff in H; destruct H
    | H : JS.geb _ _ = true |- _ => apply geb_true in H
    | H : JS.geb _ _ = false |- _ => apply geb_false in H
    | H : JS.leb _ _ = true |- _ => apply leb_true in H
    | H : JS.leb _ _ = false |- _ => apply leb_false in H
    | H : JS.gtb _ _ = true |- _ => apply gtb_true in H
    | H : JS.gtb _ _ = false |- _ => apply gtb_false in H
    | H : JS.ltb _ _ = true |- _ => apply ltb_true in H
    | H : JS.ltb _ _ = false |- _ => apply ltb_false in H
    end.

(** ** The credit decision *)

Lemma tier_result_inj t u : Spec.tier_result t = Spec.tier_result u -> t = u.
Proof. destruct t, u; simpl; intros H; try reflexivity; discriminate H. Qed.

(** A conjunction of three comparisons, as the code writes a tier. *)
Lemma tier3_true d l c a b e :
  (JS.geb d a && JS.leb l b && JS.geb c e)%bool = true <->
  a <= d /\ l <= b /\ e <= c.
Proof.
  rewrite !Bool.andb_true_iff, !geb_true, leb_true. tauto.
Qed.

Lemma tier2_true d l a b :
  (JS.geb d a && JS.leb l b)%bool = true <-> a <= d /\ l <= b.
Proof. rewrite Bool.andb_true_iff, geb_true, leb_true. tauto. Qed.

Lemma false_iff_not_true (b : bool) : b = false <-> ~ b = true.
Proof. symmetry. apply Bool.not_true_iff_false. Qed.

(** The tier chain on a triple: the decision is that of tier [t] exactly
    when [t] is the first tier whose rule holds. *)

Ltac earlier_none :=
  let u := fresh "u" in
  let Hu := fresh "Hu" in
  intros u Hu;
  repeat (destruct Hu as [Hu | Hu];
          [ subst u; cbn [Spec.tier_rule]; tauto | ]);
  contradiction.

Ltac earlier_hit E :=
  first [ apply (E Spec.STRONG_APPROVE); [tauto | cbn [Spec.tier_rule]; tauto]
        | apply (E Spec.APPROVE); [tauto | cbn [Spec.tier_rule]; tauto]
        | apply (E Spec.CONDITIONAL); [tauto | cbn [Spec.tier_rule]; tauto]
        | apply (E Spec.REVIEW_REQUIRED); [tauto | cbn [Spec.tier_rule]; tauto]
        | apply (E Spec.HIGH_RISK); [tauto | cbn [Spec.tier_rule]; tauto] ].

Lemma decision_chain (m : DealModel.t) (t : Spec.Tier) :
  let c := fst (DealModel.calculate m) in
  fst (DealModel.getCreditDecision m) = Spec.tier_result t <->
  Spec.selected t (DealModel.dscr c) (DealModel.actualLTV c)
    (DealModel.actualCapRate c).
Proof.
  unfold DealModel.getCreditDecision.
  destruct (DealModel.calculate m) as [c m']. cbn [fst].
  set (d := DealModel.dscr c). set (l := DealModel.actualLTV c).
  set (k := DealModel.actualCapRate c).
  unfold Spec.selected.
  destruct (JS.geb d 1.40 && JS.leb l 70 && JS.geb k 6.0)%bool eqn:H1;
    [| destruct (JS.geb d 1.30 && JS.leb l 75 && JS.geb k 5.5)%bool eqn:H2;
       [| destruct (JS.geb d 1.25 && JS.leb l 80 && JS.geb k 4.5)%bool eqn:H3;
          [| destruct (JS.geb d 1.20 && JS.leb l 85 && JS.geb k 4.0)%bool eqn:H4;
             [| destruct (JS.geb d 1.15 && JS.leb l 90)%bool eqn:H5 ]]]];
    rewrite ?false_iff_not_true, ?tier3_true, ?tier2_true in *;
    destruct t; cbn [Spec.tier_rule Spec.earlier Spec.tier_result In];
    (split;
     [ intros E; first [ discriminate E | split; [ tauto | earlier_none ] ]
     | intros [R E]; first [ reflexivity | exfalso; first [ tauto | earlier_hit E ] ] ]).
Qed.

(** C1.  For every deal, [getCreditDecision] returns the decision of
    exactly one of the six tiers: the first tier, in the order of the rule
    table, whose closed-threshold rule holds of the metrics (dscr, LTV,
    cap rate) that [calculate] returns, DECLINE being the rule that always
    holds.  Exactly one tier is selected for every triple, and the
    boundary triple dscr = 1.40, LTV = 70, cap rate = 6.0 gives
    STRONG_APPROVE. *)
Theorem credit_decision_first_match (m : DealModel.t) :
  let c := fst (DealModel.calculate m) in
  let r := fst (DealModel.getCreditDecision m) in
  let d := DealModel.dscr c in
  let l := DealModel.actualLTV c in
  let k := DealModel.actualCapRate c in
  (forall t, r = Spec.tier_result t <-> Spec.selected t d l k)
  /\ (exists! t, r = Spec.tier_result t)
  /\ (exists! t, Spec.selected t d l k)
  /\ (d == 1.40 -> l == 70 -> k == 6.0 ->
      r = Spec.tier_result Spec.STRONG_APPROVE).
Proof.
  intros c r d l k.
  assert (Hiff : forall t, r = Spec.tier_result t <-> Spec.selected t d l k)
    by (intros t; apply (decision_chain m t)).
  assert (Hex : exists t, r = Spec.tier_result t).
  { subst r. unfold DealModel.getCreditDecision.
    destruct (DealModel.calculate m) as [c0 m0]. cbn [fst].
    repeat match goal with
      | |- context [if ?b then _ else _] => destruct b
      end;
      [ exists Spec.STRONG_APPROVE | exists Spec.APPROVE | exists Spec.CONDITIONAL
      | exists Spec.REVIEW_REQUIRED | exists Spec.HIGH_RISK | exists Spec.DECLINE ];
      reflexivity. }
  destruct Hex as [t0 Ht0].
  split; [exact Hiff |].
  split.
  { exists t0. split; [exact Ht0 |].
    intros t' Ht'. apply tier_result_inj. congruence. }
  split.
  { exists t0. split; [apply Hiff; exact Ht0 |].
    intros t' Ht'. apply Hiff in Ht'. apply tier_result_inj. congruence. }
  intros Hd Hl Hk. apply Hiff. split.
  - cbn [Spec.tier_rule]. rewrite Hd, Hl, Hk.
    repeat split; apply Qle_refl.
  - cbn [Spec.earlier In]. tauto.
Qed.

Lemma credit_decision_first_match_witness :
  fst (DealModel.getCreditDecision Sample.boundary_deal)
  = Spec.tier_result Spec.STRONG_APPROVE.
Proof.
  apply (proj2 (proj2 (proj2 (credit_decision_first_match Sample.boundary_deal))));
    reflexivity.
Defined.

(** ** The payment formula *)

(** The metrics a fresh deal object computes: its cache is empty, so
    [calculate] evaluates the formulas. *)
Lemma calculate_fresh pv noi loan rate years sofr :
  let m := DealModel.constructor pv noi loan rate years sofr in
  let c := fst (DealModel.calculate m) in
  DealModel.actualCapRate c = noi / pv * 100
  /\ DealModel.actualLTV c = loan / pv * 100
  /\ DealModel.spread c = (rate - sofr) * 100
  /\ DealModel.annualDebtService c = DealModel.monthlyPayment c * 12
  /\ DealModel.dscr c = noi / (DealModel.monthlyPayment c * 12)
  /\ DealModel.debtConstant c = DealModel.monthlyPayment c * 12 / loan * 100
  /\ DealModel.breakEvenNOI c = DealModel.monthlyPayment c * 12.
Proof. repeat split. Qed.

Lemma monthlyPayment_fresh pv noi loan rate years sofr :
  DealModel.monthlyPayment
    (fst (DealModel.calculate (DealModel.constructor pv noi loan rate years sofr)))
  == Spec.amortizedPayment loan rate (years * 12).
Proof.
  unfold DealModel.calculate, DealModel.constructor, Spec.amortizedPayment.
  cbn [DealModel._calculations fst DealModel.monthlyPayment
       DealModel.loanAmount DealModel.interestRate DealModel.amortizationYears].
  unfold JS.eqb.
  destruct (Qeq_dec (rate / 100 / 12) 0) as [E | E].
  - rewrite (Qeq_eq_bool _ _ E). reflexivity.
  - destruct (Qeq_bool (rate / 100 / 12) 0) eqn:B.
    + apply Qeq_bool_eq in B. contradiction.
    + unfold Qdiv. ring.
Qed.

(** C2.  For every deal input, [calculate] computes the monthly payment
    by the standard amortising-loan formula over n = years * 12 payments
    at the monthly rate (rate / 100) / 12: loan / n at a zero rate,
    loan * r * (1+r)^n / ((1+r)^n - 1) otherwise.  On the example deal
    (value 1,000,000, NOI 80,000, loan 750,000, 5.5%, 25 years, index
    4.2%) the cap rate is 8.0 and the LTV 75.0, and at a zero rate the
    payment is exactly loan / (years * 12). *)
Theorem calculate_payment_formula :
  (forall pv noi loan rate years sofr,
      DealModel.monthlyPayment
        (fst (DealModel.calculate
                (DealModel.constructor pv noi loan rate years sofr)))
      == Spec.amortizedPayment loan rate (years * 12))
  /\ (forall pv noi loan years sofr,
        DealModel.monthlyPayment
          (fst (DealModel.calculate
                  (DealModel.constructor pv noi loan 0 years sofr)))
        == loan / (years * 12))
  /\ DealModel.actualCapRate (fst (DealModel.calculate Sample.example_deal)) == 8.0
  /\ DealModel.actualLTV (fst (DealModel.calculate Sample.example_deal)) == 75.0
  /\ DealModel.monthlyPayment (fst (DealModel.calculate Sample.zero_rate_deal))
     == 750000 / (25 * 12).
Proof.
  split; [exact monthlyPayment_fresh |].
  split.
  { intros pv noi loan years sofr. rewrite monthlyPayment_fresh.
    unfold Spec.amortizedPayment.
    destruct (Qeq_dec (0 / 100 / 12) 0) as [_ | E]; [reflexivity |].
    exfalso. apply E. reflexivity. }
  repeat split; vm_compute; reflexivity.
Qed.

(** ** Input validation *)

Lemma In_push_if (b : bool) (msg x : string) (errors : list string) :
  In x (DealModel.push_if b msg errors) <-> In x errors \/ (b = true /\ x = msg).
Proof.
  unfold DealModel.push_if. destruct b.
  - rewrite in_app_iff. simpl. intuition congruence.
  - intuition congruence.
Qed.

(** A message is reported exactly when its check fires. *)
Lemma In_validateInputs (m : DealModel.t) (x : string) :
  In x (DealModel.validateInputs m) <->
  (JS.leb (DealModel.propertyValue m) 0 = true
   /\ x = "Property value must be positive"%string)
  \/ (JS.leb (DealModel.annualNOI m) 0 = true
      /\ x = "Annual NOI must be positive"%string)
  \/ (JS.leb (DealModel.loanAmount m) 0 = true
      /\ x = "Loan amount must be positive"%string)
  \/ ((JS.leb (DealModel.interestRate m) 0
       || JS.gtb (DealModel.interestRate m) 20)%bool = true
      /\ x = "Interest rate must be between 0% and 20%"%string)
  \/ ((JS.ltb (DealModel.amortizationYears m) 1
       || JS.gtb (DealModel.amortizationYears m) 50)%bool = true
      /\ x = "Amortization must be between 1 and 50 years"%string)
  \/ ((JS.ltb (DealModel.sofrRate m) 0
       || JS.gtb (DealModel.sofrRate m) 10)%bool = true
      /\ x = "SOFR rate must be between 0% and 10%"%string)
  \/ (JS.gtb (DealModel.loanAmount m) (DealModel.propertyValue m) = true
      /\ x = "Loan amount cannot exceed property value"%string)
  \/ (JS.gtb (DealModel.annualNOI m) (DealModel.propertyValue m * 0.2) = true
      /\ x = "NOI seems unusually high relative to property value"%string)
  \/ (JS.ltb (DealModel.interestRate m) (DealModel.sofrRate m) = true
      /\ x = "Interest rate should be higher than SOFR rate"%string).
Proof.
  unfold DealModel.validateInputs. rewrite !In_push_if. simpl. tauto.
Qed.

(** Close a case of [In_validateInputs] whose message is another one. *)
Ltac other_message :=
  match goal with
  | H : _ /\ _ = _ |- _ => destruct H as [_ H]; discriminate H
  end.

Lemma bound_check_reported (m : DealModel.t) (msg : string) (P : Prop) :
  In (msg, P) (Spec.bound_checks m) ->
  (In msg (DealModel.validateInputs m) <-> P).
Proof.
  unfold Spec.bound_checks. cbn [In].
  intros H.
  repeat (destruct H as [H | H]; [inversion H; subst; clear H | ]);
    try contradiction;
    rewrite In_validateInputs, ?Bool.orb_true_iff,
      ?leb_true, ?gtb_true, ?ltb_true;
    (split;
     [ intros H;
       repeat (destruct H as [H | H]; [try other_message |]);
       try other_message; tauto
     | intros H; tauto ]).
Qed.

(** The claim as the specification states it fails: an input with an
    interest rate of 25%, above the bound, is reported by
    [validateInputs], and [calculate] still computes its metrics, the
    spread among them from the out-of-bound rate. *)
Lemma calculate_ignores_bounds :
  DealModel.validateInputs Sample.out_of_bound_deal
  = ["Interest rate must be between 0% and 20%"%string]
  /\ DealModel.actualCapRate (fst (DealModel.calculate Sample.out_of_bound_deal)) == 8
  /\ DealModel.actualLTV (fst (DealModel.calculate Sample.out_of_bound_deal)) == 75
  /\ DealModel.spread (fst (DealModel.calculate Sample.out_of_bound_deal)) == 2080
  /\ 0 < DealModel.monthlyPayment (fst (DealModel.calculate Sample.out_of_bound_deal)).
Proof. repeat split; vm_compute; reflexivity. Qed.

(** C3 (amended).  [validateInputs] is advisory: it returns the list of
    messages, one for every documented bound that the input violates
    (non-positive property value, NOI or loan amount; interest rate
    outside (0, 20]; amortization outside 1 to 50 years; index rate
    outside 0 to 10), and leaves the object as it is.  [calculate] does
    not consult it: for every input, in or out of bounds, it computes the
    metrics from the inputs as given. *)
Theorem validateInputs_is_advisory :
  (forall m msg P,
      In (msg, P) (Spec.bound_checks m) ->
      (In msg (DealModel.validateInputs m) <-> P))
  /\ (forall pv noi loan rate years sofr,
        let m := DealModel.constructor pv noi loan rate years sofr in
        let c := fst (DealModel.calculate m) in
        DealModel.actualCapRate c = noi / pv * 100
        /\ DealModel.actualLTV c = loan / pv * 100
        /\ DealModel.spread c = (rate - sofr) * 100
        /\ DealModel.monthlyPayment c
           == Spec.amortizedPayment loan rate (years * 12)
        /\ DealModel.dscr c = noi / (DealModel.monthlyPayment c * 12)).
Proof.
  split; [exact bound_check_reported |].
  intros pv noi loan rate years sofr m c.
  repeat split. apply monthlyPayment_fresh.
Qed.

(** ** LTV risk bands *)

(** The implied LTV that [calculateImpliedLTV] bands, when it returns a
    result. *)
Lemma calculateImpliedLTV_some loan value r :
  MarketValidationService.calculateImpliedLTV (Some loan) (Some value) = Some r ->
  let ltv := loan / value * 100 in
  MarketValidationService.riskLevel r =
    (if JS.gtb ltv 85 then "HIGH_RISK"
     else if JS.gtb ltv 80 then "AGGRESSIVE"
     else if JS.gtb ltv 75 then "STANDARD"
     else "CONSERVATIVE")%string.
Proof.
  unfold MarketValidationService.calculateImpliedLTV.
  destruct (negb (JS.truthy loan) || negb (JS.truthy value) || JS.leb value 0)%bool;
    [discriminate |].
  intros H.
  destruct (JS.gtb (loan / value * 100) 85);
    [| destruct (JS.gtb (loan / value * 100) 80);
       [| destruct (JS.gtb (loan / value * 100) 75)]];
    inversion H; reflexivity.
Qed.

(** The claim as the specification states it fails: at an LTV of 72 the
    deal engine says STANDARD and the market validation CONSERVATIVE. *)
Lemma ltv_bands_differ_at_72 :
  DealModel.level (DealModel.getLTVRisk 72) = "STANDARD"%string
  /\ option_map MarketValidationService.riskLevel
       (MarketValidationService.calculateImpliedLTV
          Sample.ltv72_loan Sample.ltv72_value)
     = Some "CONSERVATIVE"%string
  /\ option_map MarketValidationService.impliedLTV
       (MarketValidationService.calculateImpliedLTV
          Sample.ltv72_loan Sample.ltv72_value)
     = Some 72.
Proof. repeat split. Qed.

(** C7 (amended).  The market validation bands the implied LTV with
    thresholds five points above those of the deal engine: at most 75
    CONSERVATIVE, at most 80 STANDARD, at most 85 AGGRESSIVE, otherwise
    HIGH_RISK; that is, the band of an implied LTV [x] is the band
    [getLTVRisk] gives to [x - 5].  The two functions give the same band
    exactly when the LTV is at most 70 or above 85. *)
Theorem implied_ltv_band_is_offset loan value r :
  MarketValidationService.calculateImpliedLTV (Some loan) (Some value) = Some r ->
  let ltv := loan / value * 100 in
  (ltv <= 75 -> MarketValidationService.riskLevel r = "CONSERVATIVE"%string)
  /\ (75 < ltv <= 80 -> MarketValidationService.riskLevel r = "STANDARD"%string)
  /\ (80 < ltv <= 85 -> MarketValidationService.riskLevel r = "AGGRESSIVE"%string)
  /\ (85 < ltv -> MarketValidationService.riskLevel r = "HIGH_RISK"%string)
  /\ MarketValidationService.riskLevel r
     = DealModel.level (DealModel.getLTVRisk (ltv - 5))
  /\ (MarketValidationService.riskLevel r = DealModel.level (DealModel.getLTVRisk ltv)
      <-> ltv <= 70 \/ 85 < ltv).
Proof.
  intros H ltv. apply calculateImpliedLTV_some in H. cbv zeta in H. fold ltv in H.
  rewrite H. clear H. unfold DealModel.getLTVRisk.
  destruct (JS.gtb ltv 85) eqn:G85;
    [| destruct (JS.gtb ltv 80) eqn:G80;
       [| destruct (JS.gtb ltv 75) eqn:G75]];
    destruct (JS.leb (ltv - 5) 70) eqn:L70';
    destruct (JS.leb (ltv - 5) 75) eqn:L75';
    destruct (JS.leb (ltv - 5) 80) eqn:L80';
    destruct (JS.leb ltv 70) eqn:L70;
    destruct (JS.leb ltv 75) eqn:L75;
    destruct (JS.leb ltv 80) eqn:L80;
    order_facts; try (exfalso; lra);
    cbn [DealModel.level];
    repeat split; intros; try reflexivity; try lra;
    try discriminate; try (exfalso; lra);
    try match goal with
      | H : _ \/ _ |- _ => exfalso; lra
      end.
Qed.

Lemma implied_ltv_band_is_offset_witness :
  option_map MarketValidationService.riskLevel
    (MarketValidationService.calculateImpliedLTV (Some 780000) (Some 1000000))
  = Some (DealModel.level (DealModel.getLTVRisk (780000 / 1000000 * 100 - 5))).
Proof.
  destruct (MarketValidationService.calculateImpliedLTV (Some 780000) (Some 1000000))
    as [r |] eqn:E; [| discriminate E].
  cbn [option_map]. f_equal.
  exact (proj1 (proj2 (proj2 (proj2 (proj2
           (implied_ltv_band_is_offset 780000 1000000 r E)))))).
Defined.

(** ** Debt-service coverage and the loan amount *)

(** A positive numerator over a larger positive denominator is smaller. *)
Lemma Qdiv_lt_denominator a x y : 0 < a -> 0 < x -> x < y -> a / y < a / x.
Proof.
  intros Ha Hx Hxy. unfold Qdiv.
  apply Qmult_lt_l; [exact Ha |].
  assert (Hy : 0 < y) by (apply Qlt_trans with x; assumption).
  apply (proj1 (Qinv_lt_contravar x y Hx Hy)). exact Hxy.
Qed.

Lemma Math_pow_gt_one x n : 1 < x -> 1 <= n -> 1 < JS.Math_pow x n.
Proof.
  intros Hx Hn. unfold JS.Math_pow. apply Qpower_1_lt; [exact Hx |].
  apply Z.lt_le_trans with (Qfloor 1).
  - reflexivity.
  - apply Qfloor_resp_le. exact Hn.
Qed.

(** At a non-negative rate and with at least one payment, the monthly
    payment is the loan amount times a positive factor that does not
    depend on the loan. *)
Lemma payment_is_linear rate n :
  0 <= rate -> 1 <= n ->
  exists K, 0 < K /\ forall loan, Spec.amortizedPayment loan rate n == loan * K.
Proof.
  intros Hr Hn. unfold Spec.amortizedPayment.
  set (mr := rate / 100 / 12).
  destruct (Qeq_dec mr 0) as [E | E].
  - exists (/ n). split.
    + apply Qinv_lt_0_compat. lra.
    + intros loan. reflexivity.
  - assert (Hmr : 0 < mr).
    { assert (0 <= mr) by (subst mr; unfold Qdiv; 
        apply Qmult_le_0_compat; [apply Qmult_le_0_compat; [exact Hr |] |];
        apply Qlt_le_weak; reflexivity).
      destruct (Qlt_le_dec 0 mr) as [L | L]; [exact L |].
      exfalso. apply E. apply Qle_antisym; assumption. }
    assert (Hp : 1 < JS.Math_pow (1 + mr) n)
      by (apply Math_pow_gt_one; [lra | exact Hn]).
    set (p := JS.Math_pow (1 + mr) n) in *.
    exists (mr * p / (p - 1)). split.
    + unfold Qdiv. apply Qmult_lt_0_compat.
      * apply Qmult_lt_0_compat; lra.
      * apply Qinv_lt_0_compat. lra.
    + intros loan. unfold Qdiv. ring.
Qed.

(** The coverage ratio the payment formula gives, the NOI over twelve
    payments, strictly decreases in the loan amount over the rationals,
    at every non-negative rate. *)
Lemma formula_dscr_decreasing noi rate n L1 L2 :
  0 < noi -> 0 <= rate -> 1 <= n -> 0 < L1 -> L1 < L2 ->
  noi / (Spec.amortizedPayment L2 rate n * 12)
  < noi / (Spec.amortizedPayment L1 rate n * 12).
Proof.
  intros Hnoi Hr Hn HL1 HL.
  destruct (payment_is_linear rate n Hr Hn) as [K [HK Hlin]].
  rewrite !Hlin.
  apply Qdiv_lt_denominator; [exact Hnoi | |].
  - apply Qmult_lt_0_compat; [apply Qmult_lt_0_compat; assumption | reflexivity].
  - apply Qmult_lt_compat_r; [reflexivity |].
    apply Qmult_lt_compat_r; assumption.
Qed.

(** At a zero rate the payment of the formula is [loan / n]. *)
Lemma formula_zero_rate loan rate n :
  rate == 0 -> Spec.amortizedPayment loan rate n == loan / n.
Proof.
  intros Hr. unfold Spec.amortizedPayment.
  destruct (Qeq_dec (rate / 100 / 12) 0) as [_ | E]; [reflexivity |].
  exfalso. apply E. rewrite Hr. reflexivity.
Qed.

(** The claim as the specification states it fails for the numbers the
    code computes with.  In binary64, at a positive interest rate, two
    loan amounts L1 < L2 can receive the same dscr.

    At a rate of 1e-14 percent over 25 years, on inputs that
    [validateInputs] accepts, the monthly rate is positive but
    1 + monthlyRate rounds to 1, its power is 1, the payment is
    loan * monthlyRate / 0, an infinity, and the dscr is 0 for the loan
    of 750,000 and for the loan of 800,000.

    At 5.5 percent with a single payment (the power is the base itself),
    the loan of 750,000 and the next binary64 number above it have
    different payments and, after rounding, the same annual debt service
    and the same dscr. *)
Lemma dscr_ties_in_binary64 :
  (Binary64.validateInputs (Sample.tiny_rate_deal 750000%float) = []
   /\ Binary64.validateInputs (Sample.tiny_rate_deal 800000%float) = []
   /\ PrimFloat.ltb 0%float
        (Binary64.interestRate (Sample.tiny_rate_deal 750000%float)) = true
   /\ PrimFloat.ltb 750000%float 800000%float = true
   /\ option_map Binary64.monthlyPayment
        (Binary64.calculate (Sample.tiny_rate_deal 750000%float))
      = Some infinity
   /\ option_map Binary64.dscr
        (Binary64.calculate (Sample.tiny_rate_deal 750000%float))
      = Some 0%float
   /\ option_map Binary64.dscr
        (Binary64.calculate (Sample.tiny_rate_deal 800000%float))
      = Some 0%float)
  /\ (PrimFloat.ltb 0%float
        (Binary64.interestRate (Sample.one_payment_deal 750000%float)) = true
      /\ PrimFloat.mul
           (Binary64.amortizationYears (Sample.one_payment_deal 750000%float))
           12%float
         = 1%float
      /\ PrimFloat.ltb 750000%float (next_up 750000%float) = true
      /\ option_map
           (fun c => PrimFloat.ltb (Binary64.monthlyPayment c) infinity)
           (Binary64.calculate (Sample.one_payment_deal 750000%float))
         = Some true
      /\ option_map Binary64.dscr
           (Binary64.calculate (Sample.one_payment_deal 750000%float))
         = option_map Binary64.dscr
             (Binary64.calculate
                (Sample.one_payment_deal (next_up 750000%float)))).
Proof. repeat split; vm_compute; reflexivity. Qed.

(** C10 (amended).  With property value, NOI, interest rate,
    amortization and index rate held fixed (NOI positive, rate not
    negative, at least one monthly payment), the dscr of [calculate] is
    the NOI over twelve payments of the amortization formula, and over
    the rationals this quantity is strictly decreasing in the loan
    amount: for positive loans L1 < L2 it is strictly smaller at L2, at a
    positive rate and in the zero-rate case of the formula alike, where
    the payment is loan / n and the dscr NOI / (12 * loan / n).  The code
    evaluates the formula in binary64 numbers, where the strict
    inequality can be lost to rounding at a positive rate. *)
Theorem dscr_formula_decreases_in_loan pv noi rate years sofr L1 L2 :
  0 < noi -> 0 <= rate -> 1 <= years * 12 -> 0 < L1 -> L1 < L2 ->
  let metrics := fun loan =>
    fst (DealModel.calculate (DealModel.constructor pv noi loan rate years sofr)) in
  let formula := fun loan =>
    noi / (Spec.amortizedPayment loan rate (years * 12) * 12) in
  (forall loan,
      DealModel.dscr (metrics loan)
      = noi / (DealModel.monthlyPayment (metrics loan) * 12)
      /\ DealModel.monthlyPayment (metrics loan)
         == Spec.amortizedPayment loan rate (years * 12)
      /\ DealModel.dscr (metrics loan) == formula loan)
  /\ formula L2 < formula L1
  /\ (rate == 0 ->
      formula L1 == noi / (L1 / (years * 12) * 12)
      /\ formula L2 == noi / (L2 / (years * 12) * 12)).
Proof.
  intros Hnoi Hr Hn HL1 HL metrics formula.
  split.
  { intros loan.
    assert (E : DealModel.monthlyPayment (metrics loan)
                == Spec.amortizedPayment loan rate (years * 12))
      by apply monthlyPayment_fresh.
    split; [reflexivity |]. split; [exact E |].
    unfold formula. rewrite <- E. reflexivity. }
  split; [apply formula_dscr_decreasing; assumption |].
  intros Hz. unfold formula. rewrite !(formula_zero_rate _ rate _ Hz).
  split; reflexivity.
Qed.

Lemma dscr_formula_decreases_in_loan_witness :
  80000 / (Spec.amortizedPayment 800000 0 (25 * 12) * 12)
  < 80000 / (Spec.amortizedPayment 750000 0 (25 * 12) * 12).
Proof.
  refine (proj1 (proj2 (dscr_formula_decreases_in_loan
                          1000000 80000 0 25 4.2 750000 800000 _ _ _ _ _)));
    first [ reflexivity | vm_compute; discriminate ].
Defined.

(** ** Admission of raw rows *)

Lemma isValidCapRate_iff v :
  DataService.isValidCapRate v = true <-> Spec.validCapRate v.
Proof.
  unfold DataService.isValidCapRate, Spec.validCapRate.
  destruct (JS.parseFloat v) as [x |].
  - rewrite Bool.andb_true_iff, geb_true, leb_true. split.
    + intros [H1 H2]. exists x. auto.
    + intros [y [E [H1 H2]]]. inversion E; subst. auto.
  - split; [discriminate |]. intros [y [E _]]. discriminate E.
Qed.

Lemma truthy_opt_length (o : option string) :
  (JS.truthy_opt o && negb (Nat.ltb (String.length (JS.toString o)) 3))%bool = true
  <-> exists s, o = Some s /\ (3 <= String.length s)%nat.
Proof.
  destruct o as [s |]; cbn [JS.truthy_opt JS.toString].
  - rewrite Bool.andb_true_iff, Bool.negb_true_iff, Nat.ltb_ge. split.
    + intros [_ H]. exists s. auto.
    + intros [s' [E H]]. inversion E; subst. split; [| exact H].
      destruct s'; [inversion H | reflexivity].
  - split; [discriminate |]. intros [s [E _]]. discriminate E.
Qed.

(** The filter of [processData] decides admissibility. *)
Lemma isValidRow_iff row :
  DataService.isValidRow row = true <-> Spec.admissible row.
Proof.
  unfold DataService.isValidRow, Spec.admissible.
  rewrite <- !isValidCapRate_iff, <- truthy_opt_length.
  destruct (JS.parseInt (DataService.Report_Year row)) as [year |];
    [| split; [discriminate | intros [[y [E _]] _]; discriminate E]].
  destruct ((year <? 2020)%Z || (year >? 2025)%Z)%bool eqn:Hy.
  { split; [discriminate |]. intros [[y [E Hr]] _]. inversion E; subst.
    apply Bool.orb_true_iff in Hy. destruct Hy as [Hy | Hy].
    - apply Z.ltb_lt in Hy. lia.
    - apply Z.gtb_lt in Hy. lia. }
  apply Bool.orb_false_iff in Hy. destruct Hy as [Hy1 Hy2].
  apply Z.ltb_ge in Hy1. rewrite Z.gtb_ltb in Hy2. apply Z.ltb_ge in Hy2.
  destruct (JS.parseInt (DataService.Report_Half row)) as [half |];
    [| split; [discriminate | intros [_ [[h [E _]] _]]; discriminate E]].
  destruct (negb (half =? 1)%Z && negb (half =? 2)%Z)%bool eqn:Hh.
  { split; [discriminate |]. intros [_ [[h [E Hr]] _]]. inversion E; subst.
    apply Bool.andb_true_iff in Hh. destruct Hh as [H1 H2].
    apply Bool.negb_true_iff in H1, H2.
    apply Z.eqb_neq in H1, H2. lia. }
  assert (Hhalf : (half = 1 \/ half = 2)%Z).
  { apply Bool.andb_false_iff in Hh. destruct Hh as [H | H];
      apply Bool.negb_false_iff in H; apply Z.eqb_eq in H; auto. }
  destruct (negb (JS.truthy_opt (DataService.Sector row))
            || Nat.ltb (String.length (JS.toString (DataService.Sector row))) 3)%bool
    eqn:Hs.
  { split; [discriminate |]. intros [_ [_ [Hsec _]]].
    apply Bool.andb_true_iff in Hsec. destruct Hsec as [S1 S2].
    rewrite S1 in Hs. apply Bool.negb_true_iff in S2. rewrite S2 in Hs.
    discriminate Hs. }
  apply Bool.orb_false_iff in Hs. destruct Hs as [S1 S2].
  apply Bool.negb_false_iff in S1. rewrite S1, S2. cbn [negb andb].
  rewrite !Bool.orb_true_iff. split.
  - intros H. split; [exists year; split; [reflexivity | lia] |].
    split; [exists half; split; [reflexivity | exact Hhalf] |].
    split; [reflexivity | tauto].
  - intros (_ & _ & _ & H). tauto.
Qed.

Lemma filter_split_length {A} (f : A -> bool) (l : list A) :
  (List.length (filter f l) + List.length (filter (fun x => negb (f x)) l)
   = List.length l)%nat.
Proof.
  induction l as [| x l IH]; [reflexivity |].
  cbn [filter]. destruct (f x); cbn [negb List.length]; lia.
Qed.

Lemma filter_split_permutation {A} (f : A -> bool) (l : list A) :
  Permutation (filter f l ++ filter (fun x => negb (f x)) l) l.
Proof.
  induction l as [| x l IH]; [constructor |].
  cbn [filter]. destruct (f x); cbn [negb].
  - cbn [app]. constructor. exact IH.
  - apply Permutation_sym. apply Permutation_cons_app.
    apply Permutation_sym. exact IH.
Qed.

Lemma raw_processData rawData :
  map DataService.raw (DataService.processData rawData)
  = filter DataService.isValidRow rawData.
Proof.
  unfold DataService.processData. rewrite map_map. cbn [DataService.raw DataService.addFields].
  apply map_id.
Qed.

(** C4.  For every batch of raw rows, [processData] returns exactly the
    admissible rows (year from 2020 to 2025, half 1 or 2, a sector of at
    least three characters, one of the four rate fields a valid cap
    rate), each with its computed fields and in the order of the batch:
    every record of the output is admissible, the rows left out are
    exactly the inadmissible ones, and the number admitted plus the
    number rejected is the number of rows. *)
Theorem processData_admits_admissible (rawData : list DataService.RawRow) :
  let admitted := DataService.processData rawData in
  let rejected := filter (fun row => negb (DataService.isValidRow row)) rawData in
  (forall r, In r admitted <->
             exists row, In row rawData /\ Spec.admissible row
                         /\ r = DataService.addFields row)
  /\ (forall r, In r admitted -> Spec.admissible (DataService.raw r))
  /\ (forall row, In row rejected <-> In row rawData /\ ~ Spec.admissible row)
  /\ Permutation (map DataService.raw admitted ++ rejected) rawData
  /\ (List.length admitted + List.length rejected = List.length rawData)%nat.
Proof.
  intros admitted rejected.
  assert (Hin : forall r, In r admitted <->
             exists row, In row rawData /\ Spec.admissible row
                         /\ r = DataService.addFields row).
  { intros r. subst admitted. unfold DataService.processData.
    rewrite in_map_iff. split.
    - intros [row [E H]]. apply filter_In in H. destruct H as [H V].
      exists row. rewrite <- isValidRow_iff. auto.
    - intros [row [H [V E]]]. exists row. split; [auto |].
      apply filter_In. rewrite isValidRow_iff. auto. }
  split; [exact Hin |].
  split.
  { intros r H. apply Hin in H. destruct H as [row [_ [V E]]].
    subst r. exact V. }
  split.
  { intros row. subst rejected. rewrite filter_In, Bool.negb_true_iff.
    rewrite <- isValidRow_iff, Bool.not_true_iff_false. reflexivity. }
  split.
  { subst admitted rejected. rewrite raw_processData.
    apply filter_split_permutation. }
  subst admitted rejected.
  rewrite <- (length_map DataService.raw), raw_processData.
  apply filter_split_length.
Qed.

(** ** Volatility *)

(** [Math.pow(x, 2)] is the square. *)
Lemma Math_pow_2 x : JS.Math_pow x 2 = x * x.
Proof. reflexivity. Qed.

Lemma squaredDiffs_eq (rates : list Q) (mu : Q) :
  map (fun rate => JS.Math_pow (rate - mu) 2) rates
  = map (fun x => (x - mu) * (x - mu)) rates.
Proof. apply map_ext. intros x. apply Math_pow_2. Qed.

(** The controller's volatility of two or more rates is the population
    standard deviation. *)
Lemma controller_volatility rates :
  (2 <= List.length rates)%nat ->
  DashboardController.calculateVolatility rates = Spec.populationStdDev rates.
Proof.
  intros H. unfold DashboardController.calculateVolatility.
  apply Nat.ltb_ge in H. rewrite H.
  unfold Spec.populationStdDev, Spec.populationVariance.
  cbv zeta. rewrite squaredDiffs_eq. reflexivity.
Qed.

(** The data service rounds it to two decimals. *)
Lemma service_volatility rates :
  (2 <= List.length rates)%nat ->
  DataService.calculateVolatility rates
  = JS.toFixed 2 (Spec.populationStdDev rates).
Proof.
  intros H. unfold DataService.calculateVolatility.
  apply Nat.ltb_ge in H. rewrite H.
  unfold Spec.populationStdDev, Spec.populationVariance.
  cbv zeta. rewrite squaredDiffs_eq. reflexivity.
Qed.

Lemma volatility_short rates :
  (List.length rates < 2)%nat ->
  DashboardController.calculateVolatility rates = 0
  /\ DataService.calculateVolatility rates = 0.
Proof.
  intros H. unfold DashboardController.calculateVolatility,
    DataService.calculateVolatility.
  apply Nat.ltb_lt in H. rewrite H. split; reflexivity.
Qed.

(** The claim as the specification states it fails for the data service:
    the population standard deviation of 1 and 1.25 is 0.125, which the
    controller returns, and the data service returns 0.13. *)
Lemma service_volatility_is_rounded :
  Spec.populationStdDev Sample.two_rates == 0.125
  /\ DashboardController.calculateVolatility Sample.two_rates == 0.125
  /\ DataService.calculateVolatility Sample.two_rates == 0.13
  /\ ~ DataService.calculateVolatility Sample.two_rates
       == Spec.populationStdDev Sample.two_rates.
Proof.
  repeat split; try (vm_compute; reflexivity).
  vm_compute. discriminate.
Qed.

(** C9 (amended).  For every list of two or more rates, the controller's
    [calculateVolatility] returns the population standard deviation (the
    variance divides by N, not by N - 1) and the data service's returns
    that value rounded to two decimals; for every empty or
    single-element list both return 0. *)
Theorem volatility_is_population_stddev (rates : list Q) :
  ((2 <= List.length rates)%nat ->
   DashboardController.calculateVolatility rates = Spec.populationStdDev rates
   /\ DataService.calculateVolatility rates
      = JS.toFixed 2 (Spec.populationStdDev rates))
  /\ ((List.length rates < 2)%nat ->
      DashboardController.calculateVolatility rates = 0
      /\ DataService.calculateVolatility rates = 0).
Proof.
  split.
  - intros H. split; [apply controller_volatility | apply service_volatility];
      exact H.
  - apply volatility_short.
Qed.

Lemma volatility_is_population_stddev_witness :
  DashboardController.calculateVolatility [4.5; 5.5; 6.5]
  = Spec.populationStdDev [4.5; 5.5; 6.5]
  /\ DataService.calculateVolatility [5.0] = 0.
Proof.
  split.
  - apply (proj1 (volatility_is_population_stddev [4.5; 5.5; 6.5])).
    cbn [List.length]. lia.
  - apply (proj2 (volatility_is_population_stddev [5.0])).
    cbn [List.length]. lia.
Defined.

(** ** Arrays: sorting and removing duplicates *)

Section Arrays.

Context {A : Type}.

Lemma insert_sorted_perm (le : A -> A -> bool) (x : A) (l : list A) :
  Permutation (JS.insert_sorted le x l) (x :: l).
Proof.
  induction l as [| y l IH]; cbn [JS.insert_sorted]; [reflexivity |].
  destruct (le x y); [reflexivity |].
  rewrite IH. apply perm_swap.
Qed.

(** A sort only rearranges, whatever the comparator. *)
Lemma sort_by_perm (le : A -> A -> bool) (l : list A) :
  Permutation (JS.sort_by le l) l.
Proof.
  induction l as [| x l IH]; cbn [JS.sort_by fold_right]; [reflexivity |].
  fold (JS.sort_by le l). rewrite insert_sorted_perm. constructor. exact IH.
Qed.

Lemma In_sort_by (le : A -> A -> bool) (l : list A) (x : A) :
  In x (JS.sort_by le l) <-> In x l.
Proof.
  split; apply Permutation_in;
    [| apply Permutation_sym]; apply sort_by_perm.
Qed.

Lemma NoDup_sort_by (le : A -> A -> bool) (l : list A) :
  NoDup l -> NoDup (JS.sort_by le l).
Proof.
  apply Permutation_NoDup. apply Permutation_sym. apply sort_by_perm.
Qed.

(** With a total comparator the result is sorted: every element is
    followed by one that is not before it. *)
Lemma insert_sorted_sorted (le : A -> A -> bool) (x : A) (l : list A) :
  (forall y, In y l -> le x y = true \/ le y x = true) ->
  Sorted (fun a b => le a b = true) l ->
  Sorted (fun a b => le a b = true) (JS.insert_sorted le x l).
Proof.
  intros Htot Hs. induction Hs as [| y l Hs IH Hd]; cbn [JS.insert_sorted].
  - repeat constructor.
  - destruct (le x y) eqn:E.
    + constructor; [constructor; assumption | constructor; exact E].
    + constructor.
      * apply IH. intros z Hz. apply Htot. right. exact Hz.
      * destruct l as [| z l]; cbn [JS.insert_sorted].
        -- constructor. destruct (Htot y (or_introl eq_refl)) as [H | H];
             [congruence | exact H].
        -- destruct (le x z).
           ++ constructor. destruct (Htot y (or_introl eq_refl)) as [H | H];
                [congruence | exact H].
           ++ inversion Hd; subst. constructor. assumption.
Qed.

Lemma sort_by_sorted (le : A -> A -> bool) (l : list A) :
  (forall x y, In x l -> In y l -> le x y = true \/ le y x = true) ->
  Sorted (fun a b => le a b = true) (JS.sort_by le l).
Proof.
  induction l as [| x l IH]; intros Htot; cbn [JS.sort_by fold_right].
  - constructor.
  - fold (JS.sort_by le l). apply insert_sorted_sorted.
    + intros y Hy. apply In_sort_by in Hy.
      apply Htot; [left; reflexivity | right; exact Hy].
    + apply IH. intros a b Ha Hb. apply Htot; right; assumption.
Qed.

Variable eqb : A -> A -> bool.
Hypothesis eqb_eq : forall x y, eqb x y = true <-> x = y.

Lemma existsb_eqb (x : A) (seen : list A) :
  existsb (eqb x) seen = true <-> In x seen.
Proof.
  rewrite existsb_exists. split.
  - intros [y [H E]]. apply eqb_eq in E. subst. exact H.
  - intros H. exists x. split; [exact H | apply eqb_eq; reflexivity].
Qed.

Lemma In_uniq_from (seen l : list A) (x : A) :
  In x (JS.uniq_from eqb seen l) <-> In x l /\ ~ In x seen.
Proof.
  revert seen. induction l as [| y l IH]; intros seen; cbn [JS.uniq_from].
  - cbn [In]. tauto.
  - destruct (existsb (eqb y) seen) eqn:E.
    + apply existsb_eqb in E. rewrite IH. cbn [In]. split.
      * intros [H1 H2]. auto.
      * intros [[H1 | H1] H2]; [subst; contradiction | auto].
    + assert (Hy : ~ In y seen).
      { intros H. apply existsb_eqb in H. congruence. }
      cbn [In]. rewrite IH. cbn [In]. split.
      * intros [H | [H1 H2]]; [subst; auto | ]. split; [auto |].
        intros H. apply H2. right. exact H.
      * intros [[H | H] H2]; [auto |].
        destruct (eqb y x) eqn:Eyx.
        -- apply eqb_eq in Eyx. auto.
        -- right. split; [exact H |]. intros [H3 | H3]; [| contradiction].
           subst. assert (eqb x x = true) by (apply eqb_eq; reflexivity).
           congruence.
Qed.

Lemma NoDup_uniq_from (seen l : list A) : NoDup (JS.uniq_from eqb seen l).
Proof.
  revert seen. induction l as [| y l IH]; intros seen; cbn [JS.uniq_from].
  - constructor.
  - destruct (existsb (eqb y) seen); [apply IH |].
    constructor; [| apply IH].
    rewrite In_uniq_from. intros [_ H]. apply H. left. reflexivity.
Qed.

(** The elements of a set built from a list are those of the list, once
    each. *)
Lemma In_uniq (l : list A) (x : A) : In x (JS.uniq eqb l) <-> In x l.
Proof. unfold JS.uniq. rewrite In_uniq_from. cbn [In]. tauto. Qed.

Lemma NoDup_uniq (l : list A) : NoDup (JS.uniq eqb l).
Proof. apply NoDup_uniq_from. Qed.

End Arrays.

(** ** The data set: sectors, periods and filters *)

Lemma opt_eqb_eq (a b : option string) :
  DataService.opt_eqb a b = true <-> a = b.
Proof.
  destruct a as [x |], b as [y |]; cbn [DataService.opt_eqb];
    try (split; [discriminate | discriminate]); try tauto.
  rewrite String.eqb_eq. split; [intros; subst; reflexivity |].
  intros E. inversion E. reflexivity.
Qed.

Lemma truthy_opt_some (o : option string) :
  JS.truthy_opt o = true <-> exists s, o = Some s /\ s <> ""%string.
Proof.
  destruct o as [s |]; cbn [JS.truthy_opt].
  - unfold JS.truthy_string. rewrite Bool.negb_true_iff, String.eqb_neq.
    split.
    + intros H. exists s. auto.
    + intros [s' [E H]]. inversion E; subst. exact H.
  - split; [discriminate |]. intros [s [E _]]. discriminate E.
Qed.

(** The names [.filter(Boolean)] keeps from a list of optional names. *)
Lemma In_truthy_names (l : list (option string)) (s : string) :
  In s (map JS.toString (filter JS.truthy_opt l))
  <-> In (Some s) l /\ s <> ""%string.
Proof.
  rewrite in_map_iff. split.
  - intros [o [E H]]. apply filter_In in H. destruct H as [H T].
    apply truthy_opt_some in T. destruct T as [s' [Es Hs]]. subst o.
    cbn [JS.toString] in E. subst s'. auto.
  - intros [H Hs]. exists (Some s). split; [reflexivity |].
    apply filter_In. split; [exact H |]. apply truthy_opt_some.
    exists s. auto.
Qed.

Lemma NoDup_truthy_names (l : list (option string)) :
  NoDup l -> NoDup (map JS.toString (filter JS.truthy_opt l)).
Proof.
  induction 1 as [| o l Hn Hd IH]; cbn [filter map]; [constructor |].
  destruct (JS.truthy_opt o) eqn:T; [| exact IH].
  cbn [map]. constructor; [| exact IH].
  apply truthy_opt_some in T. destruct T as [s [E Hs]]. subst o.
  cbn [JS.toString]. rewrite In_truthy_names. intros [H _]. contradiction.
Qed.

(** The sectors of a data set: the non-empty sector names of its
    records, once each. *)
Lemma In_getSectors (this : DataService.t) (s : string) :
  In s (DataService.getSectors this) <->
  exists pd, DataService.processedData this = Some pd
             /\ (exists row, In row pd
                             /\ DataService.Sector (DataService.raw row) = Some s)
             /\ s <> ""%string.
Proof.
  unfold DataService.getSectors.
  destruct (DataService.processedData this) as [pd |].
  - unfold JS.sort. rewrite In_sort_by, In_truthy_names.
    rewrite (In_uniq _ opt_eqb_eq), in_map_iff. split.
    + intros [[row [E H]] Hs]. exists pd. split; [reflexivity |].
      split; [exists row; auto | exact Hs].
    + intros [pd' [E [[row [H Er]] Hs]]]. inversion E; subst pd'.
      split; [exists row; auto | exact Hs].
  - cbn [In]. split; [contradiction |]. intros [pd [E _]]. discriminate E.
Qed.

Lemma NoDup_getSectors (this : DataService.t) :
  NoDup (DataService.getSectors this).
Proof.
  unfold DataService.getSectors.
  destruct (DataService.processedData this) as [pd |]; [| constructor].
  apply NoDup_sort_by. apply NoDup_truthy_names.
  apply (NoDup_uniq _ opt_eqb_eq).
Qed.

(** The periods of a data set: the period keys of its records, once
    each. *)
Lemma In_getPeriods (this : DataService.t) (p : string) :
  In p (DataService.getPeriods this) <->
  exists pd, DataService.processedData this = Some pd
             /\ exists row, In row pd /\ DataService.period_key row = p.
Proof.
  unfold DataService.getPeriods.
  destruct (DataService.processedData this) as [pd |].
  - unfold JS.sort_with. rewrite In_sort_by.
    rewrite (In_uniq _ String.eqb_eq), in_map_iff. split.
    + intros [row [E H]]. exists pd. split; [reflexivity |]. exists row. auto.
    + intros [pd' [E [row [H Er]]]]. inversion E; subst pd'. exists row. auto.
  - cbn [In]. split; [contradiction |]. intros [pd [E _]]. discriminate E.
Qed.


(** ** Which averages a record contributes *)

Lemma truthy_nonzero (x : Q) : ~ x == 0 -> JS.truthy x = true.
Proof.
  intros H. unfold JS.truthy. apply Bool.negb_true_iff.
  destruct (Qeq_bool x 0) eqn:E; [| reflexivity].
  apply Qeq_bool_eq in E. contradiction.
Qed.

Lemma ratesOf_cons (row : DataService.Row) (rows : list DataService.Row) :
  DataService.ratesOf (row :: rows)
  = DataService.ratesOf [row] ++ DataService.ratesOf rows.
Proof.
  unfold DataService.ratesOf. cbn [map DataService.notNull].
  destruct (DataService.or_else _ _); reflexivity.
Qed.

(** A record contributes at most one value to [ratesOf]. *)
Lemma ratesOf_length (rows : list DataService.Row) :
  (List.length (DataService.ratesOf rows) <= List.length rows)%nat.
Proof.
  induction rows as [| row rows IH]; [apply Nat.le_refl |].
  rewrite ratesOf_cons, length_app. cbn [List.length].
  unfold DataService.ratesOf at 1. cbn [map DataService.notNull].
  destruct (DataService.or_else _ _); cbn [List.length]; lia.
Qed.

(** With a first-half average other than zero, that value is the
    preferred one. *)
Lemma ratesOf_single (row : DataService.Row) :
  Spec.zero_free (DataService.h1_avg row) ->
  DataService.ratesOf [row] = Spec.preferred row.
Proof.
  intros Hz. unfold DataService.ratesOf, Spec.preferred, DataService.or_else.
  cbn [map DataService.notNull].
  destruct (DataService.h1_avg row) as [x |].
  - rewrite (truthy_nonzero x (Hz x eq_refl)). reflexivity.
  - destruct (DataService.h2_avg row); reflexivity.
Qed.

Lemma ratesOf_preferred (rows : list DataService.Row) :
  (forall row, In row rows -> Spec.zero_free (DataService.h1_avg row)) ->
  DataService.ratesOf rows = flat_map Spec.preferred rows.
Proof.
  induction rows as [| row rows IH]; intros Hz; [reflexivity |].
  rewrite ratesOf_cons. cbn [flat_map]. f_equal.
  - apply ratesOf_single. apply Hz. left. reflexivity.
  - apply IH. intros r Hr. apply Hz. right. exact Hr.
Qed.

(** The loop of [getMarketCapRate] pushes, record by record, the first
    average and then the second. *)
Lemma collectRates_step (rows : list DataService.Row) (acc : list Q) :
  (forall row, In row rows ->
               Spec.zero_free (DataService.h1_avg row)
               /\ Spec.zero_free (DataService.h2_avg row)) ->
  fold_left
    (fun rates row =>
       let rates :=
         match DataService.h1_avg row with
         | Some x => if JS.truthy x then rates ++ [x] else rates
         | None => rates
         end in
       match DataService.h2_avg row with
       | Some x => if JS.truthy x then rates ++ [x] else rates
       | None => rates
       end) rows acc
  = acc ++ flat_map Spec.bothHalves rows.
Proof.
  revert acc. induction rows as [| row rows IH]; intros acc Hz.
  - cbn [fold_left flat_map]. symmetry. apply app_nil_r.
  - cbn [fold_left flat_map]. rewrite IH
      by (intros r Hr; apply Hz; right; exact Hr).
    destruct (Hz row (or_introl eq_refl)) as [Z1 Z2].
    unfold Spec.bothHalves, Spec.present.
    destruct (DataService.h1_avg row) as [x |];
      destruct (DataService.h2_avg row) as [y |];
      rewrite ?(truthy_nonzero x (Z1 x eq_refl)),
        ?(truthy_nonzero y (Z2 y eq_refl));
      cbn [app]; rewrite <- ?app_assoc; cbn [app]; rewrite ?app_nil_r;
      reflexivity.
Qed.

Lemma collectRates_bothHalves (rows : list DataService.Row) :
  (forall row, In row rows ->
               Spec.zero_free (DataService.h1_avg row)
               /\ Spec.zero_free (DataService.h2_avg row)) ->
  MarketValidationService.collectRates rows = flat_map Spec.bothHalves rows.
Proof.
  intros Hz. unfold MarketValidationService.collectRates.
  rewrite collectRates_step by exact Hz. reflexivity.
Qed.

(** What [getMarketCapRate] averages and counts. *)
Lemma getMarketCapRate_some this sector market period r :
  MarketValidationService.getMarketCapRate this sector market period = Some r ->
  let rates := MarketValidationService.collectRates
                 (DataService.filterData
                    (MarketValidationService.dataService this)
                    (Spec.validOnly sector market period)) in
  MarketValidationService.dataPoints r = List.length rates
  /\ MarketValidationService.avgRate r
     = JS.toFixed 2 (JS.sum rates / JS.len rates).
Proof.
  unfold MarketValidationService.getMarketCapRate.
  destruct (negb (JS.truthy_opt sector) || negb (JS.truthy_opt market)
            || negb (JS.truthy_opt period))%bool; [discriminate |].
  fold (Spec.validOnly sector market period).
  destruct (Nat.eqb _ 0); [discriminate |].
  destruct (MarketValidationService.collectRates _) as [| r0 rest];
    [discriminate |].
  intros E. inversion E; subst; clear E. cbn. split; reflexivity.
Qed.

(** ** The aggregates, entry by entry *)

(** The loop of [getTimeSeriesData] appends, period by period, the entry
    of the period if it has one. *)
Lemma timeSeries_loop (filtered : list DataService.Row)
    (periods : list string) (acc : list DataService.TimePoint) :
  fold_left
    (fun timeSeriesData period =>
       let periodData :=
         filter (fun row => String.eqb (DataService.period_key row) period)
           filtered in
       if Nat.ltb 0 (List.length periodData) then
         let avgRates := DataService.ratesOf periodData in
         if Nat.ltb 0 (List.length avgRates) then
           let avgRate := DataService.mean avgRates in
           timeSeriesData ++
             [{| DataService.tp_period := period;
                 DataService.tp_avgRate := JS.toFixed 2 avgRate;
                 DataService.tp_count := List.length periodData |}]
         else timeSeriesData
       else timeSeriesData)
    periods acc
  = acc ++ flat_map (fun p => Spec.entries (Spec.seriesEntry filtered p)) periods.
Proof.
  revert acc. induction periods as [| p periods IH]; intros acc.
  - cbn [fold_left flat_map]. symmetry. apply app_nil_r.
  - cbn [fold_left flat_map]. rewrite IH. rewrite app_assoc. f_equal.
    unfold Spec.seriesEntry. cbv zeta.
    set (periodData := filter _ filtered).
    destruct periodData as [| row rest] eqn:E.
    + cbn. symmetry. apply app_nil_r.
    + cbn [List.length Nat.ltb Nat.leb].
      destruct (DataService.ratesOf (row :: rest)) as [| x rates].
      * cbn. symmetry. apply app_nil_r.
      * reflexivity.
Qed.

Lemma getTimeSeriesData_entries (this : DataService.t) (sector market : option string) :
  DataService.getTimeSeriesData this sector market
  = flat_map
      (fun p => Spec.entries
                  (Spec.seriesEntry
                     (DataService.filterData this (Spec.validOnly sector market None))
                     p))
      (DataService.getPeriods this).
Proof.
  unfold DataService.getTimeSeriesData.
  fold (Spec.validOnly sector market None).
  cbv zeta. rewrite timeSeries_loop. reflexivity.
Qed.

Lemma In_getTimeSeriesData this sector market tp :
  In tp (DataService.getTimeSeriesData this sector market) <->
  exists p, In p (DataService.getPeriods this)
            /\ Spec.seriesEntry
                 (DataService.filterData this (Spec.validOnly sector market None)) p
               = Some tp.
Proof.
  rewrite getTimeSeriesData_entries, in_flat_map. split.
  - intros [p [Hp H]]. exists p. split; [exact Hp |].
    destruct (Spec.seriesEntry _ p) as [e |]; cbn [Spec.entries In] in H;
      [| contradiction].
    destruct H as [H | []]. subst. reflexivity.
  - intros [p [Hp E]]. exists p. split; [exact Hp |].
    rewrite E. left. reflexivity.
Qed.

(** The entries of the sector comparison. *)
Lemma getSectorComparison_entries (this : DataService.t) :
  DataService.getSectorComparison this
  = filter (fun item => JS.gtb (DataService.sp_avgRate item) 0)
      (map (Spec.sectorEntry this) (DataService.getSectors this)).
Proof.
  unfold DataService.getSectorComparison. cbv zeta. f_equal.
  apply map_ext. intros s. unfold Spec.sectorEntry.
  fold (Spec.validOnly (Some s) None None). cbv zeta.
  destruct (DataService.ratesOf _) as [| x rates]; reflexivity.
Qed.

Lemma In_getSectorComparison this e :
  In e (DataService.getSectorComparison this) <->
  exists s, In s (DataService.getSectors this)
            /\ e = Spec.sectorEntry this s
            /\ 0 < DataService.sp_avgRate e.
Proof.
  rewrite getSectorComparison_entries, filter_In, in_map_iff, gtb_true.
  split.
  - intros [[s [E H]] P]. exists s. auto.
  - intros [s [H [E P]]]. split; [exists s; auto | exact P].
Qed.

(** ** Records without a valid market *)

Lemma In_filterData (l : list DataService.Row) (c : DataService.Criteria)
    (row : DataService.Row) :
  In row (DataService.filterData (Spec.dataset l) c) ->
  In row l
  /\ DataService.differs (DataService.sector c)
       (DataService.Sector (DataService.raw row)) = false
  /\ DataService.differs (DataService.period c)
       (Some (DataService.period_key row)) = false.
Proof.
  unfold DataService.filterData, Spec.dataset. cbn [DataService.processedData].
  rewrite filter_In. intros [H P]. split; [exact H |].
  destruct (DataService.differs (DataService.sector c) _); [discriminate |].
  destruct (DataService.differs (DataService.market c) _); [discriminate |].
  destruct (DataService.differs (DataService.period c) _); [discriminate |].
  split; reflexivity.
Qed.

(** [filterData] with [validMarketOnly] drops a record that has no
    valid market. *)
Lemma filterData_without (d1 d2 : list DataService.Row) (r : DataService.Row)
    (sector market period : option string) :
  DataService.is_valid_market r = false ->
  DataService.filterData (Spec.dataset (d1 ++ r :: d2))
    (Spec.validOnly sector market period)
  = DataService.filterData (Spec.dataset (d1 ++ d2))
      (Spec.validOnly sector market period).
Proof.
  intros Hr. unfold DataService.filterData, Spec.dataset.
  cbn [DataService.processedData].
  rewrite !filter_app. cbn [filter]. f_equal.
  cbn [Spec.validOnly DataService.validMarketOnly]. rewrite Hr. cbn [negb andb].
  destruct (DataService.differs _ _); [reflexivity |].
  destruct (DataService.differs _ _); [reflexivity |].
  destruct (DataService.differs _ _); reflexivity.
Qed.

Lemma In_getSectors_dataset (l : list DataService.Row) (s : string) :
  In s (DataService.getSectors (Spec.dataset l)) <->
  (exists row, In row l /\ DataService.Sector (DataService.raw row) = Some s)
  /\ s <> ""%string.
Proof.
  rewrite In_getSectors. unfold Spec.dataset. cbn [DataService.processedData].
  split.
  - intros [pd [E H]]. inversion E; subst. exact H.
  - intros H. exists l. split; [reflexivity | exact H].
Qed.

Lemma In_getPeriods_dataset (l : list DataService.Row) (p : string) :
  In p (DataService.getPeriods (Spec.dataset l)) <->
  exists row, In row l /\ DataService.period_key row = p.
Proof.
  rewrite In_getPeriods. unfold Spec.dataset. cbn [DataService.processedData].
  split.
  - intros [pd [E H]]. inversion E; subst. exact H.
  - intros H. exists l. split; [reflexivity | exact H].
Qed.

Lemma differs_some_false (s : string) (v : option string) :
  s <> ""%string -> DataService.differs (Some s) v = false -> v = Some s.
Proof.
  intros Hs. unfold DataService.differs. cbn [JS.truthy_opt].
  unfold JS.truthy_string. apply String.eqb_neq in Hs. rewrite Hs. cbn [negb andb].
  intros H. apply Bool.negb_false_iff in H. apply opt_eqb_eq in H. exact H.
Qed.

(** An entry with a positive rate comes from a record of the filter. *)
Lemma sectorEntry_positive (l : list DataService.Row) (s : string) :
  s <> ""%string ->
  0 < DataService.sp_avgRate (Spec.sectorEntry (Spec.dataset l) s) ->
  exists row, In row l /\ DataService.is_valid_market row = true
              /\ DataService.Sector (DataService.raw row) = Some s.
Proof.
  intros Hs. unfold Spec.sectorEntry. cbn [DataService.sp_avgRate].
  destruct (DataService.filterData (Spec.dataset l) _) as [| row rest] eqn:E.
  - cbn. intros H. discriminate H.
  - intros _.
    assert (Hin : In row (DataService.filterData (Spec.dataset l)
                            (Spec.validOnly (Some s) None None)))
      by (rewrite E; left; reflexivity).
    pose proof (In_filterData _ _ _ Hin) as (H1 & H2 & _).
    apply (differs_some_false s _ Hs) in H2.
    exists row. split; [exact H1 |]. split; [| exact H2].
    unfold DataService.filterData, Spec.dataset in Hin.
      cbn [DataService.processedData] in Hin. apply filter_In in Hin.
    destruct Hin as [_ P].
    repeat match type of P with
      | context [if DataService.differs ?a ?b then _ else _] =>
          destruct (DataService.differs a b); [discriminate P |]
      end.
    cbn [Spec.validOnly DataService.validMarketOnly andb] in P.
    destruct (DataService.is_valid_market row); [reflexivity | discriminate].
Qed.

Lemma seriesEntry_some (filtered : list DataService.Row) (p : string)
    (tp : DataService.TimePoint) :
  Spec.seriesEntry filtered p = Some tp ->
  exists row, In row filtered /\ DataService.period_key row = p.
Proof.
  unfold Spec.seriesEntry. cbv zeta.
  destruct (filter _ filtered) as [| row rest] eqn:E; [discriminate |].
  intros _.
  assert (Hin : In row (filter (fun row => String.eqb (DataService.period_key row) p)
                          filtered)) by (rewrite E; left; reflexivity).
  apply filter_In in Hin. destruct Hin as [H1 H2].
  apply String.eqb_eq in H2. exists row. auto.
Qed.

Lemma In_without {A} (d1 d2 : list A) (r x : A) :
  In x (d1 ++ d2) -> In x (d1 ++ r :: d2).
Proof. rewrite !in_app_iff. cbn [In]. tauto. Qed.

(** The claim as the specification states it fails: the office record
    whose market is the artifact "Market" is in the data set with a rate
    of 4.5; the office mean is 6.5 over one record (not 5.5 over two),
    and its period, 2024_2, has no mean in the time series. *)
Lemma invalid_market_record_is_left_out :
  option_map (map DataService.is_valid_market)
    (DataService.processedData Sample.with_artifact) = Some [true; false]
  /\ option_map DataService.ratesOf
       (DataService.processedData Sample.with_artifact) = Some [13 # 2; 9 # 2]
  /\ DataService.getSectorComparison Sample.with_artifact
     = [{| DataService.sp_sector := "Office";
           DataService.sp_avgRate := 13 # 2;
           DataService.sp_count := 1 |}]
  /\ DataService.getPeriods Sample.with_artifact = ["2024_1"; "2024_2"]%string
  /\ DataService.getTimeSeriesData Sample.with_artifact None None
     = [{| DataService.tp_period := "2024_1";
           DataService.tp_avgRate := 13 # 2;
           DataService.tp_count := 1 |}].
Proof. repeat split; vm_compute; reflexivity. Qed.

(** The sector comparison and the time series read the processed records
    of the service only. *)
Lemma aggregates_read_records (this : DataService.t) (pd : list DataService.Row) :
  DataService.processedData this = Some pd ->
  (forall c, DataService.filterData this c
             = DataService.filterData (Spec.dataset pd) c)
  /\ DataService.getSectorComparison this
     = DataService.getSectorComparison (Spec.dataset pd)
  /\ (forall sector market,
         DataService.getTimeSeriesData this sector market
         = DataService.getTimeSeriesData (Spec.dataset pd) sector market).
Proof.
  intros H. repeat split; intros;
    unfold DataService.getSectorComparison, DataService.getTimeSeriesData,
      DataService.getSectors, DataService.getPeriods, DataService.filterData,
      Spec.dataset;
    cbn [DataService.processedData]; rewrite H; reflexivity.
Qed.

(** C5 (amended).  The sector comparison ([getSectorComparison]) and
    the time series ([getTimeSeriesData]) of the data service are
    computed over the records that pass [isValidMarket] only: both call
    [filterData] with [validMarketOnly: true].  A record with an invalid
    market name contributes to neither: taking it out of the data set
    leaves the records so filtered, the entries of the sector comparison
    and the entries of every time series as they are. *)
Theorem aggregates_ignore_invalid_markets
    (with_r without : DataService.t)
    (d1 d2 : list DataService.Row) (r : DataService.Row) :
  DataService.processedData with_r = Some (d1 ++ r :: d2) ->
  DataService.processedData without = Some (d1 ++ d2) ->
  DataService.is_valid_market r = false ->
  (forall sector market period,
      DataService.filterData with_r (Spec.validOnly sector market period)
      = DataService.filterData without (Spec.validOnly sector market period))
  /\ (forall e, In e (DataService.getSectorComparison with_r)
                <-> In e (DataService.getSectorComparison without))
  /\ (forall sector market tp,
         In tp (DataService.getTimeSeriesData with_r sector market)
         <-> In tp (DataService.getTimeSeriesData without sector market)).
Proof.
  intros Hw Hwo Hr.
  destruct (aggregates_read_records with_r _ Hw) as (F1 & S1 & T1).
  destruct (aggregates_read_records without _ Hwo) as (F2 & S2 & T2).
  rewrite S1, S2. setoid_rewrite F1. setoid_rewrite F2.
  setoid_rewrite T1. setoid_rewrite T2.
  clear with_r without Hw Hwo F1 S1 T1 F2 S2 T2.
  set (with_r := Spec.dataset (d1 ++ r :: d2)).
  set (without := Spec.dataset (d1 ++ d2)).
  assert (Hf : forall sector market period,
             DataService.filterData with_r (Spec.validOnly sector market period)
             = DataService.filterData without (Spec.validOnly sector market period))
    by (intros; apply filterData_without; exact Hr).
  split; [exact Hf |].
  assert (He : forall s, Spec.sectorEntry with_r s = Spec.sectorEntry without s)
    by (intros s; unfold Spec.sectorEntry; rewrite Hf; reflexivity).
  split.
  - intros e. rewrite !In_getSectorComparison. split.
    + intros [s [Hs [E P]]]. exists s. rewrite <- He. split; [| auto].
      subst with_r without. apply In_getSectors_dataset in Hs.
      destruct Hs as [_ Hne]. apply In_getSectors_dataset.
      split; [| exact Hne].
      rewrite E, He in P. apply sectorEntry_positive in P; [| exact Hne].
      destruct P as [row [H1 [_ H2]]]. exists row. auto.
    + intros [s [Hs [E P]]]. exists s. rewrite He. split; [| auto].
      subst with_r without. apply In_getSectors_dataset in Hs.
      destruct Hs as [[row [H1 H2]] Hne]. apply In_getSectors_dataset.
      split; [| exact Hne]. exists row. split; [| exact H2].
      apply In_without. exact H1.
  - intros sector market tp. rewrite !In_getTimeSeriesData. rewrite Hf. split.
    + intros [p [Hp E]]. exists p. split; [| exact E].
      apply seriesEntry_some in E. destruct E as [row [H1 H2]].
      apply In_filterData in H1. destruct H1 as [H1 _].
      subst without. apply In_getPeriods_dataset. exists row. auto.
    + intros [p [Hp E]]. exists p. split; [| exact E].
      subst with_r without. apply In_getPeriods_dataset in Hp.
      destruct Hp as [row [H1 H2]]. apply In_getPeriods_dataset.
      exists row. split; [| exact H2]. apply In_without. exact H1.
Qed.

Lemma aggregates_ignore_invalid_markets_witness :
  DataService.filterData Sample.with_artifact (Spec.validOnly None None None)
  = DataService.filterData Sample.one_record (Spec.validOnly None None None).
Proof.
  apply (proj1 (aggregates_ignore_invalid_markets
                  Sample.with_artifact Sample.one_record
                  [Sample.dallas_record] [] Sample.artifact_record
                  eq_refl eq_refl eq_refl)).
Defined.

(** ** One value or two *)

Lemma In_firstn_In {A} (n : nat) (l : list A) (x : A) :
  In x (firstn n l) -> In x l.
Proof.
  intros H. rewrite <- (firstn_skipn n l). apply in_or_app. left. exact H.
Qed.

Lemma sectorComparison_rate this e :
  In e (DataService.getSectorComparison this) ->
  DataService.sp_avgRate e
  = JS.toFixed 2
      (DataService.mean
         (DataService.ratesOf
            (DataService.filterData this
               (Spec.validOnly (Some (DataService.sp_sector e)) None None)))).
Proof.
  rewrite In_getSectorComparison. intros [s [_ [E P]]]. subst e.
  unfold Spec.sectorEntry in *. cbn [DataService.sp_avgRate DataService.sp_sector] in *.
  destruct (DataService.ratesOf _); [discriminate P | reflexivity].
Qed.

Lemma marketRanking_rate this limit e :
  In e (DataService.getMarketRanking this limit) ->
  DataService.mp_avgRate e
  = JS.toFixed 2
      (DataService.mean
         (DataService.ratesOf
            (DataService.filterData this
               (Spec.validOnly None (Some (DataService.mp_market e)) None)))).
Proof.
  unfold DataService.getMarketRanking. cbv zeta. intros H.
  apply In_firstn_In in H. unfold JS.sort_with in H. apply In_sort_by in H.
  apply filter_In in H. destruct H as [H P]. apply in_map_iff in H.
  destruct H as [m [E _]]. subst e.
  cbn [DataService.mp_avgRate DataService.mp_market] in *.
  fold (Spec.validOnly None (Some m) None) in *.
  destruct (DataService.ratesOf _); [discriminate P | reflexivity].
Qed.

Lemma timeSeries_rate this sector market tp :
  In tp (DataService.getTimeSeriesData this sector market) ->
  DataService.tp_avgRate tp
  = JS.toFixed 2
      (DataService.mean
         (DataService.ratesOf
            (filter (fun row => String.eqb (DataService.period_key row)
                                  (DataService.tp_period tp))
               (DataService.filterData this
                  (Spec.validOnly sector market None))))).
Proof.
  rewrite In_getTimeSeriesData. intros [p [_ E]].
  unfold Spec.seriesEntry in E. cbv zeta in E.
  destruct (DataService.ratesOf _) as [| x rates] eqn:R; [discriminate E |].
  inversion E; subst tp; clear E.
  cbn [DataService.tp_avgRate DataService.tp_period]. rewrite R. reflexivity.
Qed.

Lemma multiSeries_rate filtered period sector v :
  DataService.sectorPeriodCell filtered period sector = Some v ->
  v = JS.toFixed 2
        (DataService.mean
           (DataService.ratesOf
              (filter (fun row =>
                         String.eqb (DataService.period_key row) period
                         && DataService.opt_eqb
                              (DataService.Sector (DataService.raw row))
                              (Some sector))
                 filtered))).
Proof.
  unfold DataService.sectorPeriodCell. cbv zeta.
  destruct (Nat.ltb 0 (List.length (filter _ filtered))); [| discriminate].
  destruct (Nat.ltb 0 (List.length (DataService.ratesOf _))); [| discriminate].
  intros E. inversion E. reflexivity.
Qed.

(** The claim as the specification states it fails for the period-scoped
    market cap rate: the one Dallas office record of 2024_1 has both
    averages, 6.5 and 6.3, and [getMarketCapRate] counts two data points
    with a mean of 6.4, where the preferred value alone is 6.5. *)
Lemma market_cap_rate_uses_both_halves :
  DataService.processedData Sample.one_record = Some [Sample.dallas_record]
  /\ Spec.preferred Sample.dallas_record = [13 # 2]
  /\ MarketValidationService.collectRates [Sample.dallas_record]
     = [13 # 2; 315 # 50]
  /\ option_map MarketValidationService.dataPoints
       (MarketValidationService.getMarketCapRate
          (MarketValidationService.constructor Sample.one_record)
          (Some "Office"%string) (Some "Dallas"%string) (Some "2024_1"%string))
     = Some 2%nat
  /\ option_map MarketValidationService.avgRate
       (MarketValidationService.getMarketCapRate
          (MarketValidationService.constructor Sample.one_record)
          (Some "Office"%string) (Some "Dallas"%string) (Some "2024_1"%string))
     = Some (32 # 5).
Proof. repeat split; vm_compute; reflexivity. Qed.

(** C8 (amended).  In the sector comparison, the market ranking and the
    time series (single and by sector), the rate that is averaged is the
    mean of [ratesOf] over the matching records, to which every record
    contributes at most one value, never both half-averages; over records
    whose h1Avg is not zero, that value is the h1Avg if present, else the
    h2Avg.  The period-scoped market cap rate, [getMarketCapRate],
    instead collects both half-averages of every record (over records
    whose averages are not zero: h1Avg then h2Avg, as far as present) and
    counts each as a data point. *)
Theorem rate_contributions :
  (forall rows,
      (forall row, In row rows -> Spec.zero_free (DataService.h1_avg row)) ->
      DataService.ratesOf rows = flat_map Spec.preferred rows
      /\ (List.length (DataService.ratesOf rows) <= List.length rows)%nat)
  /\ (forall this e,
         In e (DataService.getSectorComparison this) ->
         DataService.sp_avgRate e
         = JS.toFixed 2
             (DataService.mean
                (DataService.ratesOf
                   (DataService.filterData this
                      (Spec.validOnly (Some (DataService.sp_sector e)) None None)))))
  /\ (forall this limit e,
         In e (DataService.getMarketRanking this limit) ->
         DataService.mp_avgRate e
         = JS.toFixed 2
             (DataService.mean
                (DataService.ratesOf
                   (DataService.filterData this
                      (Spec.validOnly None (Some (DataService.mp_market e)) None)))))
  /\ (forall this sector market tp,
         In tp (DataService.getTimeSeriesData this sector market) ->
         DataService.tp_avgRate tp
         = JS.toFixed 2
             (DataService.mean
                (DataService.ratesOf
                   (filter (fun row => String.eqb (DataService.period_key row)
                                         (DataService.tp_period tp))
                      (DataService.filterData this
                         (Spec.validOnly sector market None))))))
  /\ (forall filtered period sector v,
         DataService.sectorPeriodCell filtered period sector = Some v ->
         v = JS.toFixed 2
               (DataService.mean
                  (DataService.ratesOf
                     (filter (fun row =>
                                String.eqb (DataService.period_key row) period
                                && DataService.opt_eqb
                                     (DataService.Sector (DataService.raw row))
                                     (Some sector))
                        filtered))))
  /\ (forall rows,
         (forall row, In row rows ->
                      Spec.zero_free (DataService.h1_avg row)
                      /\ Spec.zero_free (DataService.h2_avg row)) ->
         MarketValidationService.collectRates rows
         = flat_map Spec.bothHalves rows)
  /\ (forall this sector market period r,
         MarketValidationService.getMarketCapRate this sector market period
         = Some r ->
         let rates := MarketValidationService.collectRates
                        (DataService.filterData
                           (MarketValidationService.dataService this)
                           (Spec.validOnly sector market period)) in
         MarketValidationService.dataPoints r = List.length rates
         /\ MarketValidationService.avgRate r
            = JS.toFixed 2 (JS.sum rates / JS.len rates)).
Proof.
  split.
  { intros rows Hz. split; [apply ratesOf_preferred; exact Hz |].
    apply ratesOf_length. }
  split; [exact sectorComparison_rate |].
  split; [exact marketRanking_rate |].
  split; [exact timeSeries_rate |].
  split; [exact multiSeries_rate |].
  split; [exact collectRates_bothHalves |].
  exact getMarketCapRate_some.
Qed.

Lemma rate_contributions_witness :
  DataService.ratesOf [Sample.dallas_record]
  = flat_map Spec.preferred [Sample.dallas_record].
Proof.
  apply (proj1 rate_contributions [Sample.dallas_record]).
  intros row [E | []] x Hx. subst row.
  vm_compute in Hx. inversion Hx. subst x. vm_compute. discriminate.
Defined.

(** ** The arrays of the multi-series object *)





Section MultiSeriesLoops.

Variable cell : string -> string -> option Q.






End MultiSeriesLoops.



(** ** The order of the periods *)

Lemma Sorted_weaken {A} (R R' : A -> A -> Prop) (l : list A) :
  (forall a b, In a l -> In b l -> R a b -> R' a b) ->
  Sorted R l -> Sorted R' l.
Proof.
  intros H Hs. induction Hs as [| x l Hs IH Hd]; [constructor |].
  constructor.
  - apply IH. intros a b Ha Hb. apply H; right; assumption.
  - destruct Hd as [| y l Hxy]; constructor.
    apply H; [left; reflexivity | right; left; reflexivity | exact Hxy].
Qed.



(** ** Gaps in the time series *)






(** * Further properties of the code *)

(** ** Rounding *)

Lemma scale_pos (k : nat) : (0 < 10 ^ Z.of_nat k)%Z.
Proof. apply Z.pow_pos_nonneg; lia. Qed.

Lemma scaled_fraction (k : nat) (n : Z) :
  n # Z.to_pos (10 ^ Z.of_nat k) == inject_Z n / inject_Z (10 ^ Z.of_nat k).
Proof.
  rewrite Qmake_Qdiv. rewrite Z2Pos.id by apply scale_pos. reflexivity.
Qed.

(** From 10^21 on, [toFixed] gives the number back. *)
Lemma toFixed_big (k : nat) (x : Q) :
  inject_Z (10 ^ 21) <= Qabs x -> JS.toFixed k x = x.
Proof.
  intros H. unfold JS.toFixed.
  apply Qle_bool_iff in H. rewrite H. reflexivity.
Qed.

Lemma toFixed_small_nonneg (k : nat) (x : Q) :
  0 <= x -> x < inject_Z (10 ^ 21) ->
  JS.toFixed k x
  == inject_Z (Qfloor (x * inject_Z (10 ^ Z.of_nat k) + (1 # 2)))
     / inject_Z (10 ^ Z.of_nat k).
Proof.
  intros H0 HT. unfold JS.toFixed.
  assert (Ha : Qabs x == x) by (apply Qabs_pos; exact H0).
  destruct (Qle_bool (inject_Z (10 ^ 21)) (Qabs x)) eqn:B.
  - apply Qle_bool_iff in B. rewrite Ha in B. exfalso.
    apply (Qlt_not_le _ _ HT B).
  - apply Qle_bool_iff in H0. rewrite H0. rewrite Qred_correct.
    rewrite scaled_fraction.
    rewrite (Qfloor_comp _ (x * inject_Z (10 ^ Z.of_nat k) + (1 # 2)))
      by (rewrite Ha; reflexivity).
    reflexivity.
Qed.

Lemma toFixed_small_neg (k : nat) (x : Q) :
  x < 0 -> - inject_Z (10 ^ 21) < x ->
  JS.toFixed k x
  == - (inject_Z (Qfloor (- x * inject_Z (10 ^ Z.of_nat k) + (1 # 2)))
        / inject_Z (10 ^ Z.of_nat k)).
Proof.
  intros H0 HT. unfold JS.toFixed.
  assert (Ha : Qabs x == - x) by (apply Qabs_neg; apply Qlt_le_weak; exact H0).
  destruct (Qle_bool (inject_Z (10 ^ 21)) (Qabs x)) eqn:B.
  - apply Qle_bool_iff in B. rewrite Ha in B. exfalso. lra.
  - destruct (Qle_bool 0 x) eqn:B0.
    + apply Qle_bool_iff in B0. exfalso. lra.
    + rewrite !Qred_correct. rewrite scaled_fraction.
      rewrite (Qfloor_comp _ (- x * inject_Z (10 ^ Z.of_nat k) + (1 # 2)))
        by (rewrite Ha; reflexivity).
      reflexivity.
Qed.

Lemma scaleQ_pos (k : nat) : 0 < inject_Z (10 ^ Z.of_nat k).
Proof.
  change 0 with (inject_Z 0). rewrite <- Zlt_Qlt. apply scale_pos.
Qed.

(** The rounded value of a number below 10^21 is at most 10^21, and not
    negative when the number is not. *)
Lemma rounded_below_threshold (k : nat) (x : Q) :
  0 <= x -> x < inject_Z (10 ^ 21) ->
  0 <= inject_Z (Qfloor (x * inject_Z (10 ^ Z.of_nat k) + (1 # 2)))
       / inject_Z (10 ^ Z.of_nat k)
    <= inject_Z (10 ^ 21).
Proof.
  intros H0 HT.
  pose proof (scaleQ_pos k) as Hs.
  set (s := inject_Z (10 ^ Z.of_nat k)) in *.
  split.
  - apply Qle_shift_div_l; [exact Hs |]. rewrite Qmult_0_l.
    change 0 with (inject_Z 0). rewrite <- Zle_Qle.
    change 0%Z with (Qfloor 0). apply Qfloor_resp_le.
    assert (0 <= x * s) by (apply Qmult_le_0_compat; lra). lra.
  - apply Qle_shift_div_r; [exact Hs |].
    unfold s. rewrite <- inject_Z_mult. rewrite <- Zle_Qle.
    assert (L : inject_Z (Qfloor (x * s + (1 # 2)))
                < inject_Z (10 ^ 21 * 10 ^ Z.of_nat k) + 1).
    { apply Qle_lt_trans with (x * s + (1 # 2)); [apply Qfloor_le |].
      rewrite inject_Z_mult. fold s.
      assert (x * s < inject_Z (10 ^ 21) * s)
        by (apply Qmult_lt_compat_r; assumption).
      lra. }
    change 1 with (inject_Z 1) in L. rewrite <- inject_Z_plus in L.
    rewrite <- Zlt_Qlt in L. fold s. lia.
Qed.

(** [toFixed] is monotone. *)
Lemma toFixed_le (k : nat) (x y : Q) :
  x <= y -> JS.toFixed k x <= JS.toFixed k y.
Proof.
  intros Hxy.
  pose proof (scaleQ_pos k) as Hs.
  set (T := inject_Z (10 ^ 21)).
  assert (HT : 0 < T) by reflexivity.
  assert (Hdiv : forall a b : Z, (a <= b)%Z ->
            inject_Z a / inject_Z (10 ^ Z.of_nat k)
            <= inject_Z b / inject_Z (10 ^ Z.of_nat k)).
  { intros a b Hab. unfold Qdiv. apply Qmult_le_compat_r.
    - rewrite <- Zle_Qle. exact Hab.
    - apply Qlt_le_weak. apply Qinv_lt_0_compat. exact Hs. }
  destruct (Qlt_le_dec x 0) as [Xn | Xp]; destruct (Qlt_le_dec y 0) as [Yn | Yp].
  - (* both negative *)
    destruct (Qlt_le_dec (- T) x) as [Xs | Xb];
      destruct (Qlt_le_dec (- T) y) as [Ys | Yb].
    + rewrite (toFixed_small_neg k x Xn Xs), (toFixed_small_neg k y Yn Ys).
      apply Qopp_le_compat. apply Hdiv. apply Qfloor_resp_le.
      assert (- y * inject_Z (10 ^ Z.of_nat k) <= - x * inject_Z (10 ^ Z.of_nat k))
        by (apply Qmult_le_compat_r; lra).
      lra.
    + exfalso. lra.
    + rewrite (toFixed_big k x)
        by (rewrite Qabs_neg by lra; fold T; lra).
      rewrite (toFixed_small_neg k y Yn Ys).
      assert (B := rounded_below_threshold k (- y) ltac:(lra) ltac:(fold T; lra)).
      fold T in B. lra.
    + rewrite (toFixed_big k x) by (rewrite Qabs_neg by lra; fold T; lra).
      rewrite (toFixed_big k y) by (rewrite Qabs_neg by lra; fold T; lra).
      exact Hxy.
  - (* x negative, y not *)
    assert (Hx : JS.toFixed k x <= 0).
    { destruct (Qlt_le_dec (- T) x) as [Xs | Xb].
      - rewrite (toFixed_small_neg k x Xn Xs).
        assert (B := rounded_below_threshold k (- x) ltac:(lra) ltac:(fold T; lra)).
        lra.
      - rewrite (toFixed_big k x) by (rewrite Qabs_neg by lra; fold T; lra).
        lra. }
    assert (Hy : 0 <= JS.toFixed k y).
    { destruct (Qlt_le_dec y T) as [Ys | Yb].
      - rewrite (toFixed_small_nonneg k y Yp Ys).
        apply (rounded_below_threshold k y Yp Ys).
      - rewrite (toFixed_big k y) by (rewrite Qabs_pos by lra; exact Yb).
        exact Yp. }
    lra.
  - exfalso. lra.
  - (* both non-negative *)
    destruct (Qlt_le_dec x T) as [Xs | Xb]; destruct (Qlt_le_dec y T) as [Ys | Yb].
    + rewrite (toFixed_small_nonneg k x Xp Xs), (toFixed_small_nonneg k y Yp Ys).
      apply Hdiv. apply Qfloor_resp_le.
      assert (x * inject_Z (10 ^ Z.of_nat k) <= y * inject_Z (10 ^ Z.of_nat k))
        by (apply Qmult_le_compat_r; lra).
      lra.
    + rewrite (toFixed_small_nonneg k x Xp Xs).
      rewrite (toFixed_big k y) by (rewrite Qabs_pos by lra; exact Yb).
      assert (B := rounded_below_threshold k x Xp Xs). fold T in B. lra.
    + exfalso. lra.
    + rewrite (toFixed_big k x) by (rewrite Qabs_pos by lra; exact Xb).
      rewrite (toFixed_big k y) by (rewrite Qabs_pos by lra; exact Yb).
      exact Hxy.
Qed.

(** Equal numbers round to equal numbers. *)
Lemma toFixed_comp (k : nat) (x y : Q) :
  x == y -> JS.toFixed k x == JS.toFixed k y.
Proof.
  intros E. apply Qle_antisym; apply toFixed_le; rewrite E; apply Qle_refl.
Qed.

Lemma toFixed_nonneg (k : nat) (x : Q) : 0 <= x -> 0 <= JS.toFixed k x.
Proof.
  intros H. apply Qle_trans with (JS.toFixed k 0).
  - rewrite (toFixed_small_nonneg k 0) by (first [apply Qle_refl | reflexivity]).
    apply (rounded_below_threshold k 0); [apply Qle_refl | reflexivity].
  - apply toFixed_le. exact H.
Qed.

(** [Math.round] is monotone, and within a half of its argument. *)
Lemma Math_round_le (x y : Q) : x <= y -> JS.Math_round x <= JS.Math_round y.
Proof.
  intros H. unfold JS.Math_round. rewrite <- Zle_Qle.
  apply Qfloor_resp_le. lra.
Qed.


Lemma Math_round_near (x : Q) :
  x - (1 # 2) < JS.Math_round x <= x + (1 # 2).
Proof.
  unfold JS.Math_round. split.
  - pose proof (Qlt_floor (x + (1 # 2))) as H.
    rewrite inject_Z_plus in H. change (inject_Z 1) with 1 in H. lra.
  - apply Qfloor_le.
Qed.

Lemma Math_round_integer (z : Z) : JS.Math_round (inject_Z z) = inject_Z z.
Proof.
  unfold JS.Math_round. f_equal.
  pose proof (Qfloor_le (inject_Z z + (1 # 2))) as H1.
  pose proof (Qlt_floor (inject_Z z + (1 # 2))) as H2.
  set (f := Qfloor (inject_Z z + (1 # 2))) in *.
  assert (A : (f < z + 1)%Z).
  { rewrite Zlt_Qlt, inject_Z_plus. change (inject_Z 1) with 1. lra. }
  assert (B : (z < f + 1)%Z).
  { rewrite Zlt_Qlt. lra. }
  lia.
Qed.

(** ** The deal analysis and the credit decision *)

(** After a first call, [calculate] answers from its cache. *)
Lemma calculate_cached (m : DealModel.t) :
  DealModel.calculate (snd (DealModel.calculate m))
  = (fst (DealModel.calculate m), snd (DealModel.calculate m)).
Proof.
  unfold DealModel.calculate.
  destruct (DealModel._calculations m) as [c |] eqn:E.
  - cbn [snd fst]. rewrite E. reflexivity.
  - cbn [snd fst DealModel.set_calculations DealModel._calculations].
    reflexivity.
Qed.

Lemma getCreditDecision_cached (m : DealModel.t) :
  fst (DealModel.getCreditDecision (snd (DealModel.calculate m)))
  = fst (DealModel.getCreditDecision m).
Proof.
  unfold DealModel.getCreditDecision. rewrite calculate_cached.
  destruct (DealModel.calculate m) as [c m']. reflexivity.
Qed.

(** What the thresholds of a decision say about the metrics. *)
Lemma decision_thresholds (m : DealModel.t) :
  let c := fst (DealModel.calculate m) in
  let d := DealModel.dscr c in
  let l := DealModel.actualLTV c in
  let k := DealModel.actualCapRate c in
  match DealModel.decision (fst (DealModel.getCreditDecision m)) with
  | "✅ STRONG APPROVE"%string => 1.40 <= d /\ l <= 70 /\ 6.0 <= k
  | "✅ APPROVE"%string => 1.30 <= d /\ l <= 75 /\ 5.5 <= k
  | "⚠️ CONDITIONAL"%string => 1.25 <= d /\ l <= 80 /\ 4.5 <= k
  | "🔍 REVIEW REQUIRED"%string =>
      1.20 <= d /\ l <= 85 /\ 4.0 <= k /\ (d < 1.25 \/ 80 < l \/ k < 4.5)
  | "⚡ HIGH RISK"%string =>
      1.15 <= d /\ l <= 90 /\ (d < 1.20 \/ 85 < l \/ k < 4.0)
  | _ => d < 1.15 \/ 90 < l
  end.
Proof.
  unfold DealModel.getCreditDecision.
  destruct (DealModel.calculate m) as [c m']. cbn [fst].
  set (d := DealModel.dscr c). set (l := DealModel.actualLTV c).
  set (k := DealModel.actualCapRate c). cbv zeta.
  destruct (JS.geb d 1.40 && JS.leb l 70 && JS.geb k 6.0)%bool eqn:H1;
    [| destruct (JS.geb d 1.30 && JS.leb l 75 && JS.geb k 5.5)%bool eqn:H2;
       [| destruct (JS.geb d 1.25 && JS.leb l 80 && JS.geb k 4.5)%bool eqn:H3;
          [| destruct (JS.geb d 1.20 && JS.leb l 85 && JS.geb k 4.0)%bool eqn:H4;
             [| destruct (JS.geb d 1.15 && JS.leb l 90)%bool eqn:H5 ]]]];
    rewrite ?false_iff_not_true, ?tier3_true, ?tier2_true in *;
    cbn [DealModel.decision];
    repeat split; try tauto;
    try (destruct (Qlt_le_dec d 1.25); [tauto |];
         destruct (Qlt_le_dec 80 l); [tauto |];
         destruct (Qlt_le_dec k 4.5); tauto);
    try (destruct (Qlt_le_dec d 1.20); [tauto |];
         destruct (Qlt_le_dec 85 l); [tauto |];
         destruct (Qlt_le_dec k 4.0); tauto).
  destruct (Qlt_le_dec d 1.15); [tauto |].
  destruct (Qlt_le_dec 90 l); tauto.
Qed.

(** The fields of the analysis, read from the metrics of [calculate]. *)
Lemma getDealAnalysis_fields (m : DealModel.t) :
  let c := fst (DealModel.calculate m) in
  let a := fst (DealModel.getDealAnalysis m) in
  DealModel.calculations a = c
  /\ DealModel.creditDecision a = fst (DealModel.getCreditDecision m)
  /\ DealModel.risks a
     = DealModel.push_if (JS.ltb (DealModel.actualCapRate c) 5.0)
         "Low cap rate may indicate overvaluation"
         (DealModel.push_if (JS.gtb (DealModel.actualLTV c) 80)
            "High LTV increases credit risk"
            (DealModel.push_if (JS.ltb (DealModel.dscr c) 1.25)
               "Low DSCR indicates tight cash flow coverage" []))
  /\ DealModel.strengths a
     = DealModel.push_if (JS.geb (DealModel.actualCapRate c) 6.0)
         "Attractive cap rate provides good returns"
         (DealModel.push_if (JS.leb (DealModel.actualLTV c) 70)
            "Conservative loan-to-value ratio"
            (DealModel.push_if (JS.geb (DealModel.dscr c) 1.35)
               "Strong debt service coverage" []))
  /\ DealModel.recommendations a
     = DealModel.push_if (JS.ltb (DealModel.dscr c) 1.30)
         "Review operating expense assumptions"
         (DealModel.push_if (JS.gtb (DealModel.actualLTV c) 75)
            "Consider requiring additional equity injection" []).
Proof.
  intros c a. subst a. unfold DealModel.getDealAnalysis.
  pose proof (getCreditDecision_cached m) as G.
  subst c. destruct (DealModel.calculate m) as [c m1]. cbn [snd fst] in *.
  destruct (DealModel.getCreditDecision m1) as [r m2]. cbn [fst] in *.
  repeat split. exact G.
Qed.

(** X1.  For a deal that holds its metrics (the cache that [calculate]
    fills on its first call and returns on every later one; the metrics
    held are numbers), the analysis of [getDealAnalysis] carries these
    metrics and the decision of [getCreditDecision], and its lists agree
    with the decision: an approval (strong or standard) comes with no
    risk and no recommendation, a strong approval with all three
    strengths; a deal that is sent to review, rated high risk or declined
    has at least one risk listed, and a declined deal at least one
    recommendation.  Metrics that are not numbers are outside the
    statement: on a fresh deal with a zero divisor (no loan over no
    payments, for one) the code computes a dscr that is NaN, every
    comparison with it fails, and the deal is declined with empty
    lists. *)
Theorem analysis_agrees_with_decision (m : DealModel.t)
    (c : DealModel.DealMetrics) :
  DealModel._calculations m = Some c ->
  let a := fst (DealModel.getDealAnalysis m) in
  let d := DealModel.decision (DealModel.creditDecision a) in
  DealModel.calculations a = c
  /\ DealModel.creditDecision a = fst (DealModel.getCreditDecision m)
  /\ (d = "✅ STRONG APPROVE"%string ->
      DealModel.risks a = [] /\ DealModel.recommendations a = []
      /\ DealModel.strengths a
         = ["Strong debt service coverage";
            "Conservative loan-to-value ratio";
            "Attractive cap rate provides good returns"]%string)
  /\ (d = "✅ APPROVE"%string ->
      DealModel.risks a = [] /\ DealModel.recommendations a = [])
  /\ (d = "🔍 REVIEW REQUIRED"%string \/ d = "⚡ HIGH RISK"%string
      \/ d = "❌ DECLINE"%string ->
      DealModel.risks a <> [])
  /\ (d = "❌ DECLINE"%string -> DealModel.recommendations a <> []).
Proof.
  intros Hcache a d.
  assert (Hcalc : fst (DealModel.calculate m) = c)
    by (unfold DealModel.calculate; rewrite Hcache; reflexivity).
  destruct (getDealAnalysis_fields m) as (Hc & Hd & Hr & Hs & Hrec).
  fold a in Hc, Hd, Hr, Hs, Hrec.
  pose proof (decision_thresholds m) as T. cbv zeta in T.
  split; [rewrite Hc; exact Hcalc |].
  subst d. rewrite Hd, Hr, Hs, Hrec. clear Hc Hd Hr Hs Hrec.
  rewrite Hcalc in *. clear Hcalc Hcache.
  set (dscr := DealModel.dscr c) in *. set (l := DealModel.actualLTV c) in *.
  set (k := DealModel.actualCapRate c) in *.
  split; [reflexivity |].
  unfold DealModel.push_if.
  split; [| split; [| split]]; intros E;
    try (destruct E as [E | [E | E]]); rewrite E in T; cbv beta iota in T;
    repeat match goal with
      | |- context [if ?b then _ else _] =>
          destruct b eqn:?; order_facts; try (exfalso; lra)
      end;
    repeat split; try reflexivity; try discriminate.
Qed.

Lemma analysis_agrees_with_decision_witness :
  DealModel.calculations
    (fst (DealModel.getDealAnalysis (snd (DealModel.calculate Sample.zero_rate_deal))))
  = fst (DealModel.calculate Sample.zero_rate_deal).
Proof.
  exact (proj1 (analysis_agrees_with_decision
                  (snd (DealModel.calculate Sample.zero_rate_deal))
                  (fst (DealModel.calculate Sample.zero_rate_deal)) eq_refl)).
Defined.

(** X2.  The credit decision is consistent with the risk bands the
    dashboard shows for the same metrics: a strong approval has a STRONG
    coverage band and a CONSERVATIVE LTV band, an approval nothing below
    ACCEPTABLE and STANDARD; a WEAK coverage band always means a decline,
    and with a MARGINAL coverage band or a HIGH_RISK LTV band the deal is
    never approved, not even conditionally. *)
Theorem decision_agrees_with_risk_bands (m : DealModel.t) :
  let c := fst (DealModel.calculate m) in
  let d := DealModel.decision (fst (DealModel.getCreditDecision m)) in
  let cover := DealModel.level (DealModel.getDSCRRisk (DealModel.dscr c)) in
  let ltv := DealModel.level (DealModel.getLTVRisk (DealModel.actualLTV c)) in
  (d = "✅ STRONG APPROVE"%string ->
   cover = "STRONG"%string /\ ltv = "CONSERVATIVE"%string)
  /\ (d = "✅ APPROVE"%string ->
      (cover = "STRONG"%string \/ cover = "ACCEPTABLE"%string)
      /\ (ltv = "CONSERVATIVE"%string \/ ltv = "STANDARD"%string))
  /\ (cover = "WEAK"%string -> d = "❌ DECLINE"%string)
  /\ (cover = "MARGINAL"%string \/ ltv = "HIGH_RISK"%string ->
      d = "🔍 REVIEW REQUIRED"%string \/ d = "⚡ HIGH RISK"%string
      \/ d = "❌ DECLINE"%string).
Proof.
  intros c d cover ltv. subst d cover ltv.
  unfold DealModel.getCreditDecision, DealModel.getDSCRRisk, DealModel.getLTVRisk.
  subst c. destruct (DealModel.calculate m) as [c m']. cbn [fst].
  set (d := DealModel.dscr c). set (l := DealModel.actualLTV c).
  set (k := DealModel.actualCapRate c).
  split; [| split; [| split]]; intros E;
    repeat match goal with
      | _ : context [if ?b then _ else _] |- _ =>
          destruct b eqn:?; order_facts; try (exfalso; lra)
      | |- context [if ?b then _ else _] =>
          destruct b eqn:?; order_facts; try (exfalso; lra)
      end;
    cbn [DealModel.level DealModel.decision] in *;
    try discriminate E;
    try (destruct E as [E | E]; discriminate E);
    try (split; [first [left; reflexivity | right; reflexivity | reflexivity]
                | first [left; reflexivity | right; reflexivity | reflexivity]]);
    try reflexivity;
    first [ left; reflexivity | right; left; reflexivity
          | right; right; reflexivity | idtac ];
    try (destruct E as [E | E]; try discriminate E; exfalso; lra).
Qed.

(** ** Inputs that pass the validation *)

Lemma push_if_nil (b : bool) (msg : string) (errors : list string) :
  DealModel.push_if b msg errors = [] <-> b = false /\ errors = [].
Proof.
  unfold DealModel.push_if. destruct b.
  - split; [| intros [H _]; discriminate H].
    intros H. apply app_eq_nil in H. destruct H as [_ H]. discriminate H.
  - tauto.
Qed.

(** [validateInputs] reports nothing exactly when every check passes. *)
Lemma validateInputs_nil (m : DealModel.t) :
  DealModel.validateInputs m = [] <->
  0 < DealModel.propertyValue m /\ 0 < DealModel.annualNOI m
  /\ 0 < DealModel.loanAmount m
  /\ 0 < DealModel.interestRate m <= 20
  /\ 1 <= DealModel.amortizationYears m <= 50
  /\ 0 <= DealModel.sofrRate m <= 10
  /\ DealModel.loanAmount m <= DealModel.propertyValue m
  /\ DealModel.annualNOI m <= DealModel.propertyValue m * 0.2
  /\ DealModel.sofrRate m <= DealModel.interestRate m.
Proof.
  unfold DealModel.validateInputs. rewrite !push_if_nil.
  rewrite !Bool.orb_false_iff, !leb_false, !gtb_false, !ltb_false.
  tauto.
Qed.

(** X3.  For inputs on which [validateInputs] reports nothing, the
    metrics of [calculate] are within their bounds: the cap rate is not
    negative, the LTV lies between 0 and 100, and the spread is not
    negative. *)
Theorem valid_inputs_give_bounded_metrics pv noi loan rate years sofr :
  DealModel.validateInputs (DealModel.constructor pv noi loan rate years sofr) = [] ->
  let c := fst (DealModel.calculate
                  (DealModel.constructor pv noi loan rate years sofr)) in
  0 <= DealModel.actualCapRate c
  /\ 0 <= DealModel.actualLTV c <= 100
  /\ 0 <= DealModel.spread c.
Proof.
  intros V c. apply validateInputs_nil in V.
  cbn [DealModel.constructor DealModel.propertyValue DealModel.annualNOI
       DealModel.loanAmount DealModel.interestRate DealModel.amortizationYears
       DealModel.sofrRate] in V.
  destruct V as (Hpv & Hnoi & Hloan & _ & _ & _ & Hlp & _ & Hsr).
  destruct (calculate_fresh pv noi loan rate years sofr)
    as (Ecap & Eltv & Espread & _).
  fold c in Ecap, Eltv, Espread.
  rewrite Ecap, Eltv, Espread.
  assert (Hipv : 0 < / pv) by (apply Qinv_lt_0_compat; exact Hpv).
  repeat split.
  - apply Qlt_le_weak. unfold Qdiv.
    repeat apply Qmult_lt_0_compat; first [assumption | reflexivity].
  - apply Qlt_le_weak. unfold Qdiv.
    repeat apply Qmult_lt_0_compat; first [assumption | reflexivity].
  - apply Qle_trans with (pv / pv * 100).
    + unfold Qdiv. apply Qmult_le_compat_r; [| discriminate].
      apply Qmult_le_compat_r; [exact Hlp | lra].
    + apply Qle_lteq. right. field. lra.
  - nra.
Qed.

Lemma valid_inputs_give_bounded_metrics_witness :
  DealModel.actualLTV (fst (DealModel.calculate Sample.example_deal)) <= 100.
Proof.
  exact (proj2 (proj1 (proj2
           (valid_inputs_give_bounded_metrics 1000000 80000 750000 5.5 25 4.2
              eq_refl)))).
Defined.

(** ** Target LTV and scenarios *)



(** X5.  For a market range with positive rates in the order minimum,
    average, maximum, [scenarioAnalysis] returns the three scenarios
    Conservative, Average and Aggressive, and they are ordered: the
    property value does not rise and the implied LTV does not fall from
    one to the next (the deal has a positive NOI and a loan that is not
    negative). *)
Theorem scenarios_are_ordered (m : DealModel.t) (range : DealModel.CapRateRange) :
  0 < DealModel.annualNOI m -> 0 <= DealModel.loanAmount m ->
  0 < DealModel.minRate range ->
  DealModel.minRate range <= DealModel.avgRate range ->
  DealModel.avgRate range <= DealModel.maxRate range ->
  exists c a g,
    DealModel.scenarioAnalysis m range = [c; a; g]
    /\ map DealModel.label [c; a; g] = ["Conservative"; "Average"; "Aggressive"]%string
    /\ map DealModel.capRate [c; a; g]
       = [DealModel.minRate range; DealModel.avgRate range; DealModel.maxRate range]
    /\ DealModel.sc_propertyValue g <= DealModel.sc_propertyValue a
    /\ DealModel.sc_propertyValue a <= DealModel.sc_propertyValue c
    /\ DealModel.impliedLTV c <= DealModel.impliedLTV a
    /\ DealModel.impliedLTV a <= DealModel.impliedLTV g.
Proof.
  intros Hnoi Hloan Hmin Hma HaM.
  unfold DealModel.scenarioAnalysis. cbn [combine fold_left].
  set (noi := DealModel.annualNOI m) in *. set (loan := DealModel.loanAmount m) in *.
  set (lo := DealModel.minRate range) in *. set (av := DealModel.avgRate range) in *.
  set (hi := DealModel.maxRate range) in *.
  assert (B1 : JS.gtb lo 0 = true) by (apply gtb_true; exact Hmin).
  assert (B2 : JS.gtb av 0 = true) by (apply gtb_true; lra).
  assert (B3 : JS.gtb hi 0 = true) by (apply gtb_true; lra).
  rewrite B1, B2, B3. cbn [app].
  eexists. eexists. eexists. split; [reflexivity |].
  cbn [map DealModel.label DealModel.capRate DealModel.sc_propertyValue
       DealModel.impliedLTV].
  split; [reflexivity |]. split; [reflexivity |].
  assert (Hval : forall r s, 0 < r -> r <= s -> noi / (s / 100) <= noi / (r / 100)).
  { intros r s Hr Hrs.
    setoid_replace (noi / (s / 100)) with (noi * 100 * / s) by (field; lra).
    setoid_replace (noi / (r / 100)) with (noi * 100 * / r) by (field; lra).
    apply Qmult_le_l; [nra |].
    destruct (Qle_lteq r s) as [H _]. destruct (H Hrs) as [Hlt | Heq].
    - apply Qlt_le_weak.
      apply (proj1 (Qinv_lt_contravar r s Hr ltac:(lra))). exact Hlt.
    - rewrite Heq. apply Qle_refl. }
  assert (Hltv : forall r s, 0 < r -> r <= s ->
            loan / (noi / (r / 100)) * 100 <= loan / (noi / (s / 100)) * 100).
  { intros r s Hr Hrs.
    setoid_replace (loan / (noi / (r / 100)) * 100) with (loan * / noi * r)
      by (field; lra).
    setoid_replace (loan / (noi / (s / 100)) * 100) with (loan * / noi * s)
      by (field; lra).
    assert (0 <= loan * / noi).
    { apply Qmult_le_0_compat; [exact Hloan |].
      apply Qlt_le_weak. apply Qinv_lt_0_compat. exact Hnoi. }
    nra. }
  repeat split.
  - apply Math_round_le. apply Hval; lra.
  - apply Math_round_le. apply Hval; lra.
  - apply toFixed_le. apply Hltv; lra.
  - apply toFixed_le. apply Hltv; lra.
Qed.

Lemma scenarios_are_ordered_witness :
  exists c a g,
    DealModel.scenarioAnalysis Sample.example_deal
      {| DealModel.minRate := 5.5; DealModel.maxRate := 7.5;
         DealModel.avgRate := 6.5 |} = [c; a; g]
    /\ DealModel.sc_propertyValue g <= DealModel.sc_propertyValue a
    /\ DealModel.sc_propertyValue a <= DealModel.sc_propertyValue c.
Proof.
  destruct (scenarios_are_ordered Sample.example_deal
              {| DealModel.minRate := 5.5; DealModel.maxRate := 7.5;
                 DealModel.avgRate := 6.5 |})
    as (c & a & g & E & _ & _ & H1 & H2 & _);
    try reflexivity; try discriminate.
  exists c, a, g. split; [exact E |]. split; [exact H1 | exact H2].
Defined.

(** ** Deriving the value from the market *)

(** X6.  Deriving the property value from a market cap rate and
    recomputing the deal with it gives the market rate back up to the
    rounding of the value: the recomputed cap rate differs from the
    market rate by at most rate / (2 * value).  The debt side of the
    metrics (payment, debt service, coverage, debt constant, spread) does
    not depend on the value and is that of the deal itself. *)
Theorem derived_value_round_trip pv noi loan rate years sofr marketRate d :
  MarketValidationService.derivePropertyValue (Some noi) (Some marketRate) = Some d ->
  0 < MarketValidationService.derivedValue d ->
  let m := DealModel.constructor pv noi loan rate years sofr in
  let c := fst (DealModel.calculate m) in
  let r := DealModel.calculateWithDerivedValue m
             (MarketValidationService.derivedValue d) in
  let c' := DealModel.derived_metrics r in
  Qabs (DealModel.actualCapRate c' - marketRate)
    * MarketValidationService.derivedValue d <= marketRate / 2
  /\ DealModel.originalPropertyValue r = pv
  /\ DealModel.monthlyPayment c' = DealModel.monthlyPayment c
  /\ DealModel.annualDebtService c' = DealModel.annualDebtService c
  /\ DealModel.dscr c' = DealModel.dscr c
  /\ DealModel.debtConstant c' = DealModel.debtConstant c
  /\ DealModel.spread c' = DealModel.spread c.
Proof.
  intros Hd Hpos m c r c'.
  split; [| repeat split].
  unfold MarketValidationService.derivePropertyValue in Hd.
  destruct (negb (JS.truthy noi) || negb (JS.truthy marketRate)
            || JS.leb marketRate 0)%bool eqn:B; [discriminate Hd |].
  order_facts. inversion Hd; subst d; clear Hd.
  cbn [MarketValidationService.derivedValue] in *.
  change (DealModel.actualCapRate c')
    with (noi / JS.Math_round (noi / (marketRate / 100)) * 100).
  clear c' r c m.
  set (V := noi / (marketRate / 100)) in *.
  set (R := JS.Math_round V) in *.
  pose proof (Math_round_near V) as [N1 N2]. fold R in N1, N2.
  assert (HV : marketRate * V == noi * 100) by (unfold V; field; lra).
  assert (E : (noi / R * 100 - marketRate) * R == marketRate * (V - R)).
  { setoid_replace (marketRate * (V - R)) with (noi * 100 - marketRate * R)
      by (rewrite <- HV; ring).
    field. lra. }
  rewrite <- (Qabs_pos R) at 2 by lra.
  rewrite <- Qabs_Qmult. rewrite E. rewrite Qabs_Qmult.
  rewrite (Qabs_pos marketRate) by lra.
  assert (A : Qabs (V - R) <= 1 # 2) by (apply Qabs_Qle_condition; lra).
  setoid_replace (marketRate / 2) with (marketRate * (1 # 2)) by field.
  apply Qmult_le_l; [assumption | exact A].
Qed.

Lemma derived_value_round_trip_witness :
  Qabs (DealModel.actualCapRate
          (DealModel.derived_metrics
             (DealModel.calculateWithDerivedValue Sample.example_deal 1230769))
        - 6.5) * 1230769 <= 6.5 / 2.
Proof.
  apply (derived_value_round_trip 1000000 80000 750000 5.5 25 4.2 6.5
           {| MarketValidationService.derivedValue := 1230769;
              MarketValidationService.dv_marketCapRate := 6.5;
              MarketValidationService.dv_annualNOI := 80000 |});
    reflexivity.
Defined.

(** ** Averages of a record *)

(** X7.  [calculateAverage] answers [null] exactly when neither bound
    reads as a number; with one number it is that number, with two it
    lies between them.  Every record that [processData] admits carries
    at least one of the two half-year averages, its market flag is the
    verdict of [isValidMarket] on its market, and its period key is its
    year and half joined by an underscore. *)
Theorem record_averages :
  (forall low high,
      match DataService.calculateAverage low high with
      | None => JS.parseFloat low = None /\ JS.parseFloat high = None
      | Some a =>
          match JS.parseFloat low, JS.parseFloat high with
          | Some l, Some h => (l <= a <= h \/ h <= a <= l) /\ a == (l + h) / 2
          | Some l, None => a = l
          | None, Some h => a = h
          | None, None => False
          end
      end)
  /\ forall rawData,
       Forall
         (fun r =>
            (DataService.h1_avg r <> None \/ DataService.h2_avg r <> None)
            /\ DataService.is_valid_market r
               = DataService.isValidMarket (DataService.Market (DataService.raw r))
            /\ DataService.period_key r
               = (JS.toString (DataService.Report_Year (DataService.raw r)) ++ "_"
                  ++ JS.toString (DataService.Report_Half (DataService.raw r)))%string
            /\ In (DataService.raw r) rawData)
         (DataService.processData rawData).
Proof.
  split.
  - intros low high. unfold DataService.calculateAverage.
    destruct (JS.parseFloat low) as [l |], (JS.parseFloat high) as [h |];
      try reflexivity; [| split; reflexivity].
    split; [| reflexivity].
    destruct (Qlt_le_dec l h) as [L | L]; [left | right];
      (split; [apply Qle_shift_div_l | apply Qle_shift_div_r]); lra.
  - intros rawData. apply Forall_forall. intros r H.
    unfold DataService.processData in H. apply in_map_iff in H.
    destruct H as [row [E H]]. apply filter_In in H. destruct H as [H V].
    subst r. cbn [DataService.addFields DataService.h1_avg DataService.h2_avg
                  DataService.is_valid_market DataService.period_key
                  DataService.raw].
    split; [| repeat split; exact H].
    unfold DataService.isValidRow in V.
    destruct (JS.parseInt (DataService.Report_Year row)); [| discriminate V].
    destruct ((_ <? 2020)%Z || _)%bool; [discriminate V |].
    destruct (JS.parseInt (DataService.Report_Half row)); [| discriminate V].
    destruct (negb _ && negb _)%bool; [discriminate V |].
    destruct (negb _ || _)%bool; [discriminate V |].
    unfold DataService.isValidCapRate, DataService.calculateAverage in *.
    destruct (JS.parseFloat (DataService.H1_Low row));
      destruct (JS.parseFloat (DataService.H1_High row));
      destruct (JS.parseFloat (DataService.H2_Low row));
      destruct (JS.parseFloat (DataService.H2_High row));
      first [left; discriminate | right; discriminate | discriminate V].
Qed.

(** X8.  A market name that passes [isValidMarket] has at least three
    characters and, once trimmed, at most fifty; its trimmed form begins
    with a letter, is neither "market" nor "the" in any case, and does
    not begin with "Figure", "After", "Looking Forward" or "But
    fortune". *)
Theorem valid_market_shape (market : string) :
  DataService.isValidMarket (Some market) = true ->
  let trimmed := JS.chars (JS.trim market) in
  (3 <= String.length market)%nat
  /\ (List.length trimmed <= 50)%nat
  /\ (exists c rest, trimmed = c :: rest /\ JS.is_letter c = true)
  /\ JS.equal_ci (JS.chars "Market") trimmed = false
  /\ JS.equal_ci (JS.chars "the") trimmed = false
  /\ JS.prefix_ci (JS.chars "Figure") trimmed = false
  /\ JS.prefix_ci (JS.chars "After") trimmed = false
  /\ JS.prefix_ci (JS.chars "Looking Forward") trimmed = false
  /\ JS.prefix_ci (JS.chars "But fortune") trimmed = false.
Proof.
  intros H trimmed. unfold DataService.isValidMarket in H. cbv zeta in H.
  destruct (negb (JS.truthy_string market)
            || Nat.ltb (String.length market) 3)%bool eqn:B; [discriminate H |].
  apply Bool.orb_false_iff in B. destruct B as [_ B]. apply Nat.ltb_ge in B.
  fold trimmed in H.
  destruct (existsb (fun pattern => pattern trimmed) DataService.invalidPatterns)
    eqn:P; [discriminate H |].
  destruct (negb (existsb JS.is_letter trimmed)
            || Nat.ltb 50 (List.length trimmed))%bool eqn:L; [discriminate H |].
  apply Bool.orb_false_iff in L. destruct L as [_ L]. apply Nat.ltb_ge in L.
  unfold DataService.invalidPatterns in P. cbn [existsb] in P.
  repeat match type of P with
         | (_ || _)%bool = false =>
             let Q := fresh "Q" in
             apply Bool.orb_false_iff in P; destruct P as [Q P]
         end.
  split; [exact B |]. split; [exact L |]. split.
  - destruct trimmed as [| c rest]; [discriminate Q8 |].
    exists c, rest. split; [reflexivity |].
    apply Bool.negb_false_iff in Q7. exact Q7.
  - repeat split; assumption.
Qed.

Lemma valid_market_shape_witness :
  (3 <= String.length "Dallas")%nat
  /\ (List.length (JS.chars (JS.trim "Dallas")) <= 50)%nat.
Proof.
  split; apply (valid_market_shape "Dallas" eq_refl).
Defined.

(** ** Strings: splitting and lengths *)

Lemma chars_append (s1 s2 : string) :
  JS.chars (s1 ++ s2) = JS.chars s1 ++ JS.chars s2.
Proof.
  unfold JS.chars. induction s1 as [| c s1 IH]; cbn; [reflexivity |].
  rewrite IH. reflexivity.
Qed.

Lemma str_chars (s : string) : JS.str (JS.chars s) = s.
Proof. apply string_of_list_ascii_of_string. Qed.

Lemma split_chars_whole (sep : ascii) (acc a : list ascii) :
  ~ In sep a -> JS.split_chars sep acc a = [rev acc ++ a].
Proof.
  revert acc. induction a as [| c a IH]; intros acc H; cbn [JS.split_chars].
  - rewrite app_nil_r. reflexivity.
  - destruct (Ascii.eqb c sep) eqn:E.
    + apply Ascii.eqb_eq in E. subst c. exfalso. apply H. left. reflexivity.
    + rewrite IH by (intros K; apply H; right; exact K).
      cbn [rev]. rewrite <- app_assoc. reflexivity.
Qed.

Lemma split_chars_first (sep : ascii) (acc a b : list ascii) :
  ~ In sep a ->
  JS.split_chars sep acc (a ++ sep :: b)
  = (rev acc ++ a) :: JS.split_chars sep [] b.
Proof.
  revert acc. induction a as [| c a IH]; intros acc H; cbn [JS.split_chars app].
  - rewrite Ascii.eqb_refl, app_nil_r. reflexivity.
  - destruct (Ascii.eqb c sep) eqn:E.
    + apply Ascii.eqb_eq in E. subst c. exfalso. apply H. left. reflexivity.
    + rewrite IH by (intros K; apply H; right; exact K).
      cbn [rev]. rewrite <- app_assoc. reflexivity.
Qed.

(** Splitting what was joined gives the pieces back, when no piece
    contains the separator. *)
Lemma split_concat (sep : ascii) (piece : string) (pieces : list string) :
  (forall p, In p (piece :: pieces) -> ~ In sep (JS.chars p)) ->
  JS.split sep (String.concat (String sep "") (piece :: pieces))
  = piece :: pieces.
Proof.
  unfold JS.split. revert piece.
  induction pieces as [| q pieces IH]; intros piece H.
  - cbn [String.concat]. rewrite split_chars_whole
      by (apply H; left; reflexivity).
    cbn [map rev app]. rewrite str_chars. reflexivity.
  - change (String.concat (String sep "") (piece :: q :: pieces))
      with (piece ++ String sep "" ++ String.concat (String sep "") (q :: pieces))%string.
    rewrite !chars_append.
    change (JS.chars (String sep "")) with [sep]. cbn [app].
    rewrite split_chars_first by (apply H; left; reflexivity).
    cbn [map rev app]. rewrite str_chars. f_equal.
    apply IH. intros p Hp. apply H. right. exact Hp.
Qed.

Lemma length_append (s1 s2 : string) :
  String.length (s1 ++ s2) = (String.length s1 + String.length s2)%nat.
Proof.
  induction s1 as [| c s1 IH]; cbn; [reflexivity |]. rewrite IH. reflexivity.
Qed.

Lemma length_substring_0 (n : nat) (s : string) :
  String.length (String.substring 0 n s) = Nat.min n (String.length s).
Proof.
  revert n. induction s as [| c s IH]; intros [| n]; cbn; try reflexivity.
  rewrite IH. reflexivity.
Qed.

(** X23.  [truncateLabel] leaves a label of at most [maxLength]
    characters as it is; a longer one becomes its first [maxLength]
    characters followed by three dots, so the result has
    [maxLength + 3] characters: more than the limit, and more than the
    label itself when the label is only one or two characters too long. *)
Theorem truncateLabel_length (label : string) (maxLength : nat) :
  let result := ChartManager.truncateLabel label maxLength in
  ((String.length label <= maxLength)%nat -> result = label)
  /\ ((maxLength < String.length label)%nat ->
      result = (String.substring 0 maxLength label ++ "...")%string
      /\ String.length result = (maxLength + 3)%nat
      /\ ((String.length label < maxLength + 3)%nat ->
          (String.length label < String.length result)%nat)).
Proof.
  intros result. subst result. unfold ChartManager.truncateLabel. split.
  - intros H. apply Nat.ltb_ge in H. rewrite H. reflexivity.
  - intros H. pose proof H as B. apply Nat.ltb_lt in B. rewrite B.
    split; [reflexivity |].
    assert (L : String.length (String.substring 0 maxLength label ++ "...")
                = (maxLength + 3)%nat).
    { rewrite length_append, length_substring_0. cbn [String.length]. lia. }
    split; [exact L |]. intros H2. rewrite L. exact H2.
Qed.

(** X22.  The two renderers of a period key.  For a record whose year
    and half contain no underscore, the controller's [formatPeriodLabel]
    turns the record's period key into "year Hhalf" and the chart
    manager's into "year half": the latter leaves out the letter H. *)
Theorem period_labels (row : DataService.RawRow) (year half : string) :
  DataService.Report_Year row = Some year ->
  DataService.Report_Half row = Some half ->
  ~ In "_"%char (JS.chars year) -> ~ In "_"%char (JS.chars half) ->
  let key := DataService.period_key (DataService.addFields row) in
  JS.split "_" key = [year; half]
  /\ DashboardController.formatPeriodLabel key = (year ++ " H" ++ half)%string
  /\ ChartManager.formatPeriodLabel key = (year ++ " " ++ half)%string.
Proof.
  intros Ey Eh Hy Hh key.
  assert (S : JS.split "_" key = [year; half]).
  { subst key. unfold DataService.addFields. cbn [DataService.period_key].
    rewrite Ey, Eh. cbn [JS.toString].
    apply (split_concat "_" year [half]).
    intros p [E | [E | []]]; subst p; assumption. }
  split; [exact S |].
  unfold DashboardController.formatPeriodLabel, ChartManager.formatPeriodLabel.
  rewrite S. cbn [map nth JS.toString]. split; reflexivity.
Qed.

Lemma period_labels_witness :
  DashboardController.formatPeriodLabel
    (DataService.period_key Sample.dallas_record) = "2024 H1"%string
  /\ ChartManager.formatPeriodLabel
       (DataService.period_key Sample.dallas_record) = "2024 1"%string.
Proof.
  apply (period_labels Sample.office_dallas "2024" "1");
    first [ reflexivity
          | cbn; intros H;
            repeat (destruct H as [H | H]; [discriminate H |]); exact H ].
Defined.

(** ** Reading the table *)

Lemma obj_assign_same {V} (k : string) (v : option V) (o : JS.Obj V) :
  JS.obj_assign k v o k = v.
Proof. unfold JS.obj_assign. rewrite String.eqb_refl. reflexivity. Qed.

Lemma obj_assign_other {V} (k k' : string) (v : option V) (o : JS.Obj V) :
  k' <> k -> JS.obj_assign k v o k' = o k'.
Proof.
  intros H. unfold JS.obj_assign. apply String.eqb_neq in H. rewrite H.
  reflexivity.
Qed.

(** The loop that fills a row: a header that does not occur leaves the
    key as it was. *)
Lemma row_loop_absent (values : list string) (headers : list string)
    (start : nat) (o : JS.Obj string) (h : string) :
  ~ In h headers ->
  fold_left
    (fun row '(header, index) =>
       JS.obj_assign header (nth_error values index) row)
    (combine headers (seq start (List.length headers))) o h
  = o h.
Proof.
  revert start o. induction headers as [| x headers IH]; intros start o H;
    cbn [List.length seq combine fold_left]; [reflexivity |].
  rewrite IH by (intros K; apply H; right; exact K).
  apply obj_assign_other. intros E. apply H. left. symmetry. exact E.
Qed.

(** The last column under a header gives the key its value. *)
Lemma row_loop_last (values : list string) (headers : list string)
    (start : nat) (o : JS.Obj string) (h : string) (i : nat) :
  nth_error headers i = Some h ->
  (forall j, (i < j)%nat -> nth_error headers j <> Some h) ->
  fold_left
    (fun row '(header, index) =>
       JS.obj_assign header (nth_error values index) row)
    (combine headers (seq start (List.length headers))) o h
  = nth_error values (start + i).
Proof.
  revert start o i. induction headers as [| x headers IH]; intros start o i Hi Hlast.
  - destruct i; discriminate Hi.
  - cbn [List.length seq combine fold_left]. destruct i as [| i].
    + cbn [nth_error] in Hi. inversion Hi; subst x.
      rewrite row_loop_absent.
      * rewrite obj_assign_same, Nat.add_0_r. reflexivity.
      * intros K. apply In_nth_error in K. destruct K as [j Hj].
        apply (Hlast (S j)); [lia | exact Hj].
    + cbn [nth_error] in Hi. rewrite (IH (S start) _ i Hi).
      * f_equal. lia.
      * intros j Hj. apply (Hlast (S j)). lia.
Qed.

(** X9.  [parseCSV] on a text that has no surrounding white space and
    consists of a header line and data lines joined by line feeds.  It
    returns one row for each data line, in order.  In the row of a line,
    the field named by a header (other than [__proto__]) is the trimmed
    value at the position of the last column with that header, and
    [undefined] when the line has no value at that position. *)
Theorem parseCSV_rows (header : string) (lines : list string) :
  let text := String.concat (String DataService.LF "") (header :: lines) in
  let headers := map JS.trim (JS.split "," header) in
  JS.trim text = text ->
  (forall line, In line (header :: lines) ->
                ~ In DataService.LF (JS.chars line)) ->
  List.length (DataService.parseCSV text) = List.length lines
  /\ forall j line h i,
       nth_error lines j = Some line ->
       nth_error headers i = Some h ->
       (forall i', (i < i')%nat -> nth_error headers i' <> Some h) ->
       h <> "__proto__"%string ->
       exists row,
         nth_error (DataService.parseCSV text) j = Some row
         /\ row h = nth_error (map JS.trim (JS.split "," line)) i.
Proof.
  intros text headers Htrim Hlf.
  unfold DataService.parseCSV. rewrite Htrim. subst text.
  rewrite (split_concat DataService.LF header lines Hlf).
  cbn [nth skipn]. fold headers.
  split; [apply length_map |].
  intros j line h i Hj Hi Hlast _.
  eexists. split.
  - apply map_nth_error. exact Hj.
  - cbv beta. rewrite (row_loop_last _ headers 0 _ h i Hi Hlast). reflexivity.
Qed.

Lemma parseCSV_rows_witness :
  exists row,
    nth_error
      (DataService.parseCSV
         (String.concat (String DataService.LF "")
            ["Sector,Market,Report_Year"; "Office, Dallas ,2024"]%string)) 0
    = Some row
    /\ row "Market"%string = Some "Dallas"%string.
Proof.
  destruct (parseCSV_rows "Sector,Market,Report_Year" ["Office, Dallas ,2024"]%string)
    as [_ H].
  - reflexivity.
  - intros line [E | [E | []]]; subst line; cbn; intros H;
      repeat (destruct H as [H | H]; [discriminate H |]); exact H.
  - destruct (H 0%nat "Office, Dallas ,2024"%string "Market"%string 1%nat)
      as [row [E1 E2]].
    + reflexivity.
    + reflexivity.
    + intros [| [| [| [| i']]]] Hi; try lia; cbn; discriminate.
    + discriminate.
    + exists row. split; [exact E1 | exact E2].
Defined.

(** ** Extremes *)

Lemma Math_min_spec (x : Q) (l : list Q) :
  In (JS.Math_min x l) (x :: l)
  /\ forall y, In y (x :: l) -> JS.Math_min x l <= y.
Proof.
  unfold JS.Math_min. revert x.
  induction l as [| z l IH]; intros x; cbn [fold_left].
  - split; [left; reflexivity |].
    intros y [E | []]. subst. apply Qle_refl.
  - destruct (Qle_bool z x) eqn:B.
    + apply Qle_bool_iff in B. destruct (IH z) as [I1 I2]. split.
      * destruct I1 as [E | I1]; [right; left; exact E | right; right; exact I1].
      * intros y [E | Hy].
        -- subst y. apply Qle_trans with z; [| exact B].
           apply I2. left. reflexivity.
        -- apply I2. exact Hy.
    + assert (Hxz : x <= z).
      { apply Qlt_le_weak. apply Qnot_le_lt. intros L.
        apply Qle_bool_iff in L. congruence. }
      destruct (IH x) as [I1 I2]. split.
      * destruct I1 as [E | I1]; [left; exact E | right; right; exact I1].
      * intros y [E | [E | Hy]].
        -- subst y. apply I2. left. reflexivity.
        -- subst y. apply Qle_trans with x; [| exact Hxz].
           apply I2. left. reflexivity.
        -- apply I2. right. exact Hy.
Qed.

Lemma Math_max_spec (x : Q) (l : list Q) :
  In (JS.Math_max x l) (x :: l)
  /\ forall y, In y (x :: l) -> y <= JS.Math_max x l.
Proof.
  unfold JS.Math_max. revert x.
  induction l as [| z l IH]; intros x; cbn [fold_left].
  - split; [left; reflexivity |].
    intros y [E | []]. subst. apply Qle_refl.
  - destruct (Qle_bool x z) eqn:B.
    + apply Qle_bool_iff in B. destruct (IH z) as [I1 I2]. split.
      * destruct I1 as [E | I1]; [right; left; exact E | right; right; exact I1].
      * intros y [E | Hy].
        -- subst y. apply Qle_trans with z; [exact B |].
           apply I2. left. reflexivity.
        -- apply I2. exact Hy.
    + assert (Hxz : z <= x).
      { apply Qlt_le_weak. apply Qnot_le_lt. intros L.
        apply Qle_bool_iff in L. congruence. }
      destruct (IH x) as [I1 I2]. split.
      * destruct I1 as [E | I1]; [left; exact E | right; right; exact I1].
      * intros y [E | [E | Hy]].
        -- subst y. apply I2. left. reflexivity.
        -- subst y. apply Qle_trans with x; [exact Hxz |].
           apply I2. left. reflexivity.
        -- apply I2. right. exact Hy.
Qed.

(** The minimum of a non-empty list is not above its maximum, also
    after rounding. *)
Lemma min_le_max (k : nat) (x : Q) (l : list Q) :
  JS.toFixed k (JS.Math_min x l) <= JS.toFixed k (JS.Math_max x l).
Proof.
  apply toFixed_le. apply Qle_trans with x.
  - apply (proj2 (Math_min_spec x l)). left. reflexivity.
  - apply (proj2 (Math_max_spec x l)). left. reflexivity.
Qed.

(** ** Sorted arrays *)

Lemma Sorted_strongly {A} (R : A -> A -> Prop) (l : list A) :
  (forall x y z, R x y -> R y z -> R x z) ->
  Sorted R l -> StronglySorted R l.
Proof.
  intros T S. apply Sorted_StronglySorted; [| exact S].
  intros x y z. apply T.
Qed.

Lemma StronglySorted_nth {A} (R : A -> A -> Prop) (l : list A) (d : A) :
  StronglySorted R l ->
  forall i j, (i < j)%nat -> (j < List.length l)%nat -> R (nth i l d) (nth j l d).
Proof.
  induction 1 as [| x l S IH F]; intros i j Hij Hj; cbn [List.length] in Hj.
  - lia.
  - destruct j as [| j]; [lia |]. destruct i as [| i]; cbn [nth].
    + rewrite Forall_forall in F. apply F. apply nth_In. lia.
    + apply IH; lia.
Qed.

Lemma StronglySorted_firstn {A} (R : A -> A -> Prop) (n : nat) (l : list A) :
  StronglySorted R l -> StronglySorted R (firstn n l).
Proof.
  intros S. revert n. induction S as [| x l S IH F]; intros n.
  - rewrite firstn_nil. constructor.
  - destruct n as [| n]; cbn [firstn]; [constructor |].
    constructor; [apply IH |].
    rewrite Forall_forall in *. intros y Hy. apply F.
    apply (In_firstn_In n l y Hy).
Qed.

Lemma StronglySorted_map {A B} (R : B -> B -> Prop) (f : A -> B) (l : list A) :
  StronglySorted (fun a b => R (f a) (f b)) l -> StronglySorted R (map f l).
Proof.
  induction 1 as [| x l S IH F]; cbn [map]; constructor; [exact IH |].
  rewrite Forall_forall in *. intros y Hy. apply in_map_iff in Hy.
  destruct Hy as [a [E Ha]]. subst y. apply F. exact Ha.
Qed.

(** A sort by a numeric key, ascending or descending, leaves the array
    ordered by the key. *)
Lemma sort_with_ascending {A} (key : A -> Q) (l : list A) :
  StronglySorted (fun a b => key a <= key b)
    (JS.sort_with (fun a b => Some (key a - key b)) l).
Proof.
  apply Sorted_strongly.
  - intros x y z H1 H2. apply Qle_trans with (key y); assumption.
  - unfold JS.sort_with.
    apply (Sorted_weaken
             (fun a b => JS.not_after (fun a b => Some (key a - key b)) a b = true)).
    + intros a b _ _ H. unfold JS.not_after in H. apply Qle_bool_iff in H. lra.
    + apply sort_by_sorted. intros x y _ _. unfold JS.not_after.
      destruct (Qlt_le_dec (key y) (key x)) as [L | L].
      * right. apply Qle_bool_iff. lra.
      * left. apply Qle_bool_iff. lra.
Qed.

Lemma sort_with_descending {A} (key : A -> Q) (l : list A) :
  StronglySorted (fun a b => key b <= key a)
    (JS.sort_with (fun a b => Some (key b - key a)) l).
Proof.
  apply Sorted_strongly.
  - intros x y z H1 H2. apply Qle_trans with (key y); assumption.
  - unfold JS.sort_with.
    apply (Sorted_weaken
             (fun a b => JS.not_after (fun a b => Some (key b - key a)) a b = true)).
    + intros a b _ _ H. unfold JS.not_after in H. apply Qle_bool_iff in H. lra.
    + apply sort_by_sorted. intros x y _ _. unfold JS.not_after.
      destruct (Qlt_le_dec (key y) (key x)) as [L | L].
      * left. apply Qle_bool_iff. lra.
      * right. apply Qle_bool_iff. lra.
Qed.

(** ** The order of strings *)

Lemma ascii_compare_lt_trans (a b c : ascii) :
  Ascii.compare a b = Lt -> Ascii.compare b c = Lt -> Ascii.compare a c = Lt.
Proof.
  unfold Ascii.compare. rewrite !N.compare_lt_iff. apply N.lt_trans.
Qed.

Lemma string_leb_trans (s1 s2 s3 : string) :
  String.leb s1 s2 = true -> String.leb s2 s3 = true -> String.leb s1 s3 = true.
Proof.
  unfold String.leb. revert s2 s3.
  induction s1 as [| c1 s1 IH]; intros [| c2 s2] [| c3 s3];
    cbn [String.compare]; try reflexivity; try discriminate.
  destruct (Ascii.compare c1 c2) eqn:E12; try discriminate;
    destruct (Ascii.compare c2 c3) eqn:E23; try discriminate.
  - apply Ascii.compare_eq_iff in E12, E23. subst c2 c3.
    assert (R : Ascii.compare c1 c1 = Eq).
    { unfold Ascii.compare. apply N.compare_refl. }
    rewrite R. apply IH.
  - apply Ascii.compare_eq_iff in E12. subst c2. rewrite E23. reflexivity.
  - apply Ascii.compare_eq_iff in E23. subst c3. rewrite E12. reflexivity.
  - rewrite (ascii_compare_lt_trans _ _ _ E12 E23). reflexivity.
Qed.

(** [l.sort()] leaves an array of strings in ascending order. *)
Lemma sort_ascending (l : list string) :
  StronglySorted (fun a b => String.leb a b = true) (JS.sort l).
Proof.
  apply Sorted_strongly; [apply string_leb_trans |].
  unfold JS.sort. apply sort_by_sorted. intros x y _ _. apply String.leb_total.
Qed.

(** The markets of a data set: the non-empty market names of its records
    that pass [isValidMarket]. *)
Lemma In_getMarkets (this : DataService.t) (s : string) :
  In s (DataService.getMarkets this) ->
  DataService.isValidMarket (Some s) = true
  /\ exists pd row, DataService.processedData this = Some pd /\ In row pd
                    /\ DataService.Market (DataService.raw row) = Some s.
Proof.
  unfold DataService.getMarkets.
  destruct (DataService.processedData this) as [pd |]; [| intros []].
  unfold JS.sort. rewrite In_sort_by, In_truthy_names.
  rewrite (In_uniq _ opt_eqb_eq), in_map_iff.
  intros [[row [E H]] _]. apply filter_In in H. destruct H as [H V].
  rewrite E in V. split; [exact V |]. exists pd, row. auto.
Qed.

Lemma NoDup_getMarkets (this : DataService.t) :
  NoDup (DataService.getMarkets this).
Proof.
  unfold DataService.getMarkets.
  destruct (DataService.processedData this) as [pd |]; [| constructor].
  apply NoDup_sort_by. apply NoDup_truthy_names.
  apply (NoDup_uniq _ opt_eqb_eq).
Qed.

(** X10.  The sector and market lists that fill the dashboard's filters
    are in ascending order of character codes and name nothing twice;
    every listed market passes [isValidMarket] and is the market of an
    admitted record, and every listed sector is the sector of an admitted
    record. *)
Theorem sector_and_market_lists (this : DataService.t) :
  StronglySorted (fun a b => String.leb a b = true) (DataService.getSectors this)
  /\ NoDup (DataService.getSectors this)
  /\ StronglySorted (fun a b => String.leb a b = true) (DataService.getMarkets this)
  /\ NoDup (DataService.getMarkets this)
  /\ (forall s, In s (DataService.getSectors this) ->
        s <> ""%string
        /\ exists pd row, DataService.processedData this = Some pd /\ In row pd
                          /\ DataService.Sector (DataService.raw row) = Some s)
  /\ (forall s, In s (DataService.getMarkets this) ->
        DataService.isValidMarket (Some s) = true
        /\ exists pd row, DataService.processedData this = Some pd /\ In row pd
                          /\ DataService.Market (DataService.raw row) = Some s).
Proof.
  split; [| split; [apply NoDup_getSectors |
            split; [| split; [apply NoDup_getMarkets | split]]]].
  - unfold DataService.getSectors.
    destruct (DataService.processedData this); [apply sort_ascending | constructor].
  - unfold DataService.getMarkets.
    destruct (DataService.processedData this); [apply sort_ascending | constructor].
  - intros s H. apply In_getSectors in H.
    destruct H as [pd [E [[row [H1 H2]] Hs]]]. split; [exact Hs |].
    exists pd, row. auto.
  - apply In_getMarkets.
Qed.

(** ** Rankings *)

Lemma NoDup_map_filter_key {A B} (f : A -> B) (key : B -> A) (p : B -> bool)
    (l : list A) :
  (forall x, key (f x) = x) -> NoDup l ->
  NoDup (map key (filter p (map f l))).
Proof.
  intros K. induction 1 as [| x l Hn Hd IH]; cbn [map filter]; [constructor |].
  destruct (p (f x)); [| exact IH].
  cbn [map]. rewrite K. constructor; [| exact IH].
  intros H. apply in_map_iff in H. destruct H as [b [E Hb]].
  apply filter_In in Hb. destruct Hb as [Hb _]. apply in_map_iff in Hb.
  destruct Hb as [a [Ea Ha]]. subst b. rewrite K in E. subst a. contradiction.
Qed.

Lemma In_compact {A} (l : list (option A)) (x : A) :
  In x (JS.compact l) <-> In (Some x) l.
Proof.
  induction l as [| [y |] l IH]; cbn [JS.compact In].
  - tauto.
  - rewrite IH. split; intros [H | H]; auto; [left; congruence |].
    left. inversion H. reflexivity.
  - rewrite IH. split; [auto |]. intros [H | H]; [discriminate H | exact H].
Qed.

Lemma NoDup_map_compact_key {A B} (f : A -> option B) (key : B -> A)
    (l : list A) :
  (forall x y, f x = Some y -> key y = x) -> NoDup l ->
  NoDup (map key (JS.compact (map f l))).
Proof.
  intros K. induction 1 as [| x l Hn Hd IH]; cbn [map JS.compact]; [constructor |].
  destruct (f x) as [y |] eqn:E; [| exact IH].
  cbn [map]. rewrite (K x y E). constructor; [| exact IH].
  intros H. apply in_map_iff in H. destruct H as [b [Eb Hb]].
  apply In_compact in Hb. apply in_map_iff in Hb.
  destruct Hb as [a [Ea Ha]]. apply K in Ea. congruence.
Qed.

(** X11.  [getMarketRanking(limit)] returns at most [limit] entries, in
    descending order of average rate, no market twice; every entry names
    a market of the market list (hence one that passes [isValidMarket]),
    has a positive average rate and counts at least one record. *)
Theorem market_ranking_is_ranked (this : DataService.t) (limit : nat) :
  let ranking := DataService.getMarketRanking this limit in
  (List.length ranking <= limit)%nat
  /\ StronglySorted
       (fun a b => DataService.mp_avgRate b <= DataService.mp_avgRate a) ranking
  /\ NoDup (map DataService.mp_market ranking)
  /\ forall e, In e ranking ->
       In (DataService.mp_market e) (DataService.getMarkets this)
       /\ DataService.isValidMarket (Some (DataService.mp_market e)) = true
       /\ 0 < DataService.mp_avgRate e
       /\ (1 <= DataService.mp_count e)%nat.
Proof.
  intros ranking. subst ranking. unfold DataService.getMarketRanking.
  set (entry := fun market : string => _).
  set (positive := fun item : DataService.MarketPoint =>
                     JS.gtb (DataService.mp_avgRate item) 0).
  set (candidates := filter positive (map entry (DataService.getMarkets this))).
  split; [apply firstn_le_length |].
  split.
  { apply StronglySorted_firstn.
    apply (sort_with_descending DataService.mp_avgRate). }
  split.
  { assert (N : NoDup (map DataService.mp_market
                         (JS.sort_with
                            (fun a b => Some (DataService.mp_avgRate b
                                              - DataService.mp_avgRate a))
                            candidates))).
    { apply (Permutation_NoDup
               (l := map DataService.mp_market candidates)).
      - apply Permutation_map. apply Permutation_sym. apply sort_by_perm.
      - apply (NoDup_map_filter_key entry DataService.mp_market positive).
        + intros x. reflexivity.
        + apply NoDup_getMarkets. }
    revert N. generalize (JS.sort_with
                            (fun a b => Some (DataService.mp_avgRate b
                                              - DataService.mp_avgRate a))
                            candidates).
    intros l. revert limit. induction l as [| x l IH]; intros limit N.
    - rewrite firstn_nil. constructor.
    - destruct limit as [| limit]; cbn [firstn map]; [constructor |].
      cbn [map] in N. inversion N as [| ? ? Hx Hl]; subst.
      constructor; [| apply IH; exact Hl].
      intros H. apply Hx. apply in_map_iff in H. destruct H as [b [E Hb]].
      apply in_map_iff. exists b. split; [exact E |].
      apply (In_firstn_In limit l b Hb). }
  intros e He. apply In_firstn_In in He. unfold JS.sort_with in He.
  apply In_sort_by in He. apply filter_In in He. destruct He as [He Hp].
  apply in_map_iff in He. destruct He as [market [E Hm]].
  unfold positive in Hp. apply gtb_true in Hp.
  assert (Emk : DataService.mp_market e = market) by (rewrite <- E; reflexivity).
  rewrite Emk. split; [exact Hm |].
  split; [apply (proj1 (In_getMarkets this market Hm)) |].
  split; [exact Hp |].
  rewrite <- E in Hp |- *. unfold entry in *.
  cbn [DataService.mp_avgRate DataService.mp_count] in *.
  set (data := DataService.filterData this _) in *.
  pose proof (ratesOf_length data) as L.
  destruct (Nat.ltb 0 (List.length (DataService.ratesOf data))) eqn:B.
  - apply Nat.ltb_lt in B. lia.
  - exfalso. vm_compute in Hp. discriminate Hp.
Qed.


Lemma Math_sqrt_nonneg (x : Q) : 0 <= JS.Math_sqrt x.
Proof.
  unfold JS.Math_sqrt. rewrite Qred_correct.
  unfold Qle. cbn [Qnum Qden]. pose proof (Z.sqrt_nonneg (Qfloor (x * inject_Z (10 ^ 30)))).
  lia.
Qed.

(** The volatility is never negative. *)
Lemma calculateVolatility_nonneg (rates : list Q) :
  0 <= DataService.calculateVolatility rates.
Proof.
  unfold DataService.calculateVolatility.
  destruct (Nat.ltb (List.length rates) 2); [apply Qle_refl |].
  apply toFixed_nonneg. apply Math_sqrt_nonneg.
Qed.





(** X12.  [getSectorPerformanceRanking] lists the sectors that have a
    rate, each once, in descending order of average rate.  Every entry
    counts at least one rate and has a volatility that is not negative;
    with a single rate the volatility is zero, and whenever the
    volatility is zero the risk-adjusted return is the average rate
    itself, the divisor falling back to 1. *)
Theorem sector_performance_is_ranked (this : DataService.t) :
  let ranking := DataService.getSectorPerformanceRanking this in
  let rates := fun sector =>
    DataService.ratesOf
      (DataService.filterData this
         {| DataService.sector := Some sector; DataService.market := None;
            DataService.period := None; DataService.validMarketOnly := true |}) in
  StronglySorted
    (fun a b => DataService.perf_avgRate b <= DataService.perf_avgRate a) ranking
  /\ NoDup (map DataService.perf_sector ranking)
  /\ (forall sector,
        In sector (map DataService.perf_sector ranking)
        <-> In sector (DataService.getSectors this) /\ rates sector <> [])
  /\ forall p, In p ranking ->
       DataService.perf_count p = List.length (rates (DataService.perf_sector p))
       /\ (1 <= DataService.perf_count p)%nat
       /\ 0 <= DataService.perf_volatility p
       /\ (DataService.perf_count p = 1%nat -> DataService.perf_volatility p = 0)
       /\ (DataService.perf_volatility p == 0 ->
           DataService.riskAdjustedReturn p == DataService.perf_avgRate p).
Proof.
  intros ranking rates. subst ranking. unfold DataService.getSectorPerformanceRanking.
  set (entry := fun sector : string =>
         if Nat.eqb (List.length (rates sector)) 0 then None
         else
           Some {| DataService.perf_sector := sector;
                   DataService.perf_avgRate :=
                     JS.toFixed 2 (DataService.mean (rates sector));
                   DataService.perf_volatility :=
                     DataService.calculateVolatility (rates sector);
                   DataService.perf_count := List.length (rates sector);
                   DataService.riskAdjustedReturn :=
                     JS.toFixed 2
                       (DataService.mean (rates sector)
                        / (if JS.truthy (DataService.calculateVolatility (rates sector))
                           then DataService.calculateVolatility (rates sector)
                           else 1)) |}).
  change (JS.compact (map _ (DataService.getSectors this)))
    with (JS.compact (map entry (DataService.getSectors this))).
  set (performance := JS.compact (map entry (DataService.getSectors this))).
  assert (Hkey : forall x y, entry x = Some y -> DataService.perf_sector y = x).
  { intros x y. unfold entry.
    destruct (Nat.eqb (List.length (rates x)) 0); [discriminate |].
    intros E. inversion E. reflexivity. }
  assert (Hin : forall p,
            In p (JS.sort_with
                    (fun a b => Some (DataService.perf_avgRate b
                                      - DataService.perf_avgRate a)) performance)
            <-> exists sector, In sector (DataService.getSectors this)
                               /\ entry sector = Some p).
  { intros p. unfold JS.sort_with. rewrite In_sort_by. unfold performance.
    rewrite In_compact, in_map_iff. split; intros [s [A B]]; exists s; auto. }
  split; [apply (sort_with_descending DataService.perf_avgRate) |].
  split.
  { apply (Permutation_NoDup (l := map DataService.perf_sector performance)).
    - apply Permutation_map. apply Permutation_sym. apply sort_by_perm.
    - apply (NoDup_map_compact_key entry DataService.perf_sector);
        [exact Hkey | apply NoDup_getSectors]. }
  split.
  { intros sector. rewrite in_map_iff. split.
    - intros [p [E Hp]]. apply Hin in Hp. destruct Hp as [s [Hs Es]].
      pose proof (Hkey s p Es) as K. rewrite E in K. subst s.
      split; [exact Hs |]. unfold entry in Es.
      destruct (Nat.eqb (List.length (rates sector)) 0) eqn:Z; [discriminate |].
      intros N. rewrite N in Z. discriminate Z.
    - intros [Hs Hr]. destruct (entry sector) as [p |] eqn:Es.
      + exists p. split; [apply (Hkey sector p Es) |].
        apply Hin. exists sector. auto.
      + exfalso. unfold entry in Es.
        destruct (Nat.eqb (List.length (rates sector)) 0) eqn:Z; [| discriminate].
        apply Nat.eqb_eq in Z. apply length_zero_iff_nil in Z. contradiction. }
  intros p Hp. apply Hin in Hp. destruct Hp as [s [Hs Es]].
  unfold entry in Es.
  destruct (Nat.eqb (List.length (rates s)) 0) eqn:Z; [discriminate |].
  apply Nat.eqb_neq in Z. inversion Es; subst p; clear Es.
  cbn [DataService.perf_sector DataService.perf_count DataService.perf_volatility
       DataService.riskAdjustedReturn DataService.perf_avgRate].
  split; [reflexivity |]. split; [lia |].
  split; [apply calculateVolatility_nonneg |]. split.
  - intros E1. unfold DataService.calculateVolatility. rewrite E1. reflexivity.
  - intros V. unfold JS.truthy.
    rewrite (Qeq_eq_bool _ _ V). cbn [negb].
    apply toFixed_comp. field.
Qed.

(** ** Statistics of the data service *)

Lemma nth_sorted_le (l : list Q) (i j : nat) :
  StronglySorted Qle l -> (i <= j)%nat -> (j < List.length l)%nat ->
  nth i l 0 <= nth j l 0.
Proof.
  intros S Hij Hj. destruct (Nat.eq_dec i j) as [E | N].
  - subst. apply Qle_refl.
  - apply (StronglySorted_nth Qle l 0 S); lia.
Qed.

Lemma floor_index (n : nat) (x : Q) :
  0 <= x -> x < JS.len (repeat tt n) ->
  (Z.to_nat (JS.Math_floor x) < n)%nat.
Proof.
  unfold JS.len, JS.Math_floor. rewrite repeat_length. intros H0 Hn.
  assert (0 <= Qfloor x)%Z.
  { change 0%Z with (Qfloor 0). apply Qfloor_resp_le. exact H0. }
  assert (Qfloor x < Z.of_nat n)%Z.
  { rewrite Zlt_Qlt. apply Qle_lt_trans with x; [apply Qfloor_le | exact Hn]. }
  lia.
Qed.

Lemma floor_index_le (x y : Q) :
  0 <= x -> x <= y ->
  (Z.to_nat (JS.Math_floor x) <= Z.to_nat (JS.Math_floor y))%nat.
Proof.
  unfold JS.Math_floor. intros H0 Hxy.
  assert (0 <= Qfloor x)%Z.
  { change 0%Z with (Qfloor 0). apply Qfloor_resp_le. exact H0. }
  assert (Qfloor x <= Qfloor y)%Z by (apply Qfloor_resp_le; exact Hxy).
  lia.
Qed.

(** X13.  [getAdvancedStatistics] answers [null] exactly when no admitted
    record of a valid market has a rate.  Otherwise its count is the
    number of rates, and its order statistics are ordered: minimum, first
    quartile, median, third quartile and maximum, in this order. *)
Theorem advanced_statistics_are_ordered (this : DataService.t) :
  let rates :=
    DataService.ratesOf
      (DataService.filterData this
         {| DataService.sector := None; DataService.market := None;
            DataService.period := None; DataService.validMarketOnly := true |}) in
  match DataService.getAdvancedStatistics this with
  | None => rates = []
  | Some s =>
      DataService.st_count s = List.length rates
      /\ (1 <= DataService.st_count s)%nat
      /\ DataService.st_min s <= DataService.st_q1 s
      /\ DataService.st_q1 s <= DataService.st_median s
      /\ DataService.st_median s <= DataService.st_q3 s
      /\ DataService.st_q3 s <= DataService.st_max s
  end.
Proof.
  intros rates. unfold DataService.getAdvancedStatistics.
  fold rates.
  destruct rates as [| r0 rest] eqn:Er; [reflexivity |].
  rewrite <- Er. assert (Hne : rates <> []) by (rewrite Er; discriminate).
  clear Er r0 rest.
  destruct (Nat.eqb (List.length rates) 0) eqn:Z.
  { apply Nat.eqb_eq in Z. apply length_zero_iff_nil in Z. contradiction. }
  cbn [DataService.st_count DataService.st_min DataService.st_q1
       DataService.st_median DataService.st_q3 DataService.st_max
       DataService.st_mean].
  set (sorted := JS.sort_with (fun a b => Some (a - b)) rates).
  assert (S : StronglySorted Qle sorted) by apply (sort_with_ascending (fun x => x)).
  assert (P : Permutation sorted rates) by apply sort_by_perm.
  assert (Hlen : List.length sorted = List.length rates)
    by (apply Permutation_length; exact P).
  assert (Hn : (1 <= List.length rates)%nat).
  { destruct rates; [contradiction | cbn [List.length]; lia]. }
  set (n := List.length rates) in *.
  assert (HL : JS.len sorted = inject_Z (Z.of_nat n))
    by (unfold JS.len; rewrite Hlen; reflexivity).
  assert (HnQ : 1 <= inject_Z (Z.of_nat n)).
  { change 1 with (inject_Z 1). rewrite <- Zle_Qle. lia. }
  assert (Hrep : JS.len (repeat tt n) = inject_Z (Z.of_nat n))
    by (unfold JS.len; rewrite repeat_length; reflexivity).
  unfold DataService.at_floor. rewrite HL.
  set (N := inject_Z (Z.of_nat n)) in *.
  assert (I0 : Z.to_nat (JS.Math_floor 0) = 0%nat) by reflexivity.
  assert (Ilast : Z.to_nat (JS.Math_floor (N - 1)) = (n - 1)%nat).
  { unfold JS.Math_floor, N.
    rewrite (Qfloor_comp _ (inject_Z (Z.of_nat n - 1))).
    - rewrite Qfloor_Z. lia.
    - unfold Zminus. rewrite inject_Z_plus. reflexivity. }
  assert (Hhalf : N / 2 == N * (1 # 2)) by field.
  assert (B1 : (Z.to_nat (JS.Math_floor (N * 0.25))
                <= Z.to_nat (JS.Math_floor (N / 2)))%nat)
    by (apply floor_index_le; [lra | rewrite Hhalf; lra]).
  assert (B2 : (Z.to_nat (JS.Math_floor (N / 2))
                <= Z.to_nat (JS.Math_floor (N * 0.75)))%nat)
    by (apply floor_index_le; rewrite Hhalf; lra).
  assert (B3 : (Z.to_nat (JS.Math_floor (N * 0.75)) < n)%nat)
    by (apply floor_index; [lra | rewrite Hrep; fold N; lra]).
  rewrite I0, Ilast.
  split; [reflexivity |]. split; [exact Hn |].
  repeat split; apply toFixed_le; apply nth_sorted_le; try exact S; lia.
Qed.


(** ** Market validation *)

(** The minimum [getMarketCapRate] reports is not above the maximum. *)
Lemma getMarketCapRate_ordered this sector market period r :
  MarketValidationService.getMarketCapRate this sector market period = Some r ->
  MarketValidationService.minRate r <= MarketValidationService.maxRate r.
Proof.
  unfold MarketValidationService.getMarketCapRate.
  destruct (negb (JS.truthy_opt sector) || negb (JS.truthy_opt market)
            || negb (JS.truthy_opt period))%bool; [discriminate |].
  destruct (Nat.eqb _ 0); [discriminate |].
  destruct (MarketValidationService.collectRates _) as [| r0 rest];
    [discriminate |].
  intros E. inversion E; subst; clear E.
  cbn [MarketValidationService.minRate MarketValidationService.maxRate].
  apply min_le_max.
Qed.



(** X17.  The market position of [getMarketValidationSummary] agrees
    with the verdict of [validatePropertyValue] on the same deal and
    market data, when the market minimum is not negative: an OVERVALUED
    property is below the market and rated HIGH, an UNDERVALUED one is
    above the market and rated LOW, and a deal within the market range
    is never given one of these two verdicts. *)
Theorem market_position_agrees_with_verdict (this : MarketValidationService.t)
    (m : DealModel.t) (sector market period : option string)
    (md : MarketValidationService.MarketCapRate) :
  MarketValidationService.getMarketCapRate this sector market period = Some md ->
  0 <= MarketValidationService.minRate md ->
  ~ DealModel.propertyValue m == 0 ->
  let v := MarketValidationService.validatePropertyValue this
             (DealModel.propertyValue m) (DealModel.annualNOI m)
             sector market period in
  let s := fst (DealModel.getMarketValidationSummary m
                  {| DealModel.minRate := MarketValidationService.minRate md;
                     DealModel.maxRate := MarketValidationService.maxRate md;
                     DealModel.avgRate := MarketValidationService.avgRate md |}
                  (Some (MarketValidationService.validation v))) in
  (MarketValidationService.validation v = Some "OVERVALUED"%string ->
   DealModel.position (DealModel.marketComparison s) = "BELOW_MARKET"%string
   /\ DealModel.ra_level (DealModel.riskAssessment s) = "HIGH"%string)
  /\ (MarketValidationService.validation v = Some "UNDERVALUED"%string ->
      DealModel.position (DealModel.marketComparison s) = "ABOVE_MARKET"%string
      /\ DealModel.ra_level (DealModel.riskAssessment s) = "LOW"%string)
  /\ (DealModel.position (DealModel.marketComparison s) = "WITHIN_MARKET"%string ->
      MarketValidationService.validation v = Some "WITHIN_RANGE"%string
      \/ MarketValidationService.validation v = Some "REVIEW_REQUIRED"%string).
Proof.
  intros Hmd Hmin _ v s.
  pose proof (getMarketCapRate_ordered _ _ _ _ _ Hmd) as O.
  subst s v. unfold MarketValidationService.validatePropertyValue.
  rewrite Hmd. unfold DealModel.getMarketValidationSummary.
  assert (Hsame : forall c m', DealModel.calculate m = (c, m') ->
            DealModel.annualNOI m' = DealModel.annualNOI m
            /\ DealModel.propertyValue m' = DealModel.propertyValue m).
  { intros c m'. unfold DealModel.calculate.
    destruct (DealModel._calculations m); intros E; inversion E; subst;
      split; reflexivity. }
  destruct (DealModel.calculate m) as [c m'] eqn:Ec.
  destruct (Hsame c m' eq_refl) as [En Ep]. rewrite En, Ep. clear Hsame.
  cbn [DealModel.minRate DealModel.maxRate DealModel.avgRate].
  set (cap := DealModel.annualNOI m / DealModel.propertyValue m * 100).
  set (lo := MarketValidationService.minRate md) in *.
  set (hi := MarketValidationService.maxRate md) in *.
  set (av := MarketValidationService.avgRate md) in *.
  destruct (JS.ltb cap (lo * 0.8)) eqn:B1;
    [| destruct (JS.gtb cap (hi * 1.2)) eqn:B2;
       [| destruct (JS.gtb _ 15) eqn:B3]];
    cbn [MarketValidationService.validation fst DealModel.marketComparison
         DealModel.position DealModel.riskAssessment DealModel.ra_level];
    destruct (JS.ltb cap lo) eqn:B4; destruct (JS.gtb cap hi) eqn:B5;
    order_facts; try (exfalso; lra);
    (split; [intros H; first [discriminate H | split; reflexivity] |]);
    (split; [intros H; first [discriminate H | split; reflexivity] |]);
    intros H; first [discriminate H | left; reflexivity | right; reflexivity].
Qed.

Lemma market_position_agrees_with_verdict_witness :
  DealModel.position
    (DealModel.marketComparison
       (fst (DealModel.getMarketValidationSummary Sample.example_deal
               {| DealModel.minRate := 6.3; DealModel.maxRate := 13 # 2;
                  DealModel.avgRate := 32 # 5 |}
               (Some (Some "UNDERVALUED"%string)))))
  = "ABOVE_MARKET"%string.
Proof.
  assert (N : ~ DealModel.propertyValue Sample.example_deal == 0) by discriminate.
  assert (P : 0 <= 6.3) by discriminate.
  exact (proj1 (proj1 (proj2
           (market_position_agrees_with_verdict
              (MarketValidationService.constructor Sample.one_record)
              Sample.example_deal
              (Some "Office"%string) (Some "Dallas"%string) (Some "2024_1"%string)
              {| MarketValidationService.avgRate := 32 # 5;
                 MarketValidationService.minRate := 6.3;
                 MarketValidationService.maxRate := 13 # 2;
                 MarketValidationService.dataPoints := 2;
                 MarketValidationService.sector := "Office";
                 MarketValidationService.market := "Dallas";
                 MarketValidationService.period := "2024_1" |}
              eq_refl P N)) eq_refl)).
Defined.

(** X18.  [derivePropertyValue] answers [null] exactly when the NOI is
    zero or the cap rate is not positive.  Otherwise the derived value is
    NOI / (rate / 100) rounded to the dollar, hence within half a dollar
    of it, and it is the property value of the scenario that
    [scenarioAnalysis] computes for the same rate. *)
Theorem derived_value_is_scenario_value (m : DealModel.t)
    (range : DealModel.CapRateRange) :
  let noi := DealModel.annualNOI m in
  let rate := DealModel.avgRate range in
  match MarketValidationService.derivePropertyValue (Some noi) (Some rate) with
  | None => noi == 0 \/ rate <= 0
  | Some d =>
      ~ noi == 0 /\ 0 < rate
      /\ noi / (rate / 100) - (1 # 2) < MarketValidationService.derivedValue d
      /\ MarketValidationService.derivedValue d <= noi / (rate / 100) + (1 # 2)
      /\ exists s, In s (DealModel.scenarioAnalysis m range)
                   /\ DealModel.label s = "Average"%string
                   /\ DealModel.capRate s = rate
                   /\ DealModel.sc_propertyValue s
                      = MarketValidationService.derivedValue d
  end.
Proof.
  intros noi rate. unfold MarketValidationService.derivePropertyValue.
  unfold JS.truthy.
  destruct (Qeq_bool noi 0) eqn:B1; cbn [negb orb].
  { left. apply Qeq_bool_eq. exact B1. }
  destruct (Qeq_bool rate 0) eqn:B2; cbn [negb orb].
  { right. apply Qeq_bool_eq in B2. rewrite B2. apply Qle_refl. }
  destruct (JS.leb rate 0) eqn:B3; order_facts; [right; exact B3 |].
  cbn [MarketValidationService.derivedValue].
  split; [apply Qeq_bool_neq; exact B1 |]. split; [exact B3 |].
  split; [apply Math_round_near |]. split; [apply Math_round_near |].
  unfold DealModel.scenarioAnalysis. cbn [combine fold_left].
  fold noi rate.
  assert (G : JS.gtb rate 0 = true) by (apply gtb_true; exact B3).
  rewrite G.
  destruct (JS.gtb (DealModel.minRate range) 0);
    destruct (JS.gtb (DealModel.maxRate range) 0); cbn [app].
  1, 2: eexists; split; [right; left; reflexivity | repeat split].
  all: eexists; split; [left; reflexivity | repeat split].
Qed.

(** The band of an implied LTV is one of four. *)
Lemma impliedLTV_band (loan value : option Q) :
  match MarketValidationService.calculateImpliedLTV loan value with
  | None => True
  | Some i =>
      In (MarketValidationService.riskLevel i)
        ["HIGH_RISK"; "AGGRESSIVE"; "STANDARD"; "CONSERVATIVE"]%string
  end.
Proof.
  destruct loan as [loan |], value as [value |];
    try (cbn [MarketValidationService.calculateImpliedLTV]; exact I).
  destruct (MarketValidationService.calculateImpliedLTV (Some loan) (Some value))
    as [i |] eqn:El; [| exact I].
  apply calculateImpliedLTV_some in El. cbv zeta in El.
  rewrite El. cbn [In].
  destruct (JS.gtb _ 85); [tauto |]. destruct (JS.gtb _ 80); [tauto |].
  destruct (JS.gtb _ 75); tauto.
Qed.

(** The recommendations for a verdict and an LTV band: a pair for every
    verdict but WITHIN_RANGE, a pair for the bands HIGH_RISK and
    AGGRESSIVE. *)
Lemma recommendations_shape (results : MarketValidationService.Results) :
  let verdict :=
    match MarketValidationService.res_validation results with
    | Some v => MarketValidationService.validation v
    | None => None
    end in
  let band := option_map MarketValidationService.riskLevel
                (MarketValidationService.res_impliedLTV results) in
  In verdict [None; Some "OVERVALUED"; Some "UNDERVALUED";
              Some "REVIEW_REQUIRED"; Some "WITHIN_RANGE"]%string ->
  In band [None; Some "HIGH_RISK"; Some "AGGRESSIVE"; Some "STANDARD";
           Some "CONSERVATIVE"]%string ->
  In (List.length (MarketValidationService.generateRecommendations results))
    [0; 2; 4]%nat
  /\ (MarketValidationService.generateRecommendations results = []
      <-> (verdict = None \/ verdict = Some "WITHIN_RANGE"%string)
          /\ (band = None \/ band = Some "CONSERVATIVE"%string
              \/ band = Some "STANDARD"%string)).
Proof.
  intros verdict band Hv Hb.
  assert (Hne : forall a b : option string,
            DataService.opt_eqb a b = false -> a = b -> False).
  { intros a b F K. apply opt_eqb_eq in K. congruence. }
  unfold MarketValidationService.generateRecommendations.
  subst verdict band.
  destruct (MarketValidationService.res_validation results) as [v |];
    destruct (MarketValidationService.res_impliedLTV results) as [i |];
    cbn [option_map In] in *;
    repeat match goal with
      | H : _ \/ _ |- _ => destruct H as [H | H]
      | H : False |- _ => destruct H
      | H : None = Some _ |- _ => discriminate H
      | H : Some _ = Some (MarketValidationService.riskLevel _) |- _ =>
          injection H as H
      | H : _ = MarketValidationService.validation _ |- _ => rewrite <- H; clear H
      | H : _ = MarketValidationService.riskLevel _ |- _ => rewrite <- H; clear H
      end;
    cbn [JS.strict_eq]; rewrite ?String.eqb_refl;
    repeat match goal with
      | |- context [String.eqb ?a ?b] =>
          change (String.eqb a b) with false; cbv iota
      end;
    cbn [app List.length In];
    (split;
     [ first [ left; reflexivity | right; left; reflexivity
             | right; right; left; reflexivity ] |]);
    (split;
     [ intros H;
       first [ discriminate H
             | split;
               [ first [left; reflexivity | right; reflexivity]
               | first [ left; reflexivity | right; left; reflexivity
                       | right; right; reflexivity ] ] ]
     | intros [H1 H2];
       first [ reflexivity
             | exfalso;
               first [ destruct H1 as [H1 | H1];
                       (apply Hne in H1; [contradiction | reflexivity])
                     | destruct H2 as [H2 | [H2 | H2]];
                       (apply Hne in H2; [contradiction | reflexivity]) ] ] ]).
Qed.

(** X19.  [performMarketValidation] reports an error exactly when there
    is no market data, and then nothing else.  It never returns both a
    validation and a derived value: a validation only for a property value
    other than zero, and then the one of [validatePropertyValue].  The
    recommendations come in pairs, at most two pairs, and there is none
    exactly when the verdict, if any, is WITHIN_RANGE and the LTV band, if
    any, is CONSERVATIVE or STANDARD. *)
Theorem market_validation_modes (this : MarketValidationService.t)
    (inputs : MarketValidationService.Inputs) :
  let r := MarketValidationService.performMarketValidation this inputs in
  let verdict :=
    match MarketValidationService.res_validation r with
    | Some v => MarketValidationService.validation v
    | None => None
    end in
  let band := option_map MarketValidationService.riskLevel
                (MarketValidationService.res_impliedLTV r) in
  (MarketValidationService.error r <> None
   <-> MarketValidationService.getMarketCapRate this
         (MarketValidationService.in_sector inputs)
         (MarketValidationService.in_market inputs)
         (MarketValidationService.in_period inputs) = None)
  /\ (MarketValidationService.error r <> None ->
      MarketValidationService.res_marketData r = None
      /\ MarketValidationService.res_derivedValue r = None
      /\ MarketValidationService.res_validation r = None
      /\ MarketValidationService.res_impliedLTV r = None
      /\ MarketValidationService.recommendations r = [])
  /\ (MarketValidationService.res_validation r = None
      \/ MarketValidationService.res_derivedValue r = None)
  /\ (forall v, MarketValidationService.res_validation r = Some v ->
        exists pv, MarketValidationService.in_propertyValue inputs = Some pv
                   /\ ~ pv == 0
                   /\ v = MarketValidationService.validatePropertyValue this pv
                            (MarketValidationService.in_annualNOI inputs)
                            (MarketValidationService.in_sector inputs)
                            (MarketValidationService.in_market inputs)
                            (MarketValidationService.in_period inputs))
  /\ In (List.length (MarketValidationService.recommendations r)) [0; 2; 4]%nat
  /\ (MarketValidationService.recommendations r = []
      <-> (verdict = None \/ verdict = Some "WITHIN_RANGE"%string)
          /\ (band = None \/ band = Some "CONSERVATIVE"%string
              \/ band = Some "STANDARD"%string)).
Proof.
  intros r verdict band. subst verdict band r.
  unfold MarketValidationService.performMarketValidation.
  destruct (MarketValidationService.getMarketCapRate this _ _ _) as [md |] eqn:Emd.
  2:{ cbn. repeat split; try discriminate; try tauto; try (intros; congruence);
        try (left; reflexivity). }
  assert (Hband : forall loan value,
            In (option_map MarketValidationService.riskLevel
                  (MarketValidationService.calculateImpliedLTV loan value))
              [None; Some "HIGH_RISK"; Some "AGGRESSIVE"; Some "STANDARD";
               Some "CONSERVATIVE"]%string).
  { intros loan value. pose proof (impliedLTV_band loan value) as B.
    destruct (MarketValidationService.calculateImpliedLTV loan value) as [i |];
      cbn [option_map In] in *; [| left; reflexivity].
    right. destruct B as [B | [B | [B | [B | []]]]]; rewrite <- B; tauto. }
  set (truthy_value := match MarketValidationService.in_propertyValue inputs with
                       | Some pv => JS.truthy pv
                       | None => false
                       end).
  destruct truthy_value eqn:T; subst truthy_value.
  - (* validation *)
    destruct (MarketValidationService.in_propertyValue inputs) as [pv |] eqn:Epv;
      [| discriminate T].
    assert (Hpv : ~ pv == 0).
    { intros Z. unfold JS.truthy in T. rewrite (Qeq_eq_bool _ _ Z) in T.
      discriminate T. }
    set (v := MarketValidationService.validatePropertyValue this pv _ _ _ _).
    assert (Hv : In (MarketValidationService.validation v)
                   [None; Some "OVERVALUED"; Some "UNDERVALUED";
                    Some "REVIEW_REQUIRED"; Some "WITHIN_RANGE"]%string).
    { subst v. unfold MarketValidationService.validatePropertyValue.
      rewrite Emd. cbn [In].
      destruct (JS.ltb _ _); [tauto |]. destruct (JS.gtb _ _); [tauto |].
      destruct (JS.gtb _ _); tauto. }
    cbn [MarketValidationService.error MarketValidationService.res_marketData
         MarketValidationService.res_derivedValue
         MarketValidationService.res_validation
         MarketValidationService.res_impliedLTV
         MarketValidationService.recommendations].
    split; [split; [intros H; exfalso; apply H; reflexivity | discriminate] |].
    split; [intros H; exfalso; apply H; reflexivity |].
    split; [right; reflexivity |].
    split; [intros v' E; inversion E; subst v'; exists pv; auto |].
    apply (recommendations_shape
             {| MarketValidationService.res_marketData := Some md;
                MarketValidationService.res_derivedValue := None;
                MarketValidationService.res_validation := Some v;
                MarketValidationService.res_impliedLTV :=
                  MarketValidationService.calculateImpliedLTV
                    (Some (MarketValidationService.in_loanAmount inputs)) (Some pv);
                MarketValidationService.recommendations := [];
                MarketValidationService.error := None |});
      cbn [MarketValidationService.res_validation
           MarketValidationService.res_impliedLTV]; [exact Hv | apply Hband].
  - (* derivation *)
    set (d := MarketValidationService.derivePropertyValue _ _).
    set (l := match d with
              | Some d0 => MarketValidationService.calculateImpliedLTV
                             (Some (MarketValidationService.in_loanAmount inputs))
                             (Some (MarketValidationService.derivedValue d0))
              | None => None
              end).
    assert (Hl : In (option_map MarketValidationService.riskLevel l)
                   [None; Some "HIGH_RISK"; Some "AGGRESSIVE"; Some "STANDARD";
                    Some "CONSERVATIVE"]%string).
    { subst l. destruct d as [d0 |]; [apply Hband | left; reflexivity]. }
    cbn [MarketValidationService.error MarketValidationService.res_marketData
         MarketValidationService.res_derivedValue
         MarketValidationService.res_validation
         MarketValidationService.res_impliedLTV
         MarketValidationService.recommendations].
    split; [split; [intros H; exfalso; apply H; reflexivity | discriminate] |].
    split; [intros H; exfalso; apply H; reflexivity |].
    split; [left; reflexivity |].
    split; [intros v' E; discriminate E |].
    apply (recommendations_shape
             {| MarketValidationService.res_marketData := Some md;
                MarketValidationService.res_derivedValue := d;
                MarketValidationService.res_validation := None;
                MarketValidationService.res_impliedLTV := l;
                MarketValidationService.recommendations := [];
                MarketValidationService.error := None |});
      cbn [MarketValidationService.res_validation
           MarketValidationService.res_impliedLTV]; [left; reflexivity | exact Hl].
Qed.

(** ** The dashboard controller *)

Lemma trend_rates_agree (periods : list string) (validData : list DataService.Row)
    (acc : list Q) :
  let push_avgs (rates : list Q) (row : DataService.Row) :=
    let rates :=
      match DataService.h1_avg row with
      | Some x => if JS.truthy x then rates ++ [x] else rates
      | None => rates
      end in
    match DataService.h2_avg row with
    | Some x => if JS.truthy x then rates ++ [x] else rates
    | None => rates
    end in
  exists rates,
    fold_left
      (fun '(recentRates, olderRates) row =>
         let recentRates :=
           if JS.includes periods (DataService.period_key row)
           then push_avgs recentRates row else recentRates in
         let olderRates :=
           if JS.includes periods (DataService.period_key row)
           then push_avgs olderRates row else olderRates in
         (recentRates, olderRates))
      validData (acc, acc)
    = (rates, rates).
Proof.
  intros push_avgs. revert acc.
  induction validData as [| row validData IH]; intros acc; cbn [fold_left].
  - exists acc. reflexivity.
  - apply IH.
Qed.

(** X20.  [calculateMarketTrend] answers "Insufficient Data" for fewer
    than two periods.  With exactly two periods the recent and the older
    window are the same two periods, so the trend is never rising or
    falling, whatever the data: the answer is "No Trend Data" or
    "→ Stable". *)
Theorem market_trend_needs_three_periods (periods : list string)
    (validData : list DataService.Row) :
  let trend := DashboardController.calculateMarketTrend periods validData in
  ((List.length periods < 2)%nat -> trend = "Insufficient Data"%string)
  /\ (List.length periods = 2%nat ->
      trend = "No Trend Data"%string \/ trend = "→ Stable"%string).
Proof.
  intros trend. subst trend. unfold DashboardController.calculateMarketTrend.
  split.
  - intros H. apply Nat.ltb_lt in H. rewrite H. reflexivity.
  - intros H. rewrite H. cbn [Nat.ltb Nat.leb].
    set (sortedPeriods := JS.sort_with DataService.comparePeriods periods).
    assert (Hlen : List.length sortedPeriods = 2%nat).
    { rewrite <- H. apply Permutation_length. apply sort_by_perm. }
    assert (Hlast : JS.lastn 2 sortedPeriods = sortedPeriods).
    { unfold JS.lastn. rewrite Hlen. reflexivity. }
    assert (Hfirst : firstn 2 sortedPeriods = sortedPeriods).
    { rewrite <- Hlen. apply firstn_all. }
    rewrite Hlast, Hfirst.
    destruct (trend_rates_agree sortedPeriods validData []) as [rates E].
    cbv zeta in E. rewrite E.
    destruct (Nat.eqb (List.length rates) 0); cbn [orb]; [left; reflexivity |].
    right.
    assert (B : JS.ltb (Qabs (JS.sum rates / JS.len rates
                              - JS.sum rates / JS.len rates)) 0.1 = true).
    { apply ltb_true.
      setoid_replace (JS.sum rates / JS.len rates - JS.sum rates / JS.len rates)
        with 0 by ring.
      reflexivity. }
    rewrite B. reflexivity.
Qed.

(** A field that [validateInput] marks valid holds a number that
    satisfies the rule of the field. *)
Lemma validateInput_valid (inputId value : string) :
  DashboardController.validateInput inputId value = Some true ->
  exists number, JS.parseFloat (Some value) = Some number
                 /\ DashboardController.inputRule inputId number = true.
Proof.
  unfold DashboardController.validateInput.
  destruct (JS.parseFloat (Some value)) as [number |]; [| discriminate].
  destruct (JS.truthy_string value); [| discriminate].
  intros E. inversion E. exists number. auto.
Qed.

(** X21.  When [validateInput] marks all six fields of the form valid,
    [calculateDeal] still refuses the form, with an alert, if the interest
    rate or the index rate is zero: the field rules admit a zero rate, the
    submit check does not.  With both rates positive it displays the
    metrics and the decision of the deal it builds (amortization in years),
    and on that deal [validateInputs] reports no bound violation, only,
    possibly, its three cross-field messages. *)
Theorem valid_form_fields (pv noi loan rate months sofr : string) :
  DashboardController.validateInput "propertyValue" pv = Some true ->
  DashboardController.validateInput "annualNOI" noi = Some true ->
  DashboardController.validateInput "loanAmount" loan = Some true ->
  DashboardController.validateInput "interestRate" rate = Some true ->
  DashboardController.validateInput "amortizationMonths" months = Some true ->
  DashboardController.validateInput "sofrRate" sofr = Some true ->
  exists pvN noiN loanN rateN monthsN sofrN,
    map (fun text => JS.parseFloat (Some text)) [pv; noi; loan; rate; months; sofr]
    = map Some [pvN; noiN; loanN; rateN; monthsN; sofrN]
    /\ let deal := DealModel.constructor pvN noiN loanN rateN (monthsN / 12) sofrN in
       (rateN == 0 \/ sofrN == 0 ->
        exists message,
          DashboardController.calculateDeal pv noi loan rate months sofr
          = DashboardController.Alert message)
       /\ (0 < rateN -> 0 < sofrN ->
           DashboardController.calculateDeal pv noi loan rate months sofr
           = DashboardController.Displayed
               (fst (DealModel.calculate deal))
               (fst (DealModel.getCreditDecision deal))
           /\ forall message,
                In message (DealModel.validateInputs deal) ->
                In message
                  ["Loan amount cannot exceed property value";
                   "NOI seems unusually high relative to property value";
                   "Interest rate should be higher than SOFR rate"]%string).
Proof.
  intros V1 V2 V3 V4 V5 V6.
  apply validateInput_valid in V1, V2, V3, V4, V5, V6.
  destruct V1 as [pvN [P1 R1]], V2 as [noiN [P2 R2]], V3 as [loanN [P3 R3]],
    V4 as [rateN [P4 R4]], V5 as [monthsN [P5 R5]], V6 as [sofrN [P6 R6]].
  exists pvN, noiN, loanN, rateN, monthsN, sofrN.
  cbn [map]. rewrite P1, P2, P3, P4, P5, P6. split; [reflexivity |].
  unfold DashboardController.inputRule in R1, R2, R3, R4, R5, R6.
  cbn in R1, R2, R3, R4, R5, R6.
  order_facts.
  assert (L1 : JS.leb pvN 0 = false) by (apply leb_false; assumption).
  assert (L2 : JS.leb noiN 0 = false) by (apply leb_false; assumption).
  assert (L3 : JS.leb loanN 0 = false) by (apply leb_false; assumption).
  assert (L5 : JS.leb monthsN 0 = false) by (apply leb_false; lra).
  cbv zeta. unfold DashboardController.calculateDeal.
  rewrite P1, P2, P3, P4, P5, P6. cbn [filter]. rewrite L1, L2, L3, L5.
  split.
  - intros Z.
    destruct (JS.leb rateN 0) eqn:L4; destruct (JS.leb sofrN 0) eqn:L6;
      cbn [map fst List.length Nat.ltb Nat.leb];
      try (eexists; reflexivity).
    exfalso. order_facts. destruct Z as [Z | Z]; rewrite Z in *; lra.
  - intros Hr Hs.
    assert (L4 : JS.leb rateN 0 = false) by (apply leb_false; assumption).
    assert (L6 : JS.leb sofrN 0 = false) by (apply leb_false; assumption).
    rewrite L4, L6. cbn [map fst snd List.length Nat.ltb Nat.leb].
    set (deal := DealModel.constructor pvN noiN loanN rateN (monthsN / 12) sofrN).
    split.
    + pose proof (getCreditDecision_cached deal) as G.
      destruct (DealModel.calculate deal) as [c deal1]. cbn [snd fst] in *.
      destruct (DealModel.getCreditDecision deal1) as [d deal2].
      cbn [fst] in G. rewrite G. reflexivity.
    + intros message Hin. apply In_validateInputs in Hin.
      cbn [deal DealModel.constructor DealModel.propertyValue DealModel.annualNOI
           DealModel.loanAmount DealModel.interestRate
           DealModel.amortizationYears DealModel.sofrRate] in Hin.
      cbn [In].
      assert (Y1 : JS.ltb (monthsN / 12) 1 = false).
      { apply ltb_false. apply Qle_shift_div_l; [reflexivity | lra]. }
      assert (Y2 : JS.gtb (monthsN / 12) 50 = false).
      { apply gtb_false. apply Qle_shift_div_r; [reflexivity | lra]. }
      assert (G4 : JS.gtb rateN 20 = false) by (apply gtb_false; assumption).
      assert (S1 : JS.ltb sofrN 0 = false) by (apply ltb_false; lra).
      assert (S2 : JS.gtb sofrN 10 = false) by (apply gtb_false; assumption).
      rewrite L1, L2, L3, L4, G4, Y1, Y2, S1, S2 in Hin. cbn [orb] in Hin.
      repeat (destruct Hin as [Hin | Hin];
              [destruct Hin as [Hin _]; discriminate Hin |]).
      destruct Hin as [[_ Hin] | [[_ Hin] | [_ Hin]]]; subst message; tauto.
Qed.

Lemma valid_form_fields_witness :
  exists message,
    DashboardController.calculateDeal
      "1000000" "80000" "750000" "0" "300" "4.2"
    = DashboardController.Alert message.
Proof.
  destruct (valid_form_fields "1000000" "80000" "750000" "0" "300" "4.2"
              eq_refl eq_refl eq_refl eq_refl eq_refl eq_refl)
    as (pvN & noiN & loanN & rateN & monthsN & sofrN & E & A & _).
  apply A. left. vm_compute in E. inversion E. reflexivity.
Defined.
